(** * ssaavvee: the gateway, the page renderer and the content formatter of
    [auth.js], embedded in Rocq.

    JavaScript strings are sequences of UTF-16 code units; the external
    identity and document provider ([window.*]) is an oracle held by the world;
    a rejected promise or a thrown exception is a [Thrown] completion that
    keeps every side effect made before it. *)

From Stdlib Require Import NArith ZArith Lia Bool String Ascii DecimalString List.
From ExtLib Require Import Structures.Monad Structures.MonadState Structures.MonadExc.
Import ListNotations.
Import MonadNotation.
Local Open Scope monad_scope.
Local Open Scope list_scope.

(* ===================================================================== *)
(** ** JavaScript strings *)
(* ===================================================================== *)

Module JS.

(** A UTF-16 code unit, and a string as the list of its code units. *)
Definition codeunit := N.
Definition str := list codeunit.

(** An ASCII literal as a JavaScript string. *)
Definition lit (s : string) : str :=
  List.map N_of_ascii (list_ascii_of_string s).

(** The double quote, which the literals of this file cannot hold. *)
Definition dquote : codeunit := 34%N.

(** A literal of markup: every backquote of [s] stands for a double quote
    (no template of [auth.js] holds a backquote of its own). *)
Definition html (s : string) : str :=
  List.map (fun c => if N.eqb c 96 then dquote else c) (lit s).

(** [a === b] on strings. *)
Fixpoint eqb_str (a b : str) : bool :=
  match a, b with
  | [], [] => true
  | x :: a', y :: b' => N.eqb x y && eqb_str a' b'
  | _, _ => false
  end.

(** ECMAScript WhiteSpace and LineTerminator code units: what [trim] strips
    and what [\s] matches. *)
Definition isWhiteSpace (c : codeunit) : bool :=
  ((9 <=? c) && (c <=? 13) || (c =? 32) || (c =? 160) || (c =? 5760)
   || (8192 <=? c) && (c <=? 8202) || (c =? 8232) || (c =? 8233)
   || (c =? 8239) || (c =? 8287) || (c =? 12288) || (c =? 65279))%N.

Fixpoint trimStart (s : str) : str :=
  match s with
  | c :: s' => if isWhiteSpace c then trimStart s' else s
  | [] => []
  end.

Definition trimEnd (s : str) : str := rev (trimStart (rev s)).

(** [String.prototype.trim]. *)
Definition trim (s : str) : str := trimEnd (trimStart s).

(** [s.length === 0], which for a string is also [!s]. *)
Definition isEmpty (s : str) : bool :=
  match s with [] => true | _ :: _ => false end.

(** An [Error] object: [new Error(message)] has no [code]; the provider's
    errors carry one. *)
Record jsError := { message : str; code : option str }.

Definition newError (m : string) : jsError :=
  {| message := lit m; code := None |}.


(** *** Regular expressions

    The patterns of [auth.js] need literal characters, bracket expressions,
    sequence, a greedy [?], a greedy [+] on a bracket expression and [$]. The
    matcher backtracks as the ECMAScript one does: it takes a continuation,
    and a greedy operator tries its longer alternative first. *)
Inductive regex :=
| Eps
| Chr (c : codeunit)
| Class (p : codeunit -> bool)
| Seq (r1 r2 : regex)
| Opt (r : regex)
| Plus (p : codeunit -> bool)
| Eos.

(** The literal characters of [s], in sequence. *)
Fixpoint word (s : str) : regex :=
  match s with
  | [] => Eps
  | c :: s' => Seq (Chr c) (word s')
  end.

(** [c] is one of the code units of [set]. *)
Definition oneOf (set : str) (c : codeunit) : bool :=
  existsb (N.eqb c) set.

Fixpoint plusLoop (p : codeunit -> bool) (s : str) (k : str -> option str)
  : option str :=
  match s with
  | c :: s' =>
      if p c
      then match plusLoop p s' k with
           | Some rest => Some rest
           | None => k s'
           end
      else None
  | [] => None
  end.

(** [matchRe r s k]: match [r] at the start of [s], then [k] on what is
    left; the result is what is left after the whole match. *)
Fixpoint matchRe (r : regex) (s : str) (k : str -> option str) : option str :=
  match r with
  | Eps => k s
  | Chr c =>
      match s with
      | x :: s' => if N.eqb x c then k s' else None
      | [] => None
      end
  | Class p =>
      match s with
      | x :: s' => if p x then k s' else None
      | [] => None
      end
  | Seq r1 r2 => matchRe r1 s (fun s1 => matchRe r2 s1 k)
  | Opt r1 =>
      match matchRe r1 s k with
      | Some rest => Some rest
      | None => k s
      end
  | Plus p => plusLoop p s k
  | Eos =>
      match s with
      | [] => k []
      | _ :: _ => None
      end
  end.

(** A match of [r] at the start of [s]: what is left after it. *)
Definition execAt (r : regex) (s : str) : option str := matchRe r s Some.

(** The text matched, given what is left. *)
Definition matched (s rest : str) : str := firstn (length s - length rest) s.

(** The replacement text of [String.prototype.replace] for a pattern whose
    only capture group is the whole match: [$$] is a dollar, [$&] and [$1]
    are the match. *)
Fixpoint getSubstitution (m : str) (template : str) : str :=
  match template with
  | [] => []
  | c :: t =>
      if N.eqb c 36
      then match t with
           | d :: t' =>
               if N.eqb d 36 then 36%N :: getSubstitution m t'
               else if N.eqb d 38 || N.eqb d 49 then m ++ getSubstitution m t'
               else c :: getSubstitution m t
           | [] => [c]
           end
      else c :: getSubstitution m t
  end.

(** [s.replace(/r/g, template)]: the matches are searched from left to right
    and do not overlap; [skip] counts the code units of the current match
    still to pass. An empty match is replaced and the search moves on by one
    code unit. *)
Fixpoint replaceFrom (r : regex) (template : str) (skip : nat) (s : str) : str :=
  match skip with
  | S n =>
      match s with
      | _ :: s' => replaceFrom r template n s'
      | [] => []
      end
  | O =>
      match execAt r s with
      | Some rest =>
          let m := matched s rest in
          getSubstitution m template ++
          match s with
          | c :: s' =>
              match length m with
              | O => c :: replaceFrom r template 0 s'
              | S n => replaceFrom r template n s'
              end
          | [] => []
          end
      | None =>
          match s with
          | c :: s' => c :: replaceFrom r template 0 s'
          | [] => []
          end
      end
  end.

Definition replaceAll (r : regex) (template : str) (s : str) : str :=
  replaceFrom r template 0 s.

(** [s.match(/r/g) || []]: the matches, from left to right. *)
Fixpoint matchFrom (r : regex) (skip : nat) (s : str) : list str :=
  match skip with
  | S n =>
      match s with
      | _ :: s' => matchFrom r n s'
      | [] => []
      end
  | O =>
      match execAt r s with
      | Some rest =>
          let m := matched s rest in
          m ::
          match s with
          | _ :: s' => matchFrom r (Nat.pred (length m)) s'
          | [] => []
          end
      | None =>
          match s with
          | _ :: s' => matchFrom r 0 s'
          | [] => []
          end
      end
  end.

Definition matchAll (r : regex) (s : str) : list str := matchFrom r 0 s.

(** [s.replace(/r/, template)], without the [g] flag: the first match only. *)
Fixpoint replaceFirst (r : regex) (template : str) (s : str) : str :=
  match execAt r s with
  | Some rest => getSubstitution (matched s rest) template ++ rest
  | None =>
      match s with
      | c :: s' => c :: replaceFirst r template s'
      | [] => []
      end
  end.

Fixpoint startsWith (pat s : str) : bool :=
  match pat, s with
  | [], _ => true
  | x :: pat', y :: s' => N.eqb x y && startsWith pat' s'
  | _ :: _, [] => false
  end.

(** [s.replace(pat, '')] for a string [pat]: the first occurrence is removed. *)
Fixpoint removeFirst (pat s : str) : str :=
  if startsWith pat s then skipn (length pat) s
  else match s with
       | c :: s' => c :: removeFirst pat s'
       | [] => []
       end.

(** [s.split(sep)] for a separator of one code unit. *)
Fixpoint split (sep : codeunit) (s : str) : list str :=
  match s with
  | [] => [[]]
  | c :: s' =>
      if N.eqb c sep then [] :: split sep s'
      else match split sep s' with
           | h :: t => (c :: h) :: t
           | [] => [[c]]
           end
  end.

(** [parts.join(sep)]. *)
Fixpoint join (sep : str) (parts : list str) : str :=
  match parts with
  | [] => []
  | [x] => x
  | x :: rest => x ++ sep ++ join sep rest
  end.

(** [pat] occurs in [s]. *)
Fixpoint includes (pat s : str) : bool :=
  startsWith pat s ||
  match s with
  | _ :: s' => includes pat s'
  | [] => false
  end.

(** [String(n)] for a non-negative integer: its decimal digits. *)
Definition numberToString (n : N) : str :=
  lit (NilZero.string_of_uint (N.to_uint n)).

End JS.
Export JS.

(* ===================================================================== *)
(** ** Completions and the state-and-exception monad *)
(* ===================================================================== *)

Inductive completion (A : Type) : Type :=
| Normal (a : A)
| Thrown (e : jsError).
Arguments Normal {A} a.
Arguments Thrown {A} e.

(** A computation over a state [S]: it ends normally or by a throw, and the
    state it leaves is kept in both cases. *)
Definition js (S A : Type) : Type := S -> completion A * S.

Definition js_ret {S A} (a : A) : js S A := fun s => (Normal a, s).

Definition js_bind {S A B} (m : js S A) (f : A -> js S B) : js S B :=
  fun s =>
    match m s with
    | (Normal a, s') => f a s'
    | (Thrown e, s') => (Thrown e, s')
    end.

Definition js_throw {S A} (e : jsError) : js S A := fun s => (Thrown e, s).

(** [try { m } catch (error) { h error }]. *)
Definition js_catch {S A} (m : js S A) (h : jsError -> js S A) : js S A :=
  fun s =>
    match m s with
    | (Normal a, s') => (Normal a, s')
    | (Thrown e, s') => h e s'
    end.

#[export] Instance Monad_js {S} : Monad (js S) :=
  {| ret := @js_ret S; bind := @js_bind S |}.

#[export] Instance MonadExc_js {S} : MonadExc jsError (js S) :=
  {| raise := @js_throw S; catch := @js_catch S |}.

#[export] Instance MonadState_js {S} : MonadState S (js S) :=
  {| get := fun s => (Normal s, s); put := fun s _ => (Normal tt, s) |}.

(* ===================================================================== *)
(** ** The data model and the external provider *)
(* ===================================================================== *)

(** The identity the provider issues ([userCredential.user]). *)
Record user := {
  uid : str;
  email : str;
  emailVerified : bool;
  lastSignInTime : option Z
}.

(** A timestamp field: the [window.serverTimestamp()] sentinel of a write, a
    resolved time (milliseconds, what [toDate()] gives), or none. *)
Inductive timestamp :=
| serverTimestamp
| Timestamp (ms : Z)
| noTimestamp.

(** Documents of the collections [posts], [categories] and [users]. A post
    read back may lack its category or its creation time, the two absences
    [renderPosts] provides for. *)
Record postData := {
  content : str;
  category : option str;
  userId : str;
  userEmail : str;
  createdAt : timestamp;
  updatedAt : timestamp
}.

Record categoryData := {
  name : str;
  createdBy : str;
  categoryCreatedAt : timestamp
}.

Record profileData := {
  profileEmail : option str;
  profileCreatedAt : option timestamp;
  lastLogin : option timestamp
}.

Inductive docData :=
| PostDoc (d : postData)
| CategoryDoc (d : categoryData)
| ProfileDoc (d : profileData).

(** [{ id: doc.id, ...doc.data() }]. *)
Record doc (D : Type) := { id : str; data : D }.
Arguments id {D} d.
Arguments data {D} d.

Definition post := doc postData.
Definition categoryItem := doc categoryData.

Inductive direction := asc | desc.

(** [window.query(collection, where(f, '==', v)?, orderBy(f, d), limit(n)?)]. *)
Record query := {
  collection : str;
  whereEq : option (str * str);
  orderBy : str * direction;
  limit : option N
}.

(** The handle of a live query: what calling it releases. *)
Definition handle := nat.

(** Every call the application can make to the provider. *)
Inductive call :=
| CreateUserWithEmailAndPassword (email password : str)
| SignInWithEmailAndPassword (email password : str)
| SignOut
| SetDoc (coll docId : str) (d : profileData) (merge : bool)
| AddDoc (coll : str) (d : docData)
| OnSnapshot (q : query)
| Unsubscribe (h : handle).

(** The provider is opaque: each entry answers a call given the calls made
    before it, by a value or by an error. *)
Record provider := {
  createUserWithEmailAndPassword : list call -> str -> str -> completion user;
  signInWithEmailAndPassword : list call -> str -> str -> completion user;
  signOut : list call -> completion unit;
  setDoc : list call -> str -> str -> profileData -> bool -> completion unit;
  addDoc : list call -> str -> docData -> completion str;
  onSnapshot : list call -> query -> completion unit
}.

(** What a listener does when the provider notifies it: log to the console,
    or hand a message to the subscriber (the subscriber's callback applied to
    its argument). *)
Inductive effect (Msg : Type) :=
| ConsoleError (label : str) (e : jsError)
| Notify (m : Msg).
Arguments ConsoleError {Msg} label e.
Arguments Notify {Msg} m.

(** The two functions handed to [window.onSnapshot]. *)
Record listener (D Msg : Type) := {
  onNext : list (doc D) -> list (effect Msg);
  onError : jsError -> list (effect Msg)
}.
Arguments onNext {D Msg} l.
Arguments onError {D Msg} l.

Inductive anyListener (Msg : Type) :=
| PostsListener (l : listener postData Msg)
| CategoriesListener (l : listener categoryData Msg).
Arguments PostsListener {Msg} l.
Arguments CategoriesListener {Msg} l.

(** The world: the gateway's fields, the console, and the provider with what
    it holds (identities, documents, live queries). *)
Record world (Msg : Type) := {
  backend : provider;
  currentUser : option user;
  calls : list call;
  console : list (str * jsError);
  accounts : list user;
  documents : list (str * str * docData);
  listeners : list (handle * anyListener Msg);
  nextHandle : handle
}.
Arguments backend {Msg} w.
Arguments currentUser {Msg} w.
Arguments calls {Msg} w.
Arguments console {Msg} w.
Arguments accounts {Msg} w.
Arguments documents {Msg} w.
Arguments listeners {Msg} w.
Arguments nextHandle {Msg} w.

(* ===================================================================== *)
(** ** The calls to the provider ([window.*]) *)
(* ===================================================================== *)

Section Window.
Context {Msg : Type}.

#[local] Abbreviation world := (world Msg).

Definition recordCall (c : call) (w : world) : world :=
  {| backend := backend w; currentUser := currentUser w;
     calls := calls w ++ [c]; console := console w;
     accounts := accounts w; documents := documents w;
     listeners := listeners w; nextHandle := nextHandle w |}.

Definition setCurrentUser (u : option user) (w : world) : world :=
  {| backend := backend w; currentUser := u;
     calls := calls w; console := console w;
     accounts := accounts w; documents := documents w;
     listeners := listeners w; nextHandle := nextHandle w |}.

Definition logError (label : str) (e : jsError) (w : world) : world :=
  {| backend := backend w; currentUser := currentUser w;
     calls := calls w; console := console w ++ [(label, e)];
     accounts := accounts w; documents := documents w;
     listeners := listeners w; nextHandle := nextHandle w |}.

Definition setAccounts (l : list user) (w : world) : world :=
  {| backend := backend w; currentUser := currentUser w;
     calls := calls w; console := console w;
     accounts := l; documents := documents w;
     listeners := listeners w; nextHandle := nextHandle w |}.

Definition setDocuments (l : list (str * str * docData)) (w : world) : world :=
  {| backend := backend w; currentUser := currentUser w;
     calls := calls w; console := console w;
     accounts := accounts w; documents := l;
     listeners := listeners w; nextHandle := nextHandle w |}.

Definition setListeners (l : list (handle * anyListener Msg)) (n : handle)
    (w : world) : world :=
  {| backend := backend w; currentUser := currentUser w;
     calls := calls w; console := console w;
     accounts := accounts w; documents := documents w;
     listeners := l; nextHandle := n |}.

(** [console.error(label, error)]. *)
Definition consoleError (label : string) (e : jsError) : js world unit :=
  fun w => (Normal tt, logError (lit label) e w).

(** [await window.createUserWithEmailAndPassword(auth, email, password)]: on
    success the provider holds the new identity. *)
Definition window_createUserWithEmailAndPassword (email password : str)
  : js world user :=
  fun w =>
    let w' := recordCall (CreateUserWithEmailAndPassword email password) w in
    match createUserWithEmailAndPassword (backend w) (calls w) email password with
    | Normal u => (Normal u, setAccounts (accounts w ++ [u]) w')
    | Thrown e => (Thrown e, w')
    end.

(** [await window.signInWithEmailAndPassword(auth, email, password)]. The
    gateway's [currentUser] changes only when the provider announces the new
    state to the listener of [onAuthStateChanged]. *)
Definition window_signInWithEmailAndPassword (email password : str)
  : js world user :=
  fun w =>
    (signInWithEmailAndPassword (backend w) (calls w) email password,
     recordCall (SignInWithEmailAndPassword email password) w).

(** [await window.signOut(auth)]. *)
Definition window_signOut : js world unit :=
  fun w => (signOut (backend w) (calls w), recordCall SignOut w).

(** A profile written over another with [{ merge: true }]. *)
Definition mergeProfile (old new : profileData) : profileData :=
  {| profileEmail :=
       match profileEmail new with Some x => Some x | None => profileEmail old end;
     profileCreatedAt :=
       match profileCreatedAt new with
       | Some x => Some x | None => profileCreatedAt old end;
     lastLogin :=
       match lastLogin new with Some x => Some x | None => lastLogin old end |}.

Fixpoint storeProfile (docId : str) (d : profileData) (merge : bool)
    (l : list (str * str * docData)) : list (str * str * docData) :=
  match l with
  | [] => [(lit "users", docId, ProfileDoc d)]
  | (c, i, x) :: l' =>
      if eqb_str c (lit "users") && eqb_str i docId
      then match x with
           | ProfileDoc old =>
               (c, i, ProfileDoc (if merge then mergeProfile old d else d)) :: l'
           | _ => (c, i, ProfileDoc d) :: l'
           end
      else (c, i, x) :: storeProfile docId d merge l'
  end.

(** [await window.setDoc(window.doc(db, coll, docId), d, { merge })]. *)
Definition window_setDoc (coll docId : str) (d : profileData) (merge : bool)
  : js world unit :=
  fun w =>
    let w' := recordCall (SetDoc coll docId d merge) w in
    match setDoc (backend w) (calls w) coll docId d merge with
    | Normal tt => (Normal tt, setDocuments (storeProfile docId d merge (documents w)) w')
    | Thrown e => (Thrown e, w')
    end.

(** [await window.addDoc(window.collection(db, coll), d)]: on success the
    document is persisted under the identifier the provider assigns, which is
    [docRef.id]. *)
Definition window_addDoc (coll : str) (d : docData) : js world str :=
  fun w =>
    let w' := recordCall (AddDoc coll d) w in
    match addDoc (backend w) (calls w) coll d with
    | Normal docId => (Normal docId, setDocuments (documents w ++ [(coll, docId, d)]) w')
    | Thrown e => (Thrown e, w')
    end.

(** [window.onSnapshot(q, next, error)]: on success the live query stands
    until its handle is called. *)
Definition window_onSnapshot (q : query) (l : anyListener Msg) : js world handle :=
  fun w =>
    let w' := recordCall (OnSnapshot q) w in
    match onSnapshot (backend w) (calls w) q with
    | Normal tt =>
        (Normal (nextHandle w),
         setListeners (listeners w ++ [(nextHandle w, l)]) (S (nextHandle w)) w')
    | Thrown e => (Thrown e, w')
    end.

(** Calling the function [window.onSnapshot] returned. *)
Definition unsubscribe (h : handle) : js world unit :=
  fun w =>
    (Normal tt,
     setListeners (filter (fun hl => negb (Nat.eqb (fst hl) h)) (listeners w))
       (nextHandle w) (recordCall (Unsubscribe h) w)).

End Window.

(* ===================================================================== *)
(** ** FirebaseAuthManager

    The methods that write or subscribe. The one-time reads
    ([getUserProfile], [getPosts], [getCategories]) come after the page, over
    the read entries of the provider; [destroy] is not part of the model. *)
(* ===================================================================== *)

(** [switch (scrutinee) { case k: return v; ... default: return d }] on a
    string that may be undefined. *)
Fixpoint switch {A} (scrutinee : option str) (cases : list (string * A)) (d : A) : A :=
  match cases with
  | [] => d
  | (k, v) :: rest =>
      match scrutinee with
      | Some c => if eqb_str c (lit k) then v else switch scrutinee rest d
      | None => d
      end
  end.

(** [handleFirebaseError(error)]. *)
Definition handleFirebaseError (error : jsError) : jsError :=
  switch (code error)
    [ ("auth/email-already-in-use", newError "An account with this email already exists");
      ("auth/invalid-email", newError "Please enter a valid email address");
      ("auth/operation-not-allowed", newError "Email/password accounts are not enabled");
      ("auth/weak-password", newError "Password should be at least 6 characters");
      ("auth/user-disabled", newError "This account has been disabled");
      ("auth/user-not-found", newError "No account found with this email");
      ("auth/wrong-password", newError "Incorrect password");
      ("auth/invalid-credential", newError "Invalid email or password");
      ("auth/too-many-requests", newError "Too many failed attempts. Please try again later") ]%string
    (newError "Authentication failed. Please try again").

Section FirebaseAuthManager.
Context {Msg : Type}.

#[local] Abbreviation world := (world Msg).

(** [createUserProfile(uid, profileData)]. *)
Definition createUserProfile (uid : str) (profileData : profileData) : js world unit :=
  catch
    (window_setDoc (lit "users") uid profileData false)
    (fun error =>
       consoleError "Error creating user profile:" error ;;
       raise (newError "Failed to create user profile")).

(** [updateUserProfile(uid, updates)]: the catch block only logs. *)
Definition updateUserProfile (uid : str) (updates : profileData) : js world unit :=
  catch
    (window_setDoc (lit "users") uid updates true)
    (fun error => consoleError "Error updating user profile:" error).

(** [registerUser(email, password)]. *)
Definition registerUser (email password : str) : js world user :=
  catch
    (userCredential <- window_createUserWithEmailAndPassword email password ;;
     let user := userCredential in
     createUserProfile (uid user)
       {| profileEmail := Some email;
          profileCreatedAt := Some serverTimestamp;
          lastLogin := Some serverTimestamp |} ;;
     ret user)
    (fun error => raise (handleFirebaseError error)).

(** [authenticateUser(email, password)]. *)
Definition authenticateUser (email password : str) : js world user :=
  catch
    (userCredential <- window_signInWithEmailAndPassword email password ;;
     let user := userCredential in
     updateUserProfile (uid user)
       {| profileEmail := None;
          profileCreatedAt := None;
          lastLogin := Some serverTimestamp |} ;;
     ret user)
    (fun error => raise (handleFirebaseError error)).

(** [isAuthenticated()] and [getCurrentUser()]. *)
Definition isAuthenticated (w : world) : bool :=
  match currentUser w with Some _ => true | None => false end.

Definition getCurrentUser : js world (option user) :=
  fun w => (Normal (currentUser w), w).

(** [logout()]. *)
Definition logout : js world unit :=
  catch
    window_signOut
    (fun error =>
       consoleError "Error signing out:" error ;;
       raise (newError "Failed to sign out")).

(** [createPost(content, category = 'General')]. *)
Definition createPost (content : str) (category : option str) : js world post :=
  let category := match category with Some c => c | None => lit "General" end in
  currentUser <- getCurrentUser ;;
  match currentUser with
  | None => raise (newError "User must be authenticated to create posts")
  | Some currentUser =>
      if isEmpty content || isEmpty (trim content)
      then raise (newError "Post content cannot be empty")
      else
        catch
          (let postData :=
             {| content := trim content;
                category := Some category;
                userId := uid currentUser;
                userEmail := email currentUser;
                createdAt := serverTimestamp;
                updatedAt := serverTimestamp |} in
           docRef <- window_addDoc (lit "posts") (PostDoc postData) ;;
           ret {| id := docRef; data := postData |})
          (fun error =>
             consoleError "Error creating post:" error ;;
             raise (newError "Failed to create post"))
  end.

(** [createCategory(categoryName)]. *)
Definition createCategory (categoryName : str) : js world categoryItem :=
  currentUser <- getCurrentUser ;;
  match currentUser with
  | None => raise (newError "User must be authenticated to create categories")
  | Some currentUser =>
      if isEmpty categoryName || isEmpty (trim categoryName)
      then raise (newError "Category name cannot be empty")
      else
        catch
          (let categoryData :=
             {| name := trim categoryName;
                createdBy := uid currentUser;
                categoryCreatedAt := serverTimestamp |} in
           docRef <- window_addDoc (lit "categories") (CategoryDoc categoryData) ;;
           ret {| id := docRef; data := categoryData |})
          (fun error =>
             consoleError "Error creating category:" error ;;
             raise (newError "Failed to create category"))
  end.

(** The listener [subscribeToPosts] hands to [window.onSnapshot]: the first
    function passes the documents of the snapshot to [callback], the second
    logs and calls [callback([])]. *)
Definition postsListener (callback : list post -> Msg) : listener postData Msg :=
  {| onNext := fun snapshot => [Notify (callback snapshot)];
     onError := fun error =>
       [ConsoleError (lit "Error listening to posts:") error; Notify (callback [])] |}.

(** [subscribeToPosts(callback, category = null, limitCount = 50)]. *)
Definition subscribeToPosts (callback : list post -> Msg)
    (category : option str) (limitCount : option N) : js world handle :=
  let limitCount := match limitCount with Some n => n | None => 50%N end in
  currentUser <- getCurrentUser ;;
  match currentUser with
  | None => raise (newError "User must be authenticated to view posts")
  | Some _ =>
      catch
        (let postsQuery :=
           match category with
           | Some c =>
               if negb (isEmpty c) && negb (eqb_str c (lit "All"))
               then {| collection := lit "posts";
                       whereEq := Some (lit "category", c);
                       orderBy := (lit "createdAt", desc);
                       limit := Some limitCount |}
               else {| collection := lit "posts";
                       whereEq := None;
                       orderBy := (lit "createdAt", desc);
                       limit := Some limitCount |}
           | None => {| collection := lit "posts";
                        whereEq := None;
                        orderBy := (lit "createdAt", desc);
                        limit := Some limitCount |}
           end in
         window_onSnapshot postsQuery (PostsListener (postsListener callback)))
        (fun error =>
           consoleError "Error subscribing to posts:" error ;;
           raise (newError "Failed to subscribe to posts"))
  end.

Definition categoriesListener (callback : list categoryItem -> Msg)
  : listener categoryData Msg :=
  {| onNext := fun snapshot => [Notify (callback snapshot)];
     onError := fun error =>
       [ConsoleError (lit "Error listening to categories:") error;
        Notify (callback [])] |}.

(** [subscribeToCategories(callback)]. *)
Definition subscribeToCategories (callback : list categoryItem -> Msg)
  : js world handle :=
  currentUser <- getCurrentUser ;;
  match currentUser with
  | None => raise (newError "User must be authenticated to view categories")
  | Some _ =>
      catch
        (let categoriesQuery :=
           {| collection := lit "categories";
              whereEq := None;
              orderBy := (lit "createdAt", asc);
              limit := None |} in
         window_onSnapshot categoriesQuery
           (CategoriesListener (categoriesListener callback)))
        (fun error =>
           consoleError "Error subscribing to categories:" error ;;
           raise (newError "Failed to subscribe to categories"))
  end.

End FirebaseAuthManager.

(* ===================================================================== *)
(** ** PageRenderer: the content formatter *)
(* ===================================================================== *)

(** What the browser supplies to the formatter: the clock ([new Date()], in
    milliseconds), [Date.prototype.toLocaleDateString], the [URL] constructor
    (the host name and the path name of a URL it accepts, nothing when it
    throws), [String.prototype.toUpperCase], whether
    [document.querySelector] accepts a selector, and the TypeError the engine
    throws when the named property is set on [null], whose message is the
    engine's own. *)
Record browser := {
  now : Z;
  toLocaleDateString : Z -> str;
  newURL : str -> option (str * str);
  toUpperCase : str -> str;
  validSelector : str -> bool;
  nullPropertyError : str -> jsError
}.

(** [escapeHtml(text)]: the text is set as the [textContent] of a fresh
    [div] and read back as its [innerHTML], which serialises a text node by
    replacing [&], [<], [>] and the no-break space. *)
Definition escapeHtml (text : str) : str :=
  flat_map
    (fun c =>
       if N.eqb c 38 then lit "&amp;"
       else if N.eqb c 60 then lit "&lt;"
       else if N.eqb c 62 then lit "&gt;"
       else if N.eqb c 160 then lit "&nbsp;"
       else [c])
    text.

(** [/(https?:\/\/[^\s<>"']+[^\s<>"'.,!?;:])/g]; the capture group spans the
    whole pattern, so [$1] is the match. *)
Definition urlChar (c : codeunit) : bool :=
  negb (isWhiteSpace c || oneOf (html "<>`'") c).

Definition urlEnd (c : codeunit) : bool :=
  negb (isWhiteSpace c || oneOf (html "<>`'.,!?;:") c).

Definition urlRegex : regex :=
  Seq (word (lit "http"))
    (Seq (Opt (Chr 115%N))
       (Seq (word (lit "://"))
          (Seq (Plus urlChar) (Class urlEnd)))).

Definition anchorTemplate : str :=
  html "<a href=`$1` target=`_blank` rel=`noopener noreferrer` class=`text-custom-blue underline hover:opacity-80 font-medium`>$1</a>".

(** [linkifyText(text)]. *)
Definition linkifyText (text : str) : str :=
  replaceAll urlRegex anchorTemplate text.

(** [extractUrls(text)]. *)
Definition extractUrls (text : str) : list str :=
  matchAll urlRegex text.

(** [getTimeAgo(date)], with [date] in milliseconds. *)
Definition getTimeAgo (b : browser) (date : Z) : str :=
  let diffInSeconds := ((now b - date) / 1000)%Z in
  if (diffInSeconds <? 60)%Z then lit "just now"
  else if (diffInSeconds <? 3600)%Z
  then numberToString (Z.to_N (diffInSeconds / 60)) ++ lit "m ago"
  else if (diffInSeconds <? 86400)%Z
  then numberToString (Z.to_N (diffInSeconds / 3600)) ++ lit "h ago"
  else if (diffInSeconds <? 604800)%Z
  then numberToString (Z.to_N (diffInSeconds / 86400)) ++ lit "d ago"
  else toLocaleDateString b date.

Definition emptyPostsTemplate : str :=
  html "
                <div class=`text-center text-custom-black py-8`>
                    <div class=`w-12 h-12 bg-custom-blue mx-auto mb-4 flex items-center justify-center`>
                        <div class=`w-6 h-6 bg-custom-white`></div>
                    </div>
                    <p>No posts yet. Be the first to share something!</p>
                </div>
            ".

Definition postTemplate (categoryName timeAgo linkedContent linkPreviews : str) : str :=
  html "
                <div class=`border border-custom-grey p-5 bg-custom-white hover:opacity-80 transition-opacity`>
                    <div class=`flex justify-between items-start mb-3`>
                        <div class=`flex items-center space-x-3`>
                            <span class=`text-xs px-2 py-1 bg-custom-blue text-custom-white`>"
  ++ categoryName
  ++ html "</span>
                        </div>
                        <div class=`text-xs text-custom-black`>"
  ++ timeAgo
  ++ html "</div>
                    </div>
                    <div class=`text-sm text-custom-black whitespace-pre-wrap leading-relaxed`>"
  ++ linkedContent
  ++ html "</div>
                    "
  ++ linkPreviews
  ++ html "
                </div>
            ".

Definition categoryTemplate (categoryName : str) : str :=
  html "
            <button 
                class=`category-btn w-full text-left px-3 py-2 text-sm text-custom-black border border-custom-grey bg-custom-white hover:opacity-80 transition-opacity`
                data-category=`"
  ++ categoryName
  ++ html "`
            >
                "
  ++ categoryName
  ++ html "
            </button>
        ".

Definition previewTemplate (url initial title domain : str) : str :=
  html "
                <div class=`mt-3 border border-custom-grey bg-custom-white p-3 hover:opacity-80 transition-opacity cursor-pointer` onclick=`window.open('"
  ++ url
  ++ html "', '_blank', 'noopener,noreferrer')`>
                    <div class=`flex items-start space-x-3`>
                        <div class=`w-12 h-12 bg-custom-blue flex items-center justify-center text-custom-white text-xs font-bold flex-shrink-0`>
                            "
  ++ initial
  ++ html "
                        </div>
                        <div class=`flex-1 min-w-0`>
                            <div class=`text-sm font-medium text-custom-black mb-1`>"
  ++ title
  ++ html "</div>
                            <div class=`text-xs text-custom-black opacity-75 mb-2`>"
  ++ domain
  ++ html "</div>
                            <div class=`text-xs text-custom-blue truncate`>"
  ++ url
  ++ html "</div>
                        </div>
                        <div class=`flex-shrink-0`>
                            <svg class=`w-4 h-4 text-custom-blue` fill=`none` stroke=`currentColor` viewBox=`0 0 24 24`>
                                <path stroke-linecap=`round` stroke-linejoin=`round` stroke-width=`2` d=`M10 6H6a2 2 0 00-2 2v10a2 2 0 002 2h10a2 2 0 002-2v-4M14 4h6m0 0v6m0-6L10 14`></path>
                            </svg>
                        </div>
                    </div>
                </div>
            ".

Definition plainLinkTemplate (url : str) : str :=
  html "
                <div class=`mt-3 border border-custom-grey bg-custom-white p-3`>
                    <div class=`text-sm text-custom-black`>
                        <a href=`"
  ++ url
  ++ html "` target=`_blank` rel=`noopener noreferrer` class=`text-custom-blue underline hover:opacity-80`>
                            "
  ++ url
  ++ html "
                        </a>
                    </div>
                </div>
            ".

Definition feedErrorTemplate : str :=
  html "
                <div class=`text-center text-red-600 py-8`>
                    <div class=`w-12 h-12 bg-red-100 mx-auto mb-4 flex items-center justify-center`>
                        <div class=`w-6 h-6 bg-red-400`></div>
                    </div>
                    <p>Error loading posts. Please try refreshing the page.</p>
                </div>
            ".

(** [word.charAt(0).toUpperCase() + word.slice(1)]. *)
Definition capitalize (b : browser) (w : str) : str :=
  toUpperCase b (firstn 1 w) ++ skipn 1 w.

(** The title of a preview card, from the last segment of the path:
    [.replace(/[-_]/g, ' ').replace(/\.[^/.]+$/, '').split(' ').map(...).join(' ')]. *)
Definition titleOfSegment (b : browser) (segment : str) : str :=
  join (lit " ")
    (List.map (capitalize b)
       (split 32%N
          (replaceFirst
             (Seq (Chr 46%N) (Seq (Plus (fun c => negb (oneOf (lit "/.") c))) Eos))
             []
             (replaceAll (Class (oneOf (lit "-_"))) (lit " ") segment)))).

(** [generateLinkPreview(url)]. *)
Definition generateLinkPreview (b : browser) (url : str) : str :=
  match newURL b url with
  | Some (hostname, pathname) =>
      let domain := removeFirst (lit "www.") hostname in
      let path := pathname in
      let title :=
        if negb (isEmpty path) && negb (eqb_str path (lit "/"))
        then
          let pathParts := filter (fun part => negb (isEmpty part)) (split 47%N path) in
          match rev pathParts with
          | lastPart :: _ => titleOfSegment b lastPart
          | [] => domain
          end
        else domain in
      previewTemplate url (toUpperCase b (firstn 1 domain)) title domain
  | None => plainLinkTemplate url
  end.

(** The markup of one post, the body of the [posts.map] of [renderPosts]. *)
Definition renderPost (b : browser) (post : post) : str :=
  let createdAt :=
    match createdAt (data post) with
    | Timestamp ms => ms
    | _ => now b
    end in
  let timeAgo := getTimeAgo b createdAt in
  let categoryName :=
    match category (data post) with
    | Some c => if isEmpty c then lit "General" else c
    | None => lit "General"
    end in
  let escapedContent := escapeHtml (content (data post)) in
  let linkedContent := linkifyText escapedContent in
  let urls := extractUrls (content (data post)) in
  let linkPreviews := join [] (List.map (generateLinkPreview b) urls) in
  postTemplate categoryName timeAgo linkedContent linkPreviews.

(** What [renderPosts(posts)] assigns to the [innerHTML] of the posts
    container. *)
Definition renderPostsHtml (b : browser) (posts : list post) : str :=
  match posts with
  | [] => emptyPostsTemplate
  | _ :: _ => join [] (List.map (renderPost b) posts)
  end.

(** What [renderCategories()] assigns to the [innerHTML] of the categories
    list. *)
Definition renderCategoriesHtml (categories : list categoryItem) : str :=
  join [] (List.map (fun category => categoryTemplate (name (data category))) categories).

(* ===================================================================== *)
(** ** PageRenderer: the page and its event handlers *)
(* ===================================================================== *)

(** The two callbacks the page hands to the gateway:
    [(posts) => { this.renderPosts(posts); }] and
    [(categories) => { this.categories = categories; this.renderCategories(); }],
    applied to their argument. *)
Inductive pageMsg :=
| PostsCallback (posts : list post)
| CategoriesCallback (categories : list categoryItem).

(** The elements of the dashboard that the handlers read and write. The
    templates of the pages themselves, the class names and the disabled
    state of the buttons are not part of the model. *)
Record dashboard := {
  postsContainer : str;
  categoriesList : str;
  postLabel : str;
  postContent : str;
  charCount : str;
  postError : option str;
  postSuccess : option str
}.

(** What the container shows. An element of the dashboard exists, for
    [document.getElementById], only while the dashboard is shown. *)
Inductive view :=
| LoadingPage
| LoginPage
| SignupPage
| Dashboard (d : dashboard).

Record page := {
  env : browser;
  authManager : world pageMsg;
  selectedCategory : str;
  categories : list categoryItem;
  postsUnsubscribe : option handle;
  categoriesUnsubscribe : option handle;
  container : view;
  alerts : list str
}.

Definition setAuthManager (w : world pageMsg) (p : page) : page :=
  {| env := env p; authManager := w; selectedCategory := selectedCategory p;
     categories := categories p; postsUnsubscribe := postsUnsubscribe p;
     categoriesUnsubscribe := categoriesUnsubscribe p;
     container := container p; alerts := alerts p |}.

Definition setSelectedCategory (c : str) (p : page) : page :=
  {| env := env p; authManager := authManager p; selectedCategory := c;
     categories := categories p; postsUnsubscribe := postsUnsubscribe p;
     categoriesUnsubscribe := categoriesUnsubscribe p;
     container := container p; alerts := alerts p |}.

Definition setCategories (l : list categoryItem) (p : page) : page :=
  {| env := env p; authManager := authManager p;
     selectedCategory := selectedCategory p;
     categories := l; postsUnsubscribe := postsUnsubscribe p;
     categoriesUnsubscribe := categoriesUnsubscribe p;
     container := container p; alerts := alerts p |}.

Definition setPostsUnsubscribe (h : option handle) (p : page) : page :=
  {| env := env p; authManager := authManager p;
     selectedCategory := selectedCategory p;
     categories := categories p; postsUnsubscribe := h;
     categoriesUnsubscribe := categoriesUnsubscribe p;
     container := container p; alerts := alerts p |}.

Definition setCategoriesUnsubscribe (h : option handle) (p : page) : page :=
  {| env := env p; authManager := authManager p;
     selectedCategory := selectedCategory p;
     categories := categories p; postsUnsubscribe := postsUnsubscribe p;
     categoriesUnsubscribe := h;
     container := container p; alerts := alerts p |}.

Definition setContainer (v : view) (p : page) : page :=
  {| env := env p; authManager := authManager p;
     selectedCategory := selectedCategory p;
     categories := categories p; postsUnsubscribe := postsUnsubscribe p;
     categoriesUnsubscribe := categoriesUnsubscribe p;
     container := v; alerts := alerts p |}.

Definition addAlert (m : str) (p : page) : page :=
  {| env := env p; authManager := authManager p;
     selectedCategory := selectedCategory p;
     categories := categories p; postsUnsubscribe := postsUnsubscribe p;
     categoriesUnsubscribe := categoriesUnsubscribe p;
     container := container p; alerts := alerts p ++ [m] |}.

(** A method of [this.authManager], run from the page. *)
Definition viaAuthManager {A} (m : js (world pageMsg) A) : js page A :=
  fun p => let '(r, w) := m (authManager p) in (r, setAuthManager w p).

(** [console.error(label, error)], from the page. *)
Definition pageConsoleError (label : string) (e : jsError) : js page unit :=
  viaAuthManager (consoleError label e).

(** A write to an element of the dashboard that is known to exist. *)
Definition updateDashboard (f : dashboard -> dashboard) : js page unit :=
  fun p =>
    match container p with
    | Dashboard d => (Normal tt, setContainer (Dashboard (f d)) p)
    | _ => (Normal tt, p)
    end.

Definition setPostsContainer (h : str) (d : dashboard) : dashboard :=
  {| postsContainer := h; categoriesList := categoriesList d;
     postLabel := postLabel d; postContent := postContent d;
     charCount := charCount d; postError := postError d;
     postSuccess := postSuccess d |}.

Definition setCategoriesList (h : str) (d : dashboard) : dashboard :=
  {| postsContainer := postsContainer d; categoriesList := h;
     postLabel := postLabel d; postContent := postContent d;
     charCount := charCount d; postError := postError d;
     postSuccess := postSuccess d |}.

Definition setPostLabel (t : str) (d : dashboard) : dashboard :=
  {| postsContainer := postsContainer d; categoriesList := categoriesList d;
     postLabel := t; postContent := postContent d;
     charCount := charCount d; postError := postError d;
     postSuccess := postSuccess d |}.

Definition setPostContent (v : str) (count : str) (d : dashboard) : dashboard :=
  {| postsContainer := postsContainer d; categoriesList := categoriesList d;
     postLabel := postLabel d; postContent := v;
     charCount := count; postError := postError d;
     postSuccess := postSuccess d |}.

Definition setPostMessages (error success : option str) (d : dashboard) : dashboard :=
  {| postsContainer := postsContainer d; categoriesList := categoriesList d;
     postLabel := postLabel d; postContent := postContent d;
     charCount := charCount d; postError := error;
     postSuccess := success |}.

(** What [postsContainer.innerHTML = ...] throws when [getElementById] found
    no posts container and returned [null]. *)
Definition typeError (b : browser) : jsError :=
  nullPropertyError b (lit "innerHTML").

(** The dashboard as [renderDashboard] first draws it. *)
Definition freshDashboard : dashboard :=
  {| postsContainer := html "
                                    <div class=`text-center text-custom-black py-8`>
                                        <div class=`animate-spin h-8 w-8 border-b-2 border-custom-blue mx-auto mb-4`></div>
                                        <p>Loading posts...</p>
                                    </div>
                                ";
     categoriesList := html "
                                    <!-- Categories will be loaded here -->
                                ";
     postLabel := html "
                                        What's on your mind?
                                    ";
     postContent := [];
     charCount := lit "0/500";
     postError := None;
     postSuccess := None |}.

(** [renderLoginPage()], [renderSignupPage()], [renderLoadingPage()]. *)
Definition renderLoginPage : js page unit :=
  fun p => (Normal tt, setContainer LoginPage p).

Definition renderSignupPage : js page unit :=
  fun p => (Normal tt, setContainer SignupPage p).

Definition renderLoadingPage : js page unit :=
  fun p => (Normal tt, setContainer LoadingPage p).

(** [renderPosts(posts)]. *)
Definition renderPosts (posts : list post) : js page unit :=
  fun p =>
    match container p with
    | Dashboard d =>
        (Normal tt,
         setContainer (Dashboard (setPostsContainer (renderPostsHtml (env p) posts) d)) p)
    | _ => (Thrown (typeError (env p)), p)
    end.

(** [updatePostLabel()]. *)
Definition updatePostLabel : js page unit :=
  fun p =>
    updateDashboard
      (setPostLabel
         (if eqb_str (selectedCategory p) (lit "All")
          then lit "What's on your mind?"
          else lit "Share in " ++ selectedCategory p))
      p.

(** [updateCategorySelection()]: it changes class names only, but its
    [document.querySelector] throws on a selector that does not parse. *)
Definition updateCategorySelection : js page unit :=
  fun p =>
    if eqb_str (selectedCategory p) (lit "All") then (Normal tt, p)
    else if validSelector (env p)
              (html "[data-category=`" ++ selectedCategory p ++ html "`]")
    then (Normal tt, p)
    else (Thrown {| message := lit "SyntaxError"; code := None |}, p).

(** [refreshFeed()]. *)
Definition refreshFeed : js page unit :=
  p <- get ;;
  match postsUnsubscribe p with
  | Some h => viaAuthManager (unsubscribe h)
  | None => ret tt
  end ;;
  catch
    (p <- get ;;
     h <- viaAuthManager (subscribeToPosts PostsCallback (Some (selectedCategory p)) None) ;;
     modify (setPostsUnsubscribe (Some h)) ;;
     ret tt)
    (fun error => pageConsoleError "Error refreshing feed:" error).

(** [selectCategory(categoryName)]. *)
Definition selectCategory (categoryName : str) : js page unit :=
  modify (setSelectedCategory categoryName) ;;
  updatePostLabel ;;
  updateCategorySelection ;;
  refreshFeed.

(** [renderCategories()]. *)
Definition renderCategories : js page unit :=
  p <- get ;;
  match container p with
  | Dashboard _ =>
      updateDashboard (setCategoriesList (renderCategoriesHtml (categories p))) ;;
      updateCategorySelection
  | _ => ret tt
  end.

(** The page's [createCategory(categoryName)]. *)
Definition pageCreateCategory (categoryName : str) : js page unit :=
  catch
    (viaAuthManager (createCategory categoryName) ;; ret tt)
    (fun error =>
       pageConsoleError "Error creating category:" error ;;
       modify (addAlert (lit "Failed to create category: " ++ message error)) ;;
       ret tt).

(** [initializeFeed()]. *)
Definition initializeFeed : js page unit :=
  catch
    (p <- get ;;
     h <- viaAuthManager (subscribeToPosts PostsCallback (Some (selectedCategory p)) None) ;;
     modify (setPostsUnsubscribe (Some h)) ;;
     h' <- viaAuthManager (subscribeToCategories CategoriesCallback) ;;
     modify (setCategoriesUnsubscribe (Some h')) ;;
     ret tt)
    (fun error =>
       pageConsoleError "Error initializing feed:" error ;;
       updateDashboard (setPostsContainer feedErrorTemplate)).

(** [renderDashboard()]. *)
Definition renderDashboard : js page unit :=
  user <- viaAuthManager getCurrentUser ;;
  match user with
  | None => renderLoginPage
  | Some _ =>
      modify (setContainer (Dashboard freshDashboard)) ;;
      initializeFeed ;;
      updatePostLabel
  end.

(** [cleanup()]. Nothing in [auth.js] calls it. *)
Definition cleanup : js page unit :=
  p <- get ;;
  match postsUnsubscribe p with
  | Some h => viaAuthManager (unsubscribe h)
  | None => ret tt
  end ;;
  match categoriesUnsubscribe p with
  | Some h => viaAuthManager (unsubscribe h)
  | None => ret tt
  end.

(** The listener of [window.onAuthStateChanged], set by [initialize()]:
    [this.currentUser = user; this.handleAuthStateChange(user)]. *)
Definition handleAuthStateChange (user : option user) : js page unit :=
  match user with
  | Some _ => renderDashboard
  | None => renderLoginPage
  end.

Definition authStateListener (user : option user) : js page unit :=
  viaAuthManager (modify (setCurrentUser user)) ;;
  handleAuthStateChange user.

(** The click handler of the logout button. *)
Definition onLogoutClick : js page unit :=
  catch
    (viaAuthManager logout)
    (fun error =>
       pageConsoleError "Logout error:" error ;;
       renderLoginPage).

(** The [input] handler of the post textarea. The browser keeps what the
    user enters within [maxlength="500"]. *)
Definition onPostInput (value : str) : js page unit :=
  let value := firstn 500 value in
  updateDashboard
    (setPostContent value (numberToString (N.of_nat (length value)) ++ lit "/500")).

(** The submit handler of the post form. The elements it writes are the ones
    it captured when the dashboard was drawn. *)
Definition onPostSubmit : js page unit :=
  p <- get ;;
  match container p with
  | Dashboard d =>
      let content := trim (postContent d) in
      updateDashboard (setPostMessages None None) ;;
      if isEmpty content
      then updateDashboard
             (setPostMessages (Some (lit "Please enter some content to post")) None)
      else
        catch
          (p <- get ;;
           let category :=
             if eqb_str (selectedCategory p) (lit "All")
             then lit "General"
             else selectedCategory p in
           viaAuthManager (createPost content (Some category)) ;;
           updateDashboard (setPostContent [] (lit "0/500")) ;;
           updateDashboard
             (setPostMessages None (Some (lit "Post created successfully!"))))
          (fun error =>
             updateDashboard (setPostMessages (Some (message error)) None))
  | _ => ret tt
  end.

(** The click handler of the add-category button, given what [prompt]
    returned. *)
Definition onAddCategoryClick (answer : option str) : js page unit :=
  match answer with
  | Some categoryName =>
      if negb (isEmpty categoryName) && negb (isEmpty (trim categoryName))
      then pageCreateCategory (trim categoryName)
      else ret tt
  | None => ret tt
  end.

(** One effect of a listener, run on the page. *)
Definition runEffect (e : effect pageMsg) : js page unit :=
  match e with
  | ConsoleError label error =>
      viaAuthManager (fun w => (Normal tt, logError label error w))
  | Notify (PostsCallback posts) => renderPosts posts
  | Notify (CategoriesCallback categories) =>
      modify (setCategories categories) ;;
      renderCategories
  end.

Fixpoint runEffects (l : list (effect pageMsg)) : js page unit :=
  match l with
  | [] => ret tt
  | e :: rest => runEffect e ;; runEffects rest
  end.

Fixpoint findListener {Msg} (h : handle) (l : list (handle * anyListener Msg))
  : option (anyListener Msg) :=
  match l with
  | [] => None
  | (h', x) :: rest => if Nat.eqb h' h then Some x else findListener h rest
  end.

(** What happens to the page: a notification from the provider, an action of
    the user on an element of the dashboard, or a click on the button that
    leads from the login page to the signup page or back. The two forms of
    those pages have their own model, further down. *)
Inductive event :=
| AuthStateChanged (user : option user)
| PostsSnapshot (h : handle) (docs : list post)
| CategoriesSnapshot (h : handle) (docs : list categoryItem)
| QueryError (h : handle) (error : jsError)
| ClickLogout
| ClickCategoryAll
| ClickCategory (dataCategory : str)
| ClickAddCategory (answer : option str)
| InputPost (value : str)
| SubmitPost
| ClickGoToSignup
| ClickGoToLogin.

(** The handler an event runs. A live query that was released is not
    notified; a click reaches a dashboard element only while it exists. *)
Definition handler (e : event) : js page unit :=
  p <- get ;;
  match e with
  | AuthStateChanged user => authStateListener user
  | PostsSnapshot h docs =>
      match findListener h (listeners (authManager p)) with
      | Some (PostsListener l) => runEffects (onNext l docs)
      | _ => ret tt
      end
  | CategoriesSnapshot h docs =>
      match findListener h (listeners (authManager p)) with
      | Some (CategoriesListener l) => runEffects (onNext l docs)
      | _ => ret tt
      end
  | QueryError h error =>
      match findListener h (listeners (authManager p)) with
      | Some (PostsListener l) => runEffects (onError l error)
      | Some (CategoriesListener l) => runEffects (onError l error)
      | None => ret tt
      end
  | ClickGoToSignup =>
      match container p with
      | LoginPage => renderSignupPage
      | _ => ret tt
      end
  | ClickGoToLogin =>
      match container p with
      | SignupPage => renderLoginPage
      | _ => ret tt
      end
  | _ =>
      match container p with
      | Dashboard _ =>
          match e with
          | ClickLogout => onLogoutClick
          | ClickCategoryAll => selectCategory (lit "All")
          | ClickCategory dataCategory => selectCategory dataCategory
          | ClickAddCategory answer => onAddCategoryClick answer
          | InputPost value => onPostInput value
          | SubmitPost => onPostSubmit
          | _ => ret tt
          end
      | _ => ret tt
      end
  end.

(** The page after an event; an exception a handler lets out is lost. *)
Definition step (p : page) (e : event) : page := snd (handler e p).

Definition run (p : page) (events : list event) : page := fold_left step events p.

(** [initializeAuthApp()] on a provider: the loading page, nobody signed in,
    [selectedCategory = 'All'] and no subscription. *)
Definition initialPage (b : browser) (pr : provider) : page :=
  {| env := b;
     authManager :=
       {| backend := pr; currentUser := None; calls := []; console := [];
          accounts := []; documents := []; listeners := []; nextHandle := 0 |};
     selectedCategory := lit "All";
     categories := [];
     postsUnsubscribe := None;
     categoriesUnsubscribe := None;
     container := LoadingPage;
     alerts := [] |}.

(* ===================================================================== *)
(** ** PageRenderer: the login and signup forms *)
(* ===================================================================== *)

(** [/^[^\s@]+@[^\s@]+\.[^\s@]+$/]. *)
Definition emailChar (c : codeunit) : bool :=
  negb (isWhiteSpace c || N.eqb c 64).

Definition emailRegex : regex :=
  Seq (Plus emailChar)
    (Seq (Chr 64%N)
       (Seq (Plus emailChar)
          (Seq (Chr 46%N)
             (Seq (Plus emailChar) Eos)))).

(** [isValidEmail(email)]: [emailRegex.test(email)]; the pattern starts with
    [^], so the only match tried is the one at the start of the text. *)
Definition isValidEmail (email : str) : bool :=
  match execAt emailRegex email with
  | Some _ => true
  | None => false
  end.

(** The elements of the login form and of the signup form that their submit
    handlers write: the error line (its text while it is shown), the loading
    line and the submit button. *)
Record authForm := {
  formError : option str;
  formLoading : bool;
  submitDisabled : bool
}.

(** The form as [renderLoginPage] and [renderSignupPage] draw it. *)
Definition freshAuthForm : authForm :=
  {| formError := None; formLoading := false; submitDisabled := false |}.

(** A form page: the gateway and the form on show. *)
Record formPage := {
  formManager : world pageMsg;
  form : authForm
}.

Definition viaFormManager {A} (m : js (world pageMsg) A) : js formPage A :=
  fun p => let '(r, w) := m (formManager p) in (r, {| formManager := w; form := form p |}).

Definition setForm (f : authForm) : js formPage unit :=
  fun p => (Normal tt, {| formManager := formManager p; form := f |}).


(** The submit handler of the signup form, on the values of its three
    inputs. *)
Definition onSignupSubmit (emailValue passwordValue confirmValue : str)
  : js formPage unit :=
  let email := trim emailValue in
  let password := passwordValue in
  let confirmPassword := confirmValue in
  p <- get ;;
  let hidden :=
    {| formError := None; formLoading := formLoading (form p);
       submitDisabled := submitDisabled (form p) |} in
  setForm hidden ;;
  if negb (isValidEmail email)
  then setForm {| formError := Some (lit "Please enter a valid email address");
                  formLoading := formLoading hidden;
                  submitDisabled := submitDisabled hidden |}
  else if (length password <? 6)%nat
  then setForm {| formError := Some (lit "Password must be at least 6 characters long");
                  formLoading := formLoading hidden;
                  submitDisabled := submitDisabled hidden |}
  else if negb (eqb_str password confirmPassword)
  then setForm {| formError := Some (lit "Passwords do not match");
                  formLoading := formLoading hidden;
                  submitDisabled := submitDisabled hidden |}
  else
    setForm {| formError := None; formLoading := true; submitDisabled := true |} ;;
    catch
      (viaFormManager (registerUser email password) ;; ret tt)
      (fun error =>
         setForm {| formError := Some (message error); formLoading := false;
                    submitDisabled := false |}).

(* ===================================================================== *)
(** ** FirebaseAuthManager: the one-time reads *)
(* ===================================================================== *)

(** The reads the gateway can ask of the provider. *)
Inductive readCall :=
| GetDoc (coll docId : str)
| GetDocs (q : query).

(** The read entries of the provider, as opaque as the others: [getDoc]
    answers with the data of the document, or with none when the document
    does not exist; [getDocs] with the documents of the query in the order of
    the snapshot. *)
Record reader := {
  getDoc : list readCall -> str -> str -> completion (option profileData);
  getDocs : list readCall -> query -> completion (list (doc docData))
}.

(** The gateway with the read entries and the reads made so far. *)
Record readingWorld := {
  gateway : world unit;
  source : reader;
  reads : list readCall
}.

Definition viaGateway {A} (m : js (world unit) A) : js readingWorld A :=
  fun r =>
    let '(c, w) := m (gateway r) in
    (c, {| gateway := w; source := source r; reads := reads r |}).

Definition recordRead (c : readCall) (r : readingWorld) : readingWorld :=
  {| gateway := gateway r; source := source r; reads := reads r ++ [c] |}.

(** [await window.getDoc(window.doc(db, coll, docId))]. *)
Definition window_getDoc (coll docId : str) : js readingWorld (option profileData) :=
  fun r => (getDoc (source r) (reads r) coll docId, recordRead (GetDoc coll docId) r).

(** [await window.getDocs(q)]. *)
Definition window_getDocs (q : query) : js readingWorld (list (doc docData)) :=
  fun r => (getDocs (source r) (reads r) q, recordRead (GetDocs q) r).

(** [getUserProfile(uid)]; [None] is [null]. *)
Definition getUserProfile (uid : str) : js readingWorld (option profileData) :=
  catch
    (userDoc <- window_getDoc (lit "users") uid ;;
     match userDoc with
     | Some d => ret (Some d)
     | None => ret None
     end)
    (fun error =>
       viaGateway (consoleError "Error getting user profile:" error) ;;
       ret None).

(** [getPosts(limitCount = 50)]: the [forEach] pushes the documents in the
    order of the snapshot. *)
Definition getPosts (limitCount : option N) : js readingWorld (list (doc docData)) :=
  let limitCount := match limitCount with Some n => n | None => 50%N end in
  currentUser <- viaGateway getCurrentUser ;;
  match currentUser with
  | None => raise (newError "User must be authenticated to view posts")
  | Some _ =>
      catch
        (let postsQuery :=
           {| collection := lit "posts";
              whereEq := None;
              orderBy := (lit "createdAt", desc);
              limit := Some limitCount |} in
         snapshot <- window_getDocs postsQuery ;;
         ret snapshot)
        (fun error =>
           viaGateway (consoleError "Error getting posts:" error) ;;
           raise (newError "Failed to get posts"))
  end.

(** [getCategories()]. *)
Definition getCategories : js readingWorld (list (doc docData)) :=
  currentUser <- viaGateway getCurrentUser ;;
  match currentUser with
  | None => raise (newError "User must be authenticated to view categories")
  | Some _ =>
      catch
        (let categoriesQuery :=
           {| collection := lit "categories";
              whereEq := None;
              orderBy := (lit "createdAt", asc);
              limit := None |} in
         snapshot <- window_getDocs categoriesQuery ;;
         ret snapshot)
        (fun error =>
           viaGateway (consoleError "Error getting categories:" error) ;;
           raise (newError "Failed to get categories"))
  end.

(* ===================================================================== *)
(** ** Predicates of the specification *)
(* ===================================================================== *)

(** A string with no white space at either end. *)
Definition trimmed (s : str) : Prop :=
  (forall c r, s = c :: r -> isWhiteSpace c = false) /\
  (forall c r, s = r ++ [c] -> isWhiteSpace c = false).

(** Every live query of the world was given a handle below the next one. *)
Definition freshHandles {Msg} (w : world Msg) : Prop :=
  Forall (fun hl => fst hl < nextHandle w) (listeners w).

(** A computation keeps the observation [f] of the state, however it ends. *)
Definition keeps {S A X} (f : S -> X) (m : js S A) : Prop :=
  forall s, f (snd (m s)) = f s.

(** The anchor that wraps a URL: it opens in a new tab, with
    [rel="noopener noreferrer"]. *)
Definition anchor (u : str) : str :=
  html "<a href=`" ++ u
  ++ html "` target=`_blank` rel=`noopener noreferrer` class=`text-custom-blue underline hover:opacity-80 font-medium`>"
  ++ u ++ html "</a>".

(** A URL as the pattern of [auth.js] has it: [http://] or [https://], then
    one or more characters that are neither white space, nor an angle
    bracket, nor a single or double quote, then one more such character that
    is not one of [. , ! ? ; :] either. *)
Definition IsUrl (u : str) : Prop :=
  exists scheme body last,
    (scheme = lit "http://" \/ scheme = lit "https://")
    /\ u = scheme ++ body ++ [last]
    /\ body <> []
    /\ Forall (fun c => urlChar c = true) body
    /\ urlEnd last = true.

(** [Linkified text urls out]: reading [text] from left to right, a
    character at which no URL starts is copied to [out] as it is, and the
    longest URL that starts at a character is listed in [urls] and wrapped
    in its anchor in [out]. *)
Inductive Linkified : str -> list str -> str -> Prop :=
| Linkified_end : Linkified [] [] []
| Linkified_char (c : codeunit) (text : str) (urls : list str) (out : str) :
    (forall u rest, c :: text = u ++ rest -> ~ IsUrl u) ->
    Linkified text urls out ->
    Linkified (c :: text) urls (c :: out)
| Linkified_url (u rest : str) (urls : list str) (out : str) :
    IsUrl u ->
    (forall u' rest', u ++ rest = u' ++ rest' -> IsUrl u' -> length u' <= length u) ->
    Linkified rest urls out ->
    Linkified (u ++ rest) (u :: urls) (anchor u ++ out).

(** [s] starts with the part of a URL that follows its scheme, and [rest]
    is what follows that part. *)
Definition UrlBody (s rest : str) : Prop :=
  exists body last,
    s = body ++ last :: rest
    /\ body <> []
    /\ Forall (fun c => urlChar c = true) body
    /\ urlEnd last = true.

(** [t] starts with a URL, and [rest] is what follows it. *)
Definition StartsUrl (t rest : str) : Prop :=
  exists scheme s,
    (scheme = lit "http://" \/ scheme = lit "https://")
    /\ t = scheme ++ s
    /\ UrlBody s rest.

Fixpoint takeWhile (p : codeunit -> bool) (s : str) : str :=
  match s with
  | c :: s' => if p c then c :: takeWhile p s' else []
  | [] => []
  end.

Fixpoint dropWhile (p : codeunit -> bool) (s : str) : str :=
  match s with
  | c :: s' => if p c then dropWhile p s' else s
  | [] => []
  end.

(** The run of characters that are not white space at the start of [s],
    without its trailing punctuation. *)
Definition runWithoutTrailingPunctuation (s : str) : str :=
  rev (dropWhile (oneOf (lit ".,!?;:")) (rev (takeWhile (fun c => negb (isWhiteSpace c)) s))).

(** The well-formed URL at the start of [s] as the specification words it,
    not as the pattern has it: the scheme, then the run of characters that
    are not white space, with the trailing punctuation trimmed. *)
Definition statedUrlAt (s : str) : option str :=
  let url scheme :=
    let run := runWithoutTrailingPunctuation (skipn (length scheme) s) in
    if isEmpty run then None else Some (scheme ++ run) in
  if startsWith (lit "https://") s then url (lit "https://")
  else if startsWith (lit "http://") s then url (lit "http://")
  else None.

(** A computation preserves the invariant [I] of the state, however it
    ends. *)
Definition preserves {S A} (I : S -> Prop) (m : js S A) : Prop :=
  forall s, I s -> I (snd (m s)).

(** The invariant of the page: the handles of its gateway are fresh. *)
Definition pageFresh (p : page) : Prop := freshHandles (authManager p).

(** The shape [isValidEmail] accepts: three parts that are not empty and hold
    neither white space nor an at sign, the first two joined by an at sign and
    the last two by a dot. *)
Definition EmailShape (email : str) : Prop :=
  exists a b c,
    email = a ++ 64%N :: b ++ 46%N :: c
    /\ a <> [] /\ b <> [] /\ c <> []
    /\ Forall (fun x => emailChar x = true) a
    /\ Forall (fun x => emailChar x = true) b
    /\ Forall (fun x => emailChar x = true) c.

(** The ten messages of [handleFirebaseError]. *)
Definition authMessages : list str :=
  List.map lit
    [ "An account with this email already exists";
      "Please enter a valid email address";
      "Email/password accounts are not enabled";
      "Password should be at least 6 characters";
      "This account has been disabled";
      "No account found with this email";
      "Incorrect password";
      "Invalid email or password";
      "Too many failed attempts. Please try again later";
      "Authentication failed. Please try again" ]%string.

(** The handles of the live queries on posts. *)
Definition livePosts {Msg} (w : world Msg) : list handle :=
  List.map fst
    (filter (fun hl => match snd hl with PostsListener _ => true | _ => false end)
       (listeners w)).

(** The query [subscribeToPosts] builds for a category. *)
Definition postsQueryFor (category : str) : query :=
  {| collection := lit "posts";
     whereEq :=
       if negb (isEmpty category) && negb (eqb_str category (lit "All"))
       then Some (lit "category", category) else None;
     orderBy := (lit "createdAt", desc);
     limit := Some 50%N |}.

(** The query [subscribeToCategories] builds. *)
Definition categoriesQuery : query :=
  {| collection := lit "categories";
     whereEq := None;
     orderBy := (lit "createdAt", asc);
     limit := None |}.

(* ===================================================================== *)
(** ** Sample providers, worlds and pages *)
(* ===================================================================== *)

Definition alice : user :=
  {| uid := lit "uid-alice-0001"; email := lit "a@b.com";
     emailVerified := false; lastSignInTime := None |}.

Definition permissionDenied : jsError :=
  {| message := lit "Missing or insufficient permissions.";
     code := Some (lit "permission-denied") |}.

(** A provider that accepts every call: it signs [alice] in and names every
    new document [doc1]. *)
Definition acceptingProvider : provider :=
  {| createUserWithEmailAndPassword := fun _ _ _ => Normal alice;
     signInWithEmailAndPassword := fun _ _ _ => Normal alice;
     signOut := fun _ => Normal tt;
     setDoc := fun _ _ _ _ _ => Normal tt;
     addDoc := fun _ _ _ => Normal (lit "doc1");
     onSnapshot := fun _ _ => Normal tt |}.

(** A provider whose identity service works and whose document store refuses
    every write. *)
Definition storeDownProvider : provider :=
  {| createUserWithEmailAndPassword := fun _ _ _ => Normal alice;
     signInWithEmailAndPassword := fun _ _ _ => Normal alice;
     signOut := fun _ => Normal tt;
     setDoc := fun _ _ _ _ _ => Thrown permissionDenied;
     addDoc := fun _ _ _ => Thrown permissionDenied;
     onSnapshot := fun _ _ => Normal tt |}.

Definition wrongPassword : jsError :=
  {| message := lit "Firebase: Error (auth/wrong-password).";
     code := Some (lit "auth/wrong-password") |}.

(** A provider whose identity service refuses every credential and whose
    sign-out fails. *)
Definition refusingProvider : provider :=
  {| createUserWithEmailAndPassword := fun _ _ _ => Thrown wrongPassword;
     signInWithEmailAndPassword := fun _ _ _ => Thrown wrongPassword;
     signOut := fun _ => Thrown permissionDenied;
     setDoc := fun _ _ _ _ _ => Normal tt;
     addDoc := fun _ _ _ => Normal (lit "doc1");
     onSnapshot := fun _ _ => Thrown permissionDenied |}.

(** The world of a gateway that has made no call yet. *)
Definition freshWorld (Msg : Type) (pr : provider) (u : option user) : world Msg :=
  {| backend := pr; currentUser := u; calls := []; console := [];
     accounts := []; documents := []; listeners := []; nextHandle := 0 |}.

(** A browser in an ASCII locale, one hundred seconds after the epoch, with
    the TypeError message of the V8 engine. *)
Definition sampleBrowser : browser :=
  {| now := 100000;
     toLocaleDateString := fun _ => lit "1/1/1970";
     newURL := fun _ => None;
     toUpperCase :=
       List.map (fun c => if ((97 <=? c) && (c <=? 122))%N then (c - 32)%N else c);
     validSelector := fun _ => true;
     nullPropertyError := fun property =>
       {| message :=
            lit "Cannot set properties of null (setting '" ++ property ++ lit "')";
          code := None |} |}.

(** A name that is markup, a post filed under it and a category bearing it. *)
Definition markupName : str := lit "<img src=x onerror=alert(1)>".

Definition markupPost : post :=
  {| id := lit "post1";
     data := {| content := lit "hi"; category := Some markupName;
                userId := uid alice; userEmail := email alice;
                createdAt := Timestamp 40000; updatedAt := Timestamp 40000 |} |}.

Definition markupCategory : categoryItem :=
  {| id := lit "cat1";
     data := {| name := markupName; createdBy := uid alice;
                categoryCreatedAt := Timestamp 30000 |} |}.

(** A provider that accepts two live queries, those of the first dashboard,
    and refuses the later ones. *)
Definition flakyProvider : provider :=
  {| createUserWithEmailAndPassword := fun _ _ _ => Normal alice;
     signInWithEmailAndPassword := fun _ _ _ => Normal alice;
     signOut := fun _ => Normal tt;
     setDoc := fun _ _ _ _ _ => Normal tt;
     addDoc := fun _ _ _ => Thrown permissionDenied;
     onSnapshot := fun history _ =>
       if (length history <? 2)%nat then Normal tt else Thrown permissionDenied |}.

(** A browser whose [document.querySelector] accepts a selector only when it
    holds two double quotes, those that delimit the attribute value. *)
Definition strictBrowser : browser :=
  {| now := now sampleBrowser;
     toLocaleDateString := toLocaleDateString sampleBrowser;
     newURL := newURL sampleBrowser;
     toUpperCase := toUpperCase sampleBrowser;
     validSelector := fun selector =>
       Nat.eqb (length (filter (N.eqb dquote) selector)) 2;
     nullPropertyError := nullPropertyError sampleBrowser |}.

(** The page of [alice] once the provider has announced her sign-in. *)
Definition aliceDashboard : page :=
  step (initialPage sampleBrowser acceptingProvider) (AuthStateChanged (Some alice)).

(** A login or signup form as drawn, over a gateway that has made no call. *)
Definition freshFormPage (pr : provider) : formPage :=
  {| formManager := freshWorld pageMsg pr None; form := freshAuthForm |}.

(* ===================================================================== *)
(** * Properties *)
(* ===================================================================== *)

(** ** Running a computation *)

Lemma run_bind {S A B} (m : js S A) (f : A -> js S B) (s : S) :
  bind m f s =
  match m s with
  | (Normal a, s') => f a s'
  | (Thrown e, s') => (Thrown e, s')
  end.
Proof. reflexivity. Qed.

Lemma run_catch {S A} (m : js S A) (h : jsError -> js S A) (s : S) :
  catch m h s =
  match m s with
  | (Normal a, s') => (Normal a, s')
  | (Thrown e, s') => h e s'
  end.
Proof. reflexivity. Qed.

(** ** Strings *)

Lemma trimStart_head (s : str) (c : codeunit) (r : str) :
  trimStart s = c :: r -> isWhiteSpace c = false.
Proof.
  induction s as [|x s IH]; simpl; [discriminate|].
  destruct (isWhiteSpace x) eqn:Hx; [exact IH|].
  intros H; injection H as -> _; exact Hx.
Qed.

Lemma trimStart_fixed (s : str) (c : codeunit) (r : str) :
  s = c :: r -> isWhiteSpace c = false -> trimStart s = s.
Proof. intros -> H; simpl; now rewrite H. Qed.

Lemma trimStart_length (s : str) : length (trimStart s) <= length s.
Proof.
  induction s as [|x s IH]; simpl; [lia|].
  destruct (isWhiteSpace x); simpl; lia.
Qed.

(** What [trimStart] removes is a prefix. *)
Lemma trimStart_suffix (s : str) : exists ws, s = ws ++ trimStart s.
Proof.
  induction s as [|x s [ws IH]]; simpl.
  - now exists [].
  - destruct (isWhiteSpace x).
    + exists (x :: ws); simpl; now rewrite <- IH.
    + now exists [].
Qed.

Lemma trimEnd_prefix (s : str) : exists ws, s = trimEnd s ++ ws.
Proof.
  unfold trimEnd. destruct (trimStart_suffix (rev s)) as [ws H].
  exists (rev ws).
  rewrite <- rev_app_distr, <- H. now rewrite rev_involutive.
Qed.

Lemma trimEnd_last (s r : str) (c : codeunit) :
  trimEnd s = r ++ [c] -> isWhiteSpace c = false.
Proof.
  unfold trimEnd. intros H.
  apply (f_equal (@rev codeunit)) in H.
  rewrite rev_involutive, rev_app_distr in H. simpl in H.
  now apply trimStart_head in H.
Qed.

Lemma trimEnd_length (s : str) : length (trimEnd s) <= length s.
Proof.
  unfold trimEnd. rewrite length_rev.
  pose proof (trimStart_length (rev s)) as H. now rewrite length_rev in H.
Qed.

Lemma trim_length (s : str) : length (trim s) <= length s.
Proof.
  unfold trim. pose proof (trimEnd_length (trimStart s)).
  pose proof (trimStart_length s). lia.
Qed.

Lemma trim_trimmed (s : str) : trimmed (trim s).
Proof.
  unfold trim. split.
  - intros c r H.
    destruct (trimEnd_prefix (trimStart s)) as [ws Hws].
    rewrite H in Hws. simpl in Hws.
    now apply trimStart_head in Hws.
  - intros c r H. now apply trimEnd_last in H.
Qed.

Lemma isEmpty_true (s : str) : isEmpty s = true <-> s = [].
Proof. destruct s; simpl; split; congruence. Qed.

Lemma isEmpty_false (s : str) : isEmpty s = false <-> s <> [].
Proof. destruct s; simpl; split; congruence. Qed.

Lemma trim_nil : trim [] = [].
Proof. reflexivity. Qed.

Lemma eqb_str_eq (a b : str) : eqb_str a b = true <-> a = b.
Proof.
  revert b. induction a as [|x a IH]; intros [|y b]; simpl;
    try (split; congruence).
  rewrite andb_true_iff, N.eqb_eq, IH. split.
  - intros [-> ->]; reflexivity.
  - intros H; injection H as -> ->; split; reflexivity.
Qed.

Lemma trim_fixed (s : str) : trimmed s -> trim s = s.
Proof.
  intros [Hhead Hlast]. destruct s as [|c r]; [reflexivity|].
  unfold trim. rewrite (trimStart_fixed (c :: r) c r eq_refl (Hhead c r eq_refl)).
  unfold trimEnd. destruct (rev (c :: r)) as [|x l] eqn:Hrev.
  - apply (f_equal (@length codeunit)) in Hrev. rewrite length_rev in Hrev.
    discriminate.
  - apply (f_equal (@rev codeunit)) in Hrev. rewrite rev_involutive in Hrev.
    simpl in Hrev.
    rewrite (trimStart_fixed (x :: l) x l eq_refl (Hlast x (rev l) Hrev)).
    now rewrite Hrev.
Qed.

Lemma trim_idempotent (s : str) : trim (trim s) = trim s.
Proof. apply trim_fixed, trim_trimmed. Qed.

(** ** The gateway *)

Section GatewayFacts.
Context {Msg : Type}.
Implicit Types (w : world Msg) (content categoryName email password : str).

Lemma createPost_signed_out w content (category : option str) :
  currentUser w = None ->
  createPost content category w =
    (Thrown (newError "User must be authenticated to create posts"), w).
Proof.
  intros H. unfold createPost. rewrite run_bind. unfold getCurrentUser.
  now rewrite H.
Qed.

Lemma createCategory_signed_out w categoryName :
  currentUser w = None ->
  createCategory categoryName w =
    (Thrown (newError "User must be authenticated to create categories"), w).
Proof.
  intros H. unfold createCategory. rewrite run_bind. unfold getCurrentUser.
  now rewrite H.
Qed.

Lemma createPost_blank w content (category : option str) (u : user) :
  currentUser w = Some u ->
  trim content = [] ->
  createPost content category w =
    (Thrown (newError "Post content cannot be empty"), w).
Proof.
  intros Hu H. unfold createPost. rewrite run_bind. unfold getCurrentUser.
  rewrite Hu, H. simpl. now rewrite orb_true_r.
Qed.

(** C4. With nobody signed in, [createPost] and [createCategory] throw their
    authentication-required error whatever the content, the category or the
    name, and leave the world as it was: no call reaches the provider. *)
Theorem create_requires_authentication w content (category : option str) categoryName :
  currentUser w = None ->
  createPost content category w =
    (Thrown (newError "User must be authenticated to create posts"), w)
  /\ createCategory categoryName w =
    (Thrown (newError "User must be authenticated to create categories"), w).
Proof.
  intros H. split.
  - now apply createPost_signed_out.
  - now apply createCategory_signed_out.
Qed.

(** C5. On a content that is empty once trimmed, [createPost] throws before
    any call to the provider and leaves the world as it was. The error is the
    empty-content one when somebody is signed in, and the
    authentication-required one (the check made first) otherwise; the
    specification counts both as validation errors. *)
Theorem createPost_blank_content_rejected w content (category : option str) :
  trim content = [] ->
  createPost content category w =
    (Thrown
       (match currentUser w with
        | Some _ => newError "Post content cannot be empty"
        | None => newError "User must be authenticated to create posts"
        end), w).
Proof.
  intros H. destruct (currentUser w) as [u|] eqn:Hu.
  - now apply (createPost_blank w content category u).
  - now apply createPost_signed_out.
Qed.

End GatewayFacts.

Lemma create_requires_authentication_witness :
  currentUser (freshWorld unit acceptingProvider None) = None /\
  createPost (lit "hello") None (freshWorld unit acceptingProvider None) =
    (Thrown (newError "User must be authenticated to create posts"),
     freshWorld unit acceptingProvider None).
Proof.
  split; [reflexivity|].
  apply (create_requires_authentication
           (freshWorld unit acceptingProvider None) (lit "hello") None (lit "News")).
  reflexivity.
Defined.

Lemma createPost_blank_content_rejected_witness :
  createPost (lit "  ") None (freshWorld unit acceptingProvider (Some alice)) =
    (Thrown (newError "Post content cannot be empty"),
     freshWorld unit acceptingProvider (Some alice)).
Proof.
  apply (createPost_blank_content_rejected
           (freshWorld unit acceptingProvider (Some alice)) (lit "  ") None).
  reflexivity.
Defined.

Section GatewayWrites.
Context {Msg : Type}.
Implicit Types (w : world Msg) (text email password : str).

(** What [createPost] does once its two checks have passed. *)
Lemma createPost_checked w text (category : option str) (u : user) :
  currentUser w = Some u ->
  trim text <> [] ->
  let postData :=
    {| content := trim text;
       category := Some (match category with Some c => c | None => lit "General" end);
       userId := uid u; userEmail := email u;
       createdAt := serverTimestamp; updatedAt := serverTimestamp |} in
  createPost text category w =
  match addDoc (backend w) (calls w) (lit "posts") (PostDoc postData) with
  | Normal docId =>
      (Normal {| id := docId; data := postData |},
       setDocuments (documents w ++ [(lit "posts", docId, PostDoc postData)])
         (recordCall (AddDoc (lit "posts") (PostDoc postData)) w))
  | Thrown e =>
      (Thrown (newError "Failed to create post"),
       logError (lit "Error creating post:") e
         (recordCall (AddDoc (lit "posts") (PostDoc postData)) w))
  end.
Proof.
  intros Hu Ht. unfold createPost. rewrite run_bind.
  unfold getCurrentUser. rewrite Hu.
  assert (Hc : isEmpty text || isEmpty (trim text) = false).
  { apply orb_false_iff. split; apply isEmpty_false; [|exact Ht].
    intros ->. now apply Ht. }
  rewrite Hc. cbv zeta. rewrite run_catch, run_bind.
  unfold window_addDoc.
  destruct (addDoc _ _ _ _); reflexivity.
Qed.

(** C3, as the code has it. A post that [createPost] persists holds the
    trimmed argument: its content is not empty, has no white space at either
    end and is no longer than the argument. [createPost] compares no length
    with 500. *)
Theorem createPost_persists_trimmed_content w text (category : option str) :
  let w' := snd (createPost text category w) in
  documents w' = documents w \/
  exists docId pd,
    documents w' = documents w ++ [(lit "posts", docId, PostDoc pd)]
    /\ content pd = trim text
    /\ content pd <> []
    /\ trimmed (content pd)
    /\ length (content pd) <= length text.
Proof.
  cbv zeta.
  destruct (currentUser w) as [u|] eqn:Hu.
  - destruct (isEmpty (trim text)) eqn:He.
    + apply isEmpty_true in He. left.
      now rewrite (createPost_blank w text category u Hu He).
    + apply isEmpty_false in He. rename He into Hne.
      rewrite (createPost_checked w text category u Hu Hne).
      destruct (addDoc _ _ _ _) as [docId|e]; [right|left; reflexivity].
      eexists; eexists. split; [reflexivity|]. cbn [content].
      repeat split; [exact Hne|apply trim_trimmed|apply trim_trimmed|apply trim_length].
  - left. now rewrite (createPost_signed_out w text category Hu).
Qed.


(** C10. When the identity is created and the write of the first profile
    document fails, [registerUser] throws the generic authentication message,
    the one [handleFirebaseError] gives for any error without a code; the
    provider keeps the new identity, and the only calls made are the creation
    and the refused write. *)
Theorem register_is_not_atomic w email password (u : user) (error : jsError) :
  createUserWithEmailAndPassword (backend w) (calls w) email password = Normal u ->
  setDoc (backend w) (calls w ++ [CreateUserWithEmailAndPassword email password])
    (lit "users") (uid u)
    {| profileEmail := Some email; profileCreatedAt := Some serverTimestamp;
       lastLogin := Some serverTimestamp |} false = Thrown error ->
  exists w',
    registerUser email password w =
      (Thrown (newError "Authentication failed. Please try again"), w')
    /\ accounts w' = accounts w ++ [u]
    /\ calls w' =
         calls w ++
         [CreateUserWithEmailAndPassword email password;
          SetDoc (lit "users") (uid u)
            {| profileEmail := Some email; profileCreatedAt := Some serverTimestamp;
               lastLogin := Some serverTimestamp |} false]
    /\ documents w' = documents w
    /\ forall e, code e = None ->
         handleFirebaseError e = newError "Authentication failed. Please try again".
Proof.
  intros Hnew Hset. eexists.
  unfold registerUser. rewrite run_catch, run_bind.
  unfold window_createUserWithEmailAndPassword. rewrite Hnew.
  cbv zeta. rewrite run_bind. unfold createUserProfile. rewrite run_catch.
  unfold window_setDoc. cbn [backend calls recordCall setAccounts]. rewrite Hset.
  split; [reflexivity|]. cbn [accounts calls documents logError recordCall setAccounts].
  repeat split.
  - now rewrite <- app_assoc.
  - intros e He. unfold handleFirebaseError. now rewrite He.
Qed.

End GatewayWrites.

(** C3, as stated, fails: signed in on a provider that accepts the write,
    [createPost] persists a content of 501 characters. *)
Lemma createPost_persists_501_characters :
  let w := freshWorld unit acceptingProvider (Some alice) in
  let text := repeat 97%N 501 in
  documents (snd (createPost text None w)) =
    [(lit "posts", lit "doc1",
      PostDoc {| content := text; category := Some (lit "General");
                 userId := uid alice; userEmail := email alice;
                 createdAt := serverTimestamp; updatedAt := serverTimestamp |})]
  /\ ~ length text <= 500.
Proof.
  cbv zeta. split; [vm_compute; reflexivity|].
  rewrite repeat_length. lia.
Qed.


Lemma register_is_not_atomic_witness :
  exists w',
    registerUser (lit "a@b.com") (lit "secret1")
      (freshWorld unit storeDownProvider None) =
      (Thrown (newError "Authentication failed. Please try again"), w')
    /\ accounts w' = [alice].
Proof.
  destruct (register_is_not_atomic
              (freshWorld unit storeDownProvider None)
              (lit "a@b.com") (lit "secret1") alice permissionDenied
              eq_refl eq_refl) as [w' [H1 [H2 _]]].
  exists w'. split; [exact H1|exact H2].
Defined.

(** ** Live queries *)

Lemma findListener_fresh {Msg} (n : handle) (x : anyListener Msg)
    (l : list (handle * anyListener Msg)) :
  Forall (fun hl => fst hl < n) l ->
  findListener n (l ++ [(n, x)]) = Some x.
Proof.
  induction 1 as [|[h y] l Hh _ IH]; simpl.
  - now rewrite Nat.eqb_refl.
  - simpl in Hh. destruct (Nat.eqb_spec h n); [lia|exact IH].
Qed.

(** C8. A live query opened by [subscribeToPosts] or [subscribeToCategories]
    is registered with an error function that, whatever the error, logs it
    and then calls the subscriber's callback on the empty array; it does
    nothing else, so nothing is thrown at the subscriber. *)
Theorem query_error_calls_back_with_empty_set {Msg} (w w' : world Msg)
    (h : handle) :
  freshHandles w ->
  (forall (callback : list post -> Msg) category limitCount,
      subscribeToPosts callback category limitCount w = (Normal h, w') ->
      exists l,
        findListener h (listeners w') = Some (PostsListener l)
        /\ forall error,
             onError l error =
               [ConsoleError (lit "Error listening to posts:") error;
                Notify (callback [])])
  /\
  (forall (callback : list categoryItem -> Msg),
      subscribeToCategories callback w = (Normal h, w') ->
      exists l,
        findListener h (listeners w') = Some (CategoriesListener l)
        /\ forall error,
             onError l error =
               [ConsoleError (lit "Error listening to categories:") error;
                Notify (callback [])]).
Proof.
  intros Hfresh. split.
  - intros callback category limitCount H.
    exists (postsListener callback). split; [|reflexivity].
    unfold subscribeToPosts in H. rewrite run_bind in H.
    unfold getCurrentUser in H.
    destruct (currentUser w); [|discriminate].
    rewrite run_catch in H. cbv zeta in H. unfold window_onSnapshot in H.
    destruct (onSnapshot _ _ _) as [[]|e]; [|discriminate].
    injection H as <- <-. cbn [listeners setListeners].
    now apply findListener_fresh.
  - intros callback H.
    exists (categoriesListener callback). split; [|reflexivity].
    unfold subscribeToCategories in H. rewrite run_bind in H.
    unfold getCurrentUser in H.
    destruct (currentUser w); [|discriminate].
    rewrite run_catch in H. cbv zeta in H. unfold window_onSnapshot in H.
    destruct (onSnapshot _ _ _) as [[]|e]; [|discriminate].
    injection H as <- <-. cbn [listeners setListeners].
    now apply findListener_fresh.
Qed.

Lemma query_error_calls_back_with_empty_set_witness :
  exists l : listener postData (list post),
    findListener 0
      (listeners (snd (subscribeToPosts (fun posts => posts) None None
                         (freshWorld (list post) acceptingProvider (Some alice)))))
    = Some (PostsListener l)
    /\ onError l permissionDenied =
         [ConsoleError (lit "Error listening to posts:") permissionDenied; Notify []].
Proof.
  destruct (proj1 (query_error_calls_back_with_empty_set
                     (freshWorld (list post) acceptingProvider (Some alice))
                     (snd (subscribeToPosts (fun posts => posts) None None
                             (freshWorld (list post) acceptingProvider (Some alice))))
                     0 (Forall_nil _))
              (fun posts => posts) None None eq_refl) as [l [H1 H2]].
  exists l. split; [exact H1|exact (H2 permissionDenied)].
Defined.

(** *** Handles stay fresh *)

Lemma preserves_ret {S A} (I : S -> Prop) (a : A) : preserves I (ret a : js S A).
Proof. intros s H; exact H. Qed.

Lemma preserves_raise {S A} (I : S -> Prop) (e : jsError) :
  preserves I (raise e : js S A).
Proof. intros s H; exact H. Qed.

Lemma preserves_bind {S A B} (I : S -> Prop) (m : js S A) (k : A -> js S B) :
  preserves I m -> (forall a, preserves I (k a)) -> preserves I (bind m k).
Proof.
  intros Hm Hk s Hs. rewrite run_bind. specialize (Hm s Hs).
  destruct (m s) as [[a|e] s']; simpl in *; [|exact Hm].
  now apply Hk.
Qed.

Lemma preserves_catch {S A} (I : S -> Prop) (m : js S A) (h : jsError -> js S A) :
  preserves I m -> (forall e, preserves I (h e)) -> preserves I (catch m h).
Proof.
  intros Hm Hh s Hs. rewrite run_catch. specialize (Hm s Hs).
  destruct (m s) as [[a|e] s']; simpl in *; [exact Hm|].
  now apply Hh.
Qed.

Lemma preserves_get {S} (I : S -> Prop) : preserves I (get : js S S).
Proof. intros s H; exact H. Qed.

Lemma preserves_modify {S} (I : S -> Prop) (g : S -> S) :
  (forall s, I s -> I (g s)) -> preserves I (modify g : js S S).
Proof. intros H s Hs. cbn. now apply H. Qed.

Create HintDb fresh.
#[local] Hint Resolve preserves_ret preserves_raise preserves_get : fresh.
#[local] Hint Extern 1 (preserves _ (bind _ _)) =>
  apply preserves_bind; [|intro] : fresh.
#[local] Hint Extern 1 (preserves _ (catch _ _)) =>
  apply preserves_catch; [|intro] : fresh.
#[local] Hint Extern 2 (preserves _ (match ?x with _ => _ end)) => destruct x : fresh.
#[local] Hint Extern 2 (preserves _ (if ?x then _ else _)) => destruct x : fresh.

Section FreshGateway.
Context {Msg : Type}.

Lemma consoleError_fresh (label : string) (e : jsError) :
  preserves (@freshHandles Msg) (consoleError label e).
Proof. intros w H; exact H. Qed.

Lemma window_createUser_fresh (email password : str) :
  preserves (@freshHandles Msg) (window_createUserWithEmailAndPassword email password).
Proof.
  intros w H. unfold window_createUserWithEmailAndPassword.
  destruct (createUserWithEmailAndPassword _ _ _ _); exact H.
Qed.

Lemma window_signIn_fresh (email password : str) :
  preserves (@freshHandles Msg) (window_signInWithEmailAndPassword email password).
Proof. intros w H; exact H. Qed.

Lemma window_signOut_fresh : preserves (@freshHandles Msg) window_signOut.
Proof. intros w H; exact H. Qed.

Lemma window_setDoc_fresh (coll docId : str) (d : profileData) (merge : bool) :
  preserves (@freshHandles Msg) (window_setDoc coll docId d merge).
Proof.
  intros w H. unfold window_setDoc. destruct (setDoc _ _ _ _ _ _) as [[]|]; exact H.
Qed.

Lemma window_addDoc_fresh (coll : str) (d : docData) :
  preserves (@freshHandles Msg) (window_addDoc coll d).
Proof.
  intros w H. unfold window_addDoc. destruct (addDoc _ _ _ _); exact H.
Qed.

Lemma window_onSnapshot_fresh (q : query) (l : anyListener Msg) :
  preserves (@freshHandles Msg) (window_onSnapshot q l).
Proof.
  intros w H. unfold window_onSnapshot.
  destruct (onSnapshot _ _ _) as [[]|]; [|exact H].
  unfold freshHandles in *. cbn [snd listeners nextHandle setListeners].
  apply Forall_app. split.
  - eapply Forall_impl; [|exact H]. intros hl Hlt. simpl in *. lia.
  - repeat constructor.
Qed.

Lemma unsubscribe_fresh (h : handle) : preserves (@freshHandles Msg) (unsubscribe h).
Proof.
  intros w H. unfold freshHandles in *. cbn [snd unsubscribe listeners nextHandle setListeners recordCall].
  apply Forall_forall. intros hl Hin. apply filter_In in Hin.
  rewrite Forall_forall in H. now apply H.
Qed.

Lemma getCurrentUser_fresh : preserves (@freshHandles Msg) getCurrentUser.
Proof. intros w H; exact H. Qed.

#[local] Hint Resolve consoleError_fresh window_createUser_fresh window_signIn_fresh
  window_signOut_fresh window_setDoc_fresh window_addDoc_fresh
  window_onSnapshot_fresh unsubscribe_fresh getCurrentUser_fresh : fresh.

Lemma createPost_fresh (content : str) (category : option str) :
  preserves (@freshHandles Msg) (createPost content category).
Proof. unfold createPost. auto 10 with fresh. Qed.

Lemma createCategory_fresh (categoryName : str) :
  preserves (@freshHandles Msg) (createCategory categoryName).
Proof. unfold createCategory. auto 10 with fresh. Qed.

Lemma subscribeToPosts_fresh (callback : list post -> Msg) (category : option str)
    (limitCount : option N) :
  preserves (@freshHandles Msg) (subscribeToPosts callback category limitCount).
Proof. unfold subscribeToPosts. auto 10 with fresh. Qed.

Lemma subscribeToCategories_fresh (callback : list categoryItem -> Msg) :
  preserves (@freshHandles Msg) (subscribeToCategories callback).
Proof. unfold subscribeToCategories. auto 10 with fresh. Qed.

Lemma logout_fresh : preserves (@freshHandles Msg) logout.
Proof. unfold logout. auto 10 with fresh. Qed.

End FreshGateway.

Lemma viaAuthManager_fresh {A} (m : js (world pageMsg) A) :
  preserves freshHandles m -> preserves pageFresh (viaAuthManager m).
Proof.
  intros Hm p Hp. unfold viaAuthManager, pageFresh in *.
  specialize (Hm (authManager p) Hp).
  destruct (m (authManager p)). exact Hm.
Qed.

Lemma updateDashboard_fresh (g : dashboard -> dashboard) :
  preserves pageFresh (updateDashboard g).
Proof. intros p Hp. unfold updateDashboard. destruct (container p); exact Hp. Qed.

Lemma page_modify_fresh (g : page -> page) :
  (forall p, authManager (g p) = authManager p) ->
  preserves pageFresh (modify g : js page page).
Proof.
  intros H. apply preserves_modify. intros p Hp. unfold pageFresh. now rewrite H.
Qed.

Lemma setCurrentUser_fresh (u : option user) :
  preserves (@freshHandles pageMsg) (modify (setCurrentUser u)).
Proof. apply preserves_modify. intros w H; exact H. Qed.

Lemma logError_fresh (label : str) (e : jsError) :
  preserves (@freshHandles pageMsg) (fun w => (Normal tt, logError label e w)).
Proof. intros w H; exact H. Qed.

#[local] Hint Resolve updateDashboard_fresh setCurrentUser_fresh logError_fresh
  consoleError_fresh unsubscribe_fresh getCurrentUser_fresh createPost_fresh
  createCategory_fresh subscribeToPosts_fresh subscribeToCategories_fresh
  logout_fresh : fresh.
#[local] Hint Extern 1 (preserves pageFresh (viaAuthManager _)) =>
  apply viaAuthManager_fresh : fresh.
#[local] Hint Extern 1 (preserves pageFresh (modify _)) =>
  apply page_modify_fresh; reflexivity : fresh.
#[local] Hint Extern 1 (preserves pageFresh (pageConsoleError _ _)) =>
  unfold pageConsoleError : fresh.

Lemma renderLoginPage_fresh : preserves pageFresh renderLoginPage.
Proof. intros p Hp; exact Hp. Qed.

Lemma renderSignupPage_fresh : preserves pageFresh renderSignupPage.
Proof. intros p Hp; exact Hp. Qed.

Lemma renderPosts_fresh (posts : list post) : preserves pageFresh (renderPosts posts).
Proof. intros p Hp. unfold renderPosts. destruct (container p); exact Hp. Qed.

Lemma updatePostLabel_fresh : preserves pageFresh updatePostLabel.
Proof. intros p Hp. unfold updatePostLabel. now apply updateDashboard_fresh. Qed.

Lemma updateCategorySelection_fresh : preserves pageFresh updateCategorySelection.
Proof.
  intros p Hp. unfold updateCategorySelection.
  destruct (eqb_str _ _); [exact Hp|]. destruct (validSelector _ _); exact Hp.
Qed.

#[local] Hint Resolve renderLoginPage_fresh renderSignupPage_fresh renderPosts_fresh
  updatePostLabel_fresh updateCategorySelection_fresh : fresh.

Lemma refreshFeed_fresh : preserves pageFresh refreshFeed.
Proof. unfold refreshFeed. auto 12 with fresh. Qed.

Lemma selectCategory_fresh (categoryName : str) :
  preserves pageFresh (selectCategory categoryName).
Proof. unfold selectCategory. pose proof refreshFeed_fresh. auto 12 with fresh. Qed.

Lemma renderCategories_fresh : preserves pageFresh renderCategories.
Proof. unfold renderCategories. auto 12 with fresh. Qed.

Lemma initializeFeed_fresh : preserves pageFresh initializeFeed.
Proof. unfold initializeFeed. auto 12 with fresh. Qed.

Lemma renderDashboard_fresh : preserves pageFresh renderDashboard.
Proof. unfold renderDashboard. pose proof initializeFeed_fresh. auto 12 with fresh. Qed.

Lemma onPostSubmit_fresh : preserves pageFresh onPostSubmit.
Proof. unfold onPostSubmit. auto 14 with fresh. Qed.

Lemma runEffects_fresh (l : list (effect pageMsg)) : preserves pageFresh (runEffects l).
Proof.
  induction l as [|e l IH]; cbn [runEffects]; [auto with fresh|].
  apply preserves_bind; [|intros _; exact IH].
  pose proof renderCategories_fresh.
  destruct e as [label error|[posts|categories]]; cbn [runEffect]; auto 8 with fresh.
Qed.

Lemma handler_fresh (e : event) : preserves pageFresh (handler e).
Proof.
  pose proof renderDashboard_fresh. pose proof selectCategory_fresh.
  pose proof onPostSubmit_fresh. pose proof runEffects_fresh.
  unfold handler. apply preserves_bind; [auto with fresh|]. intros p.
  destruct e; unfold authStateListener, handleAuthStateChange, onLogoutClick,
    onAddCategoryClick, pageCreateCategory, onPostInput; auto 14 with fresh.
Qed.

(** Whatever happens to the page from its start, every live query keeps a
    handle below the next one: the hypothesis of the facts on live queries
    holds in every state the application reaches. *)
Lemma reachable_pages_fresh (b : browser) (pr : provider) (events : list event) :
  pageFresh (run (initialPage b pr) events).
Proof.
  unfold run. rewrite <- fold_left_rev_right.
  induction (rev events) as [|e l IH]; cbn [fold_right].
  - constructor.
  - now apply handler_fresh.
Qed.

(** X18. On the dashboard, an error of the posts query ends normally: it is
    logged and the posts container shows the empty feed, not an error. *)
Lemma query_error_shows_empty_feed (p : page) (d : dashboard) (h : handle)
    (error : jsError) :
  container p = Dashboard d ->
  findListener h (listeners (authManager p))
    = Some (PostsListener (postsListener PostsCallback)) ->
  handler (QueryError h error) p =
    (Normal tt,
     setContainer (Dashboard (setPostsContainer emptyPostsTemplate d))
       (setAuthManager
          (logError (lit "Error listening to posts:") error (authManager p)) p)).
Proof.
  intros Hd Hl. unfold handler. rewrite run_bind. cbn [get MonadState_js].
  rewrite Hl. cbn [onError postsListener runEffects runEffect].
  rewrite run_bind. unfold viaAuthManager at 1. rewrite run_bind.
  unfold renderPosts. cbn [container setAuthManager]. rewrite Hd.
  reflexivity.
Qed.

(** ** The page *)

(** *** What the handlers keep *)

Lemma keeps_ret {S A X} (f : S -> X) (a : A) : keeps f (ret a : js S A).
Proof. intros s; reflexivity. Qed.

Lemma keeps_bind {S A B X} (f : S -> X) (m : js S A) (k : A -> js S B) :
  keeps f m -> (forall a, keeps f (k a)) -> keeps f (bind m k).
Proof.
  intros Hm Hk s. rewrite run_bind. specialize (Hm s).
  destruct (m s) as [[a|e] s']; simpl in *; [|exact Hm].
  now rewrite Hk.
Qed.

Lemma keeps_catch {S A X} (f : S -> X) (m : js S A) (h : jsError -> js S A) :
  keeps f m -> (forall e, keeps f (h e)) -> keeps f (catch m h).
Proof.
  intros Hm Hh s. rewrite run_catch. specialize (Hm s).
  destruct (m s) as [[a|e] s']; simpl in *; [exact Hm|].
  now rewrite Hh.
Qed.

Lemma keeps_get {S X} (f : S -> X) : keeps f (get : js S S).
Proof. intros s; reflexivity. Qed.

Lemma keeps_modify {S X} (f : S -> X) (g : S -> S) :
  (forall s, f (g s) = f s) -> keeps f (modify g : js S S).
Proof. intros H s. cbn. apply H. Qed.

Lemma keeps_viaAuthManager {A X} (f : page -> X) (m : js (world pageMsg) A) :
  (forall w p, f (setAuthManager w p) = f p) -> keeps f (viaAuthManager m).
Proof.
  intros H p. unfold viaAuthManager. destruct (m (authManager p)). apply H.
Qed.

Lemma keeps_updateDashboard {X} (f : page -> X) (g : dashboard -> dashboard) :
  (forall v p, f (setContainer v p) = f p) -> keeps f (updateDashboard g).
Proof.
  intros H p. unfold updateDashboard. destruct (container p); simpl; auto.
Qed.

Create HintDb keeps.
#[local] Hint Resolve keeps_ret keeps_get keeps_modify keeps_viaAuthManager
  keeps_updateDashboard : keeps.
#[local] Hint Extern 1 (keeps _ (bind _ _)) => apply keeps_bind; [|intro] : keeps.
#[local] Hint Extern 1 (keeps _ (catch _ _)) => apply keeps_catch; [|intro] : keeps.
#[local] Hint Extern 2 (keeps _ (match ?x with _ => _ end)) => destruct x : keeps.

Lemma refreshFeed_keeps_selectedCategory : keeps selectedCategory refreshFeed.
Proof.
  unfold refreshFeed, pageConsoleError. auto 10 with keeps.
Qed.

Lemma updatePostLabel_keeps_selectedCategory : keeps selectedCategory updatePostLabel.
Proof.
  intros p. unfold updatePostLabel. apply keeps_updateDashboard. reflexivity.
Qed.

Lemma updateCategorySelection_keeps_selectedCategory :
  keeps selectedCategory updateCategorySelection.
Proof.
  intros p. unfold updateCategorySelection.
  destruct (eqb_str _ _); [reflexivity|]. destruct (validSelector _ _); reflexivity.
Qed.

(** [selectCategory] sets the selection, whether or not the rest of it
    completes. *)
Lemma selectCategory_selects (categoryName : str) (p : page) :
  selectedCategory (snd (selectCategory categoryName p)) = categoryName.
Proof.
  unfold selectCategory. rewrite run_bind. cbn [modify MonadState_js].
  change (selectedCategory
            (snd ((updatePostLabel ;; updateCategorySelection ;; refreshFeed)
                    (setSelectedCategory categoryName p))) = categoryName).
  rewrite (keeps_bind selectedCategory).
  - reflexivity.
  - apply updatePostLabel_keeps_selectedCategory.
  - intros _. apply keeps_bind.
    + apply updateCategorySelection_keeps_selectedCategory.
    + intros _. apply refreshFeed_keeps_selectedCategory.
Qed.

(** *** Logout *)

(** C2, on the code. From the dashboard, the logout click and the sign-out
    notification that follows it bring the login page and release nothing:
    the live queries of the provider and the two handles of the page are
    those of before, and the only call made is the sign-out. [cleanup] is
    not on this path. *)
Theorem logout_releases_no_subscription (p : page) (d : dashboard) :
  container p = Dashboard d ->
  let p' := run p [ClickLogout; AuthStateChanged None] in
  container p' = LoginPage
  /\ listeners (authManager p') = listeners (authManager p)
  /\ postsUnsubscribe p' = postsUnsubscribe p
  /\ categoriesUnsubscribe p' = categoriesUnsubscribe p
  /\ calls (authManager p') = calls (authManager p) ++ [SignOut].
Proof.
  intros Hd. cbv zeta. unfold run. cbn [fold_left].
  assert (H1 : step p ClickLogout =
               match signOut (backend (authManager p)) (calls (authManager p)) with
               | Normal _ => setAuthManager (recordCall SignOut (authManager p)) p
               | Thrown e =>
                   setContainer LoginPage
                     (setAuthManager
                        (logError (lit "Logout error:") (newError "Failed to sign out")
                           (logError (lit "Error signing out:") e
                              (recordCall SignOut (authManager p)))) p)
               end).
  { unfold step, handler. rewrite run_bind. cbn [get MonadState_js].
    rewrite Hd. unfold onLogoutClick. rewrite run_catch.
    unfold viaAuthManager, logout. rewrite run_catch. unfold window_signOut.
    destruct (signOut _ _) as [[]|e]; reflexivity. }
  rewrite H1.
  destruct (signOut _ _) as [[]|e]; cbn; repeat split; reflexivity.
Qed.

Lemma logout_releases_no_subscription_witness :
  let p' := run aliceDashboard [ClickLogout; AuthStateChanged None] in
  container p' = LoginPage
  /\ List.map fst (listeners (authManager p')) = [0; 1]
  /\ postsUnsubscribe p' = Some 0
  /\ categoriesUnsubscribe p' = Some 1.
Proof.
  cbv zeta.
  destruct (logout_releases_no_subscription aliceDashboard _ eq_refl)
    as [H1 [H2 [H3 [H4 _]]]].
  rewrite H1, H2, H3, H4. repeat split.
Defined.

Lemma findListener_filter {Msg} (h : handle) (l : list (handle * anyListener Msg))
    (f : handle * anyListener Msg -> bool) :
  findListener h l = None -> findListener h (filter f l) = None.
Proof.
  induction l as [|[h' x] l IH]; simpl; [reflexivity|].
  destruct (Nat.eqb_spec h' h) as [->|Hne]; [discriminate|].
  intros H. destruct (f (h', x)); simpl; [|now apply IH].
  destruct (Nat.eqb_spec h' h); [contradiction|now apply IH].
Qed.

Lemma findListener_released {Msg} (h : handle) (l : list (handle * anyListener Msg)) :
  findListener h (filter (fun hl => negb (Nat.eqb (fst hl) h)) l) = None.
Proof.
  induction l as [|[h' x] l IH]; simpl; [reflexivity|].
  destruct (Nat.eqb_spec h' h) as [->|Hne]; simpl; [exact IH|].
  destruct (Nat.eqb_spec h' h); [contradiction|exact IH].
Qed.

(** X17. [cleanup] releases the two live queries of the page; the logout
    path never runs it. *)
Lemma cleanup_releases_both (p : page) (a b : handle) :
  postsUnsubscribe p = Some a ->
  categoriesUnsubscribe p = Some b ->
  findListener a (listeners (authManager (snd (cleanup p)))) = None
  /\ findListener b (listeners (authManager (snd (cleanup p)))) = None.
Proof.
  intros Ha Hb. unfold cleanup. rewrite run_bind. cbn [get MonadState_js].
  rewrite Ha, Hb. rewrite run_bind.
  cbn [viaAuthManager unsubscribe snd authManager setAuthManager listeners
       setListeners recordCall].
  split.
  - apply findListener_filter, findListener_released.
  - apply findListener_released.
Qed.

(** *** The category of a submitted post *)

(** C6. Submitting the post form of the dashboard, with somebody signed in
    and a content that is not blank, asks the provider to add a post whose
    category is [General] when the selected category is [All], and the
    selected category otherwise. A click on a category button selects the
    name it carries, a click on the all-messages button selects [All]. *)
Theorem submitted_post_takes_selected_category (p : page) (d : dashboard) (u : user) :
  container p = Dashboard d ->
  currentUser (authManager p) = Some u ->
  trim (postContent d) <> [] ->
  (exists assigned,
      calls (authManager (step p SubmitPost)) =
        calls (authManager p) ++
        [AddDoc (lit "posts")
           (PostDoc {| content := trim (postContent d);
                       category := Some assigned;
                       userId := uid u; userEmail := email u;
                       createdAt := serverTimestamp;
                       updatedAt := serverTimestamp |})]
      /\ (selectedCategory p = lit "All" -> assigned = lit "General")
      /\ (selectedCategory p <> lit "All" -> assigned = selectedCategory p))
  /\ (forall X, selectedCategory (step p (ClickCategory X)) = X)
  /\ selectedCategory (step p ClickCategoryAll) = lit "All".
Proof.
  intros Hd Hu Ht. split; [|split].
  - exists (if eqb_str (selectedCategory p) (lit "All")
            then lit "General" else selectedCategory p).
    split; [|split].
    + unfold step, handler. rewrite run_bind. cbn [get MonadState_js].
      rewrite Hd. unfold onPostSubmit. rewrite run_bind. cbn [get MonadState_js].
      rewrite Hd. cbv zeta. rewrite run_bind.
      unfold updateDashboard at 1. rewrite Hd.
      apply isEmpty_false in Ht. rewrite Ht. apply isEmpty_false in Ht.
      rewrite run_catch, run_bind. cbn [get MonadState_js]. rewrite run_bind.
      unfold viaAuthManager.
      cbn [authManager setContainer selectedCategory].
      assert (Ht' : trim (trim (postContent d)) <> [])
        by now rewrite trim_idempotent.
      rewrite (createPost_checked (authManager p) (trim (postContent d)) _ u Hu Ht').
      rewrite trim_idempotent.
      destruct (addDoc _ _ _ _) as [docId|e]; reflexivity.
    + intros H. apply eqb_str_eq in H. now rewrite H.
    + intros H. destruct (eqb_str _ _) eqn:E; [|reflexivity].
      apply eqb_str_eq in E. contradiction.
  - intros X. unfold step, handler. rewrite run_bind. cbn [get MonadState_js].
    rewrite Hd. apply selectCategory_selects.
  - unfold step, handler. rewrite run_bind. cbn [get MonadState_js].
    rewrite Hd. apply selectCategory_selects.
Qed.

Lemma submitted_post_takes_selected_category_witness :
  let p := run aliceDashboard [ClickCategory (lit "News"); InputPost (lit " hello ")] in
  selectedCategory p = lit "News"
  /\ exists assigned,
       calls (authManager (step p SubmitPost)) =
         calls (authManager p) ++
         [AddDoc (lit "posts")
            (PostDoc {| content := lit "hello";
                        category := Some assigned;
                        userId := uid alice; userEmail := email alice;
                        createdAt := serverTimestamp;
                        updatedAt := serverTimestamp |})]
       /\ assigned = lit "News".
Proof.
  cbv zeta. split; [reflexivity|].
  assert (Hne : trim (lit " hello ") <> []) by (vm_compute; discriminate).
  destruct (submitted_post_takes_selected_category
              (run aliceDashboard [ClickCategory (lit "News"); InputPost (lit " hello ")])
              _ alice eq_refl eq_refl Hne)
    as [[assigned [H1 [_ H3]]] _].
  exists assigned. split; [exact H1|].
  apply H3. vm_compute. discriminate.
Defined.

(** ** The content formatter *)

Example statedUrlAt_plain :
  statedUrlAt (lit "https://example.org/a?b=1, then") = Some (lit "https://example.org/a?b=1").
Proof. reflexivity. Qed.

Example linkifyText_plain :
  linkifyText (lit "see https://example.org/a?b=1, then") =
  lit "see " ++ anchor (lit "https://example.org/a?b=1") ++ lit ", then".
Proof. vm_compute. reflexivity. Qed.

(** C7, as stated, fails. The text [http://a.com/x], a double quote, [y] is,
    in the words of the claim, one well-formed URL: a run without white space
    after the scheme. [linkifyText] wraps only [http://a.com/x], so the
    anchor of the whole substring is nowhere in the output. *)
Lemma linkifyText_stops_at_a_quote :
  let text := html "http://a.com/x`y" in
  statedUrlAt text = Some text
  /\ linkifyText text = anchor (lit "http://a.com/x") ++ html "`y"
  /\ includes (anchor text) (linkifyText text) = false.
Proof. vm_compute. repeat split. Qed.

(** *** The matcher on the URL pattern *)

Lemma startsWith_spec (pat s : str) :
  startsWith pat s = true <-> exists r, s = pat ++ r.
Proof.
  revert s. induction pat as [|x pat IH]; intros s; simpl.
  - split; [intros _; now exists s|reflexivity].
  - destruct s as [|y s].
    + split; [discriminate|]. intros [r H]; discriminate.
    + rewrite andb_true_iff, N.eqb_eq, IH. split.
      * intros [-> [r ->]]. now exists r.
      * intros [r H]. injection H as -> ->. split; [reflexivity|now exists r].
Qed.

Lemma skipn_prefix (pat r : str) : skipn (length pat) (pat ++ r) = r.
Proof. induction pat; simpl; auto. Qed.

Lemma matchRe_word (s t : str) (k : str -> option str) :
  matchRe (word s) t k =
  if startsWith s t then k (skipn (length s) t) else None.
Proof.
  revert t. induction s as [|x s IH]; intros t; simpl; [reflexivity|].
  destruct t as [|y t]; [reflexivity|].
  rewrite N.eqb_sym. destruct (N.eqb x y); simpl; [apply IH|reflexivity].
Qed.

Lemma urlEnd_urlChar (c : codeunit) : urlEnd c = true -> urlChar c = true.
Proof.
  unfold urlEnd, urlChar. cbn [oneOf html lit List.map list_ascii_of_string existsb].
  rewrite !negb_true_iff, !orb_false_iff. tauto.
Qed.

Lemma UrlBody_length (s rest : str) : UrlBody s rest -> length rest + 2 <= length s.
Proof.
  intros (body & last & -> & Hne & _). rewrite length_app. simpl.
  destruct body; [contradiction|simpl; lia].
Qed.

Lemma UrlBody_cons (c : codeunit) (s rest : str) :
  UrlBody (c :: s) rest ->
  urlChar c = true /\
  ((exists last, s = last :: rest /\ urlEnd last = true) \/ UrlBody s rest).
Proof.
  intros (body & last & H & Hne & Hall & Hlast).
  destruct body as [|x body]; [contradiction|].
  simpl in H. injection H as <- ->. inversion Hall as [|? ? Hx Hrest]; subst.
  split; [exact Hx|].
  destruct body as [|y body].
  - left. now exists last.
  - right. exists (y :: body), last. repeat split; [discriminate|exact Hrest|exact Hlast].
Qed.

Lemma UrlBody_grow (c : codeunit) (s rest : str) :
  urlChar c = true -> UrlBody s rest -> UrlBody (c :: s) rest.
Proof.
  intros Hc (body & last & -> & Hne & Hall & Hlast).
  exists (c :: body), last. repeat split; [discriminate|now constructor|exact Hlast].
Qed.

(** The greedy [+] followed by the last class: it leaves the shortest rest
    that a URL body allows, and fails only when there is no URL body. *)
Lemma plusLoop_urlBody (s : str) :
  match plusLoop urlChar s (fun s1 => matchRe (Class urlEnd) s1 Some) with
  | Some rest =>
      UrlBody s rest /\ forall rest', UrlBody s rest' -> length rest <= length rest'
  | None => forall rest', ~ UrlBody s rest'
  end.
Proof.
  induction s as [|c s IH]; cbn [plusLoop].
  - intros rest' H. apply UrlBody_length in H. simpl in H. lia.
  - destruct (urlChar c) eqn:Hc.
    2:{ intros rest' H. apply UrlBody_cons in H. destruct H as [H _]. congruence. }
    destruct (plusLoop urlChar s _) as [rest|].
    + destruct IH as [Hbody Hmax]. split; [now apply UrlBody_grow|].
      intros rest' H. apply UrlBody_cons in H.
      destruct H as [_ [[last [-> _]]|H]]; [|now apply Hmax].
      apply UrlBody_length in Hbody. simpl in Hbody. lia.
    + cbn [matchRe]. destruct s as [|x s].
      * intros rest' H. apply UrlBody_length in H. simpl in H. lia.
      * destruct (urlEnd x) eqn:Hx.
        -- split.
           ++ exists [c], x. repeat split; [discriminate|now repeat constructor|exact Hx].
           ++ intros rest' H. apply UrlBody_cons in H.
              destruct H as [_ [[last [E _]]|H]].
              ** injection E as _ ->. lia.
              ** now apply IH in H.
        -- intros rest' H. apply UrlBody_cons in H.
           destruct H as [_ [[last [E Hl]]|H]].
           ++ injection E as -> _. congruence.
           ++ now apply IH in H.
Qed.

Lemma execAt_urlRegex (t : str) :
  execAt urlRegex t =
  if startsWith (lit "https://") t
  then plusLoop urlChar (skipn 8 t) (fun s1 => matchRe (Class urlEnd) s1 Some)
  else if startsWith (lit "http://") t
  then plusLoop urlChar (skipn 7 t) (fun s1 => matchRe (Class urlEnd) s1 Some)
  else None.
Proof.
  unfold execAt, urlRegex.
  change (matchRe (Seq (word (lit "http")) ?r) t Some)
    with (matchRe (word (lit "http")) t (fun s1 => matchRe r s1 Some)).
  rewrite matchRe_word.
  destruct (startsWith (lit "http") t) eqn:H4.
  - apply startsWith_spec in H4. destruct H4 as [r ->].
    rewrite (skipn_prefix (lit "http") r).
    change (startsWith (lit "https://") (lit "http" ++ r))
      with (startsWith (lit "s://") r).
    change (startsWith (lit "http://") (lit "http" ++ r))
      with (startsWith (lit "://") r).
    change (skipn 8 (lit "http" ++ r)) with (skipn 4 r).
    change (skipn 7 (lit "http" ++ r)) with (skipn 3 r).
    change (matchRe (Seq (Opt (Chr 115%N)) (Seq (word (lit "://")) ?r0)) r Some)
      with (match matchRe (Chr 115%N) r
                    (fun s1 => matchRe (word (lit "://")) s1
                                 (fun s2 => matchRe r0 s2 Some)) with
            | Some rest => Some rest
            | None => matchRe (word (lit "://")) r (fun s2 => matchRe r0 s2 Some)
            end).
    rewrite matchRe_word.
    change (matchRe (Seq (Plus urlChar) (Class urlEnd)) ?s Some)
      with (plusLoop urlChar s (fun s1 => matchRe (Class urlEnd) s1 Some)).
    destruct r as [|x r]; [reflexivity|].
    cbn [matchRe]. rewrite matchRe_word.
    destruct (N.eqb_spec x 115) as [->|Hx].
    + change (startsWith (lit "s://") (115%N :: r)) with (startsWith (lit "://") r).
      change (startsWith (lit "://") (115%N :: r)) with false.
      destruct (startsWith (lit "://") r); [|reflexivity].
      change (skipn (length (lit "://")) r) with (skipn 4 (115%N :: r)).
      now destruct (plusLoop _ _ _).
    + assert (E : startsWith (lit "s://") (x :: r) = false).
      { change (startsWith (lit "s://") (x :: r))
          with (N.eqb 115 x && startsWith (lit "://") r).
        apply N.eqb_neq in Hx. rewrite N.eqb_sym, Hx. reflexivity. }
      rewrite E. reflexivity.
  - assert (E1 : startsWith (lit "https://") t = false).
    { destruct (startsWith (lit "https://") t) eqn:E; [|reflexivity].
      apply startsWith_spec in E. destruct E as [r ->].
      now rewrite <- H4. }
    assert (E2 : startsWith (lit "http://") t = false).
    { destruct (startsWith (lit "http://") t) eqn:E; [|reflexivity].
      apply startsWith_spec in E. destruct E as [r ->].
      now rewrite <- H4. }
    now rewrite E1, E2.
Qed.

(** The matcher on the URL pattern finds the longest URL at the start of the
    text, and fails only when no URL starts there. *)
Lemma execAt_urlRegex_spec (t : str) :
  match execAt urlRegex t with
  | Some rest =>
      StartsUrl t rest /\ forall rest', StartsUrl t rest' -> length rest <= length rest'
  | None => forall rest', ~ StartsUrl t rest'
  end.
Proof.
  rewrite execAt_urlRegex.
  destruct (startsWith (lit "https://") t) eqn:Hs.
  - apply startsWith_spec in Hs. destruct Hs as [s ->].
    change 8 with (length (lit "https://")). rewrite (skipn_prefix (lit "https://") s).
    pose proof (plusLoop_urlBody s) as H.
    destruct (plusLoop urlChar s _) as [rest|].
    + destruct H as [Hb Hmax]. split.
      * exists (lit "https://"), s. auto.
      * intros rest' (scheme & s' & [->| ->] & E & Hb'); [discriminate E|].
        apply app_inv_head in E. subst s'. now apply Hmax.
    + intros rest' (scheme & s' & [->| ->] & E & Hb'); [discriminate E|].
      apply app_inv_head in E. subst s'. now apply H in Hb'.
  - destruct (startsWith (lit "http://") t) eqn:Hp.
    + apply startsWith_spec in Hp. destruct Hp as [s ->].
      change 7 with (length (lit "http://")). rewrite (skipn_prefix (lit "http://") s).
      pose proof (plusLoop_urlBody s) as H.
      destruct (plusLoop urlChar s _) as [rest|].
      * destruct H as [Hb Hmax]. split.
        -- exists (lit "http://"), s. auto.
        -- intros rest' (scheme & s' & [->| ->] & E & Hb'); [|discriminate E].
           apply app_inv_head in E. subst s'. now apply Hmax.
      * intros rest' (scheme & s' & [->| ->] & E & Hb'); [|discriminate E].
        apply app_inv_head in E. subst s'. now apply H in Hb'.
    + intros rest' (scheme & s' & [->| ->] & E & _).
      * assert (H : startsWith (lit "http://") t = true)
          by (apply startsWith_spec; now exists s').
        congruence.
      * assert (H : startsWith (lit "https://") t = true)
          by (apply startsWith_spec; now exists s').
        congruence.
Qed.

Lemma StartsUrl_IsUrl (t rest : str) :
  StartsUrl t rest <-> exists u, t = u ++ rest /\ IsUrl u.
Proof.
  split.
  - intros (scheme & s & Hscheme & -> & body & last & -> & Hne & Hall & Hlast).
    exists (scheme ++ body ++ [last]). split.
    + now rewrite <- !app_assoc.
    + exists scheme, body, last. auto.
  - intros (u & -> & scheme & body & last & Hscheme & -> & Hne & Hall & Hlast).
    exists scheme, (body ++ last :: rest). repeat split; [exact Hscheme| |].
    + now rewrite <- !app_assoc.
    + exists body, last. auto.
Qed.

Lemma IsUrl_cons (u : str) : IsUrl u -> exists c u', u = c :: u'.
Proof.
  intros (scheme & body & last & [->| ->] & -> & _); eexists; eexists; reflexivity.
Qed.

(** *** The scan of [replace] and [match] *)

Lemma matched_app (m rest : str) : matched (m ++ rest) rest = m.
Proof.
  unfold matched. rewrite length_app.
  replace (length m + length rest - length rest) with (length m + 0) by lia.
  rewrite firstn_app_2. simpl. apply app_nil_r.
Qed.

Lemma replaceFrom_skip (r : regex) (template a rest : str) :
  replaceFrom r template (length a) (a ++ rest) = replaceFrom r template 0 rest.
Proof. induction a as [|x a IH]; [reflexivity|exact IH]. Qed.

Lemma matchFrom_skip (r : regex) (a rest : str) :
  matchFrom r (length a) (a ++ rest) = matchFrom r 0 rest.
Proof. induction a as [|x a IH]; [reflexivity|exact IH]. Qed.

Lemma replaceFrom_match (r : regex) (template : str) (c : codeunit) (m rest : str) :
  execAt r (c :: m ++ rest) = Some rest ->
  replaceFrom r template 0 (c :: m ++ rest) =
  getSubstitution (c :: m) template ++ replaceFrom r template 0 rest.
Proof.
  intros H. cbn [replaceFrom]. rewrite H.
  pose proof (matched_app (c :: m) rest) as Hm. cbn [app] in Hm.
  rewrite Hm. cbn [length].
  now rewrite replaceFrom_skip.
Qed.

Lemma replaceFrom_nomatch (r : regex) (template : str) (c : codeunit) (s : str) :
  execAt r (c :: s) = None ->
  replaceFrom r template 0 (c :: s) = c :: replaceFrom r template 0 s.
Proof. intros H. cbn [replaceFrom]. now rewrite H. Qed.

Lemma matchFrom_match (r : regex) (c : codeunit) (m rest : str) :
  execAt r (c :: m ++ rest) = Some rest ->
  matchFrom r 0 (c :: m ++ rest) = (c :: m) :: matchFrom r 0 rest.
Proof.
  intros H. cbn [matchFrom]. rewrite H.
  pose proof (matched_app (c :: m) rest) as Hm. cbn [app] in Hm.
  rewrite Hm. cbn [length Nat.pred].
  now rewrite matchFrom_skip.
Qed.

Lemma matchFrom_nomatch (r : regex) (c : codeunit) (s : str) :
  execAt r (c :: s) = None ->
  matchFrom r 0 (c :: s) = matchFrom r 0 s.
Proof. intros H. cbn [matchFrom]. now rewrite H. Qed.

Lemma getSubstitution_anchor (u : str) : getSubstitution u anchorTemplate = anchor u.
Proof. vm_compute. reflexivity. Qed.

Lemma scan_linkified (n : nat) (text : str) :
  length text <= n ->
  Linkified text (matchFrom urlRegex 0 text) (replaceFrom urlRegex anchorTemplate 0 text).
Proof.
  revert text. induction n as [|n IH]; intros text Hn.
  - destruct text; [|simpl in Hn; lia]. apply Linkified_end.
  - destruct text as [|c text]; [apply Linkified_end|].
    pose proof (execAt_urlRegex_spec (c :: text)) as Hspec.
    destruct (execAt urlRegex (c :: text)) as [rest|] eqn:E.
    + destruct Hspec as [Hstart Hmax].
      pose proof Hstart as Hu. apply StartsUrl_IsUrl in Hu.
      destruct Hu as (u & Htext & Hurl).
      destruct (IsUrl_cons u Hurl) as (c' & m & ->).
      simpl in Htext. injection Htext as <- ->.
      rewrite (replaceFrom_match urlRegex anchorTemplate c m rest E).
      rewrite (matchFrom_match urlRegex c m rest E).
      rewrite getSubstitution_anchor.
      apply (Linkified_url (c :: m) rest).
      * exact Hurl.
      * intros u' rest' Heq Hurl'.
        assert (Hs : StartsUrl (c :: m ++ rest) rest')
          by (apply StartsUrl_IsUrl; exists u'; split; [exact Heq|exact Hurl']).
        apply Hmax in Hs. apply (f_equal (@length codeunit)) in Heq.
        rewrite !length_app in Heq. lia.
      * apply IH. simpl in Hn. rewrite length_app in Hn. lia.
    + rewrite (replaceFrom_nomatch urlRegex anchorTemplate c text E).
      rewrite (matchFrom_nomatch urlRegex c text E).
      apply Linkified_char.
      * intros u rest Heq Hurl. apply (Hspec rest).
        apply StartsUrl_IsUrl. now exists u.
      * apply IH. simpl in Hn. lia.
Qed.

(** C7, as the code has it. For every text, [linkifyText] reads it from left
    to right: where a URL of the pattern starts, the longest one is replaced
    by its anchor ([target="_blank"], [rel="noopener noreferrer"]) and is one
    of the URLs [extractUrls] returns, in order; every other character is
    copied as it is. *)
Theorem linkifyText_wraps_each_url (text : str) :
  Linkified text (extractUrls text) (linkifyText text).
Proof.
  unfold extractUrls, linkifyText, matchAll, replaceAll.
  now apply (scan_linkified (length text)).
Qed.

(** *** [Linkified] determines the output *)

Lemma app_same_length {A} (a a' b b' : list A) :
  length a = length a' -> a ++ b = a' ++ b' -> a = a' /\ b = b'.
Proof.
  revert a'. induction a as [|x a IH]; intros [|x' a'] Hl H; simpl in *;
    try discriminate; [now split|].
  injection H as -> H. injection Hl as Hl.
  destruct (IH a' Hl H) as [-> ->]. now split.
Qed.

Lemma Linkified_functional (text : str) (urls : list str) (out : str) :
  Linkified text urls out ->
  forall urls' out', Linkified text urls' out' -> urls' = urls /\ out' = out.
Proof.
  induction 1 as [|c text urls out Hno _ IH|u rest urls out Hurl Hmax _ IH];
    intros urls' out' H'.
  - remember [] as t eqn:Et. destruct H' as [|c t' ? ? _ _|u' rest' ? ? Hurl' _ _].
    + now split.
    + discriminate.
    + destruct (IsUrl_cons u' Hurl') as (c & m & ->). discriminate.
  - remember (c :: text) as t eqn:Et.
    destruct H' as [|c' t' urls' out' _ H'|u' rest' urls' out' Hurl' _ _].
    + discriminate.
    + injection Et as -> ->. destruct (IH _ _ H') as [-> ->]. now split.
    + exfalso. now apply (Hno u' rest').
  - remember (u ++ rest) as t eqn:Et.
    destruct H' as [|c' t' urls' out' Hno' _|u' rest' urls' out' Hurl' Hmax' H'].
    + destruct (IsUrl_cons u Hurl) as (c & m & ->). discriminate.
    + exfalso. now apply (Hno' u rest).
    + assert (Hl : length u' = length u).
      { apply Nat.le_antisymm.
        - now apply (Hmax u' rest').
        - now apply (Hmax' u rest). }
      destruct (app_same_length u' u rest' rest Hl Et) as [-> ->].
      destruct (IH _ _ H') as [-> ->]. now split.
Qed.

(** *** Escaping *)

(** X28. What [escapeHtml] returns holds no angle bracket, whatever the
    text: the content of a post cannot open or close a tag in the feed. *)
Lemma escapeHtml_no_angle_bracket (text : str) :
  Forall (fun c => c <> 60%N /\ c <> 62%N) (escapeHtml text).
Proof.
  unfold escapeHtml. induction text as [|c text IH]; cbn [flat_map]; [constructor|].
  apply Forall_app. split; [|exact IH].
  destruct (N.eqb_spec c 38); [repeat constructor; discriminate|].
  destruct (N.eqb_spec c 60); [repeat constructor; discriminate|].
  destruct (N.eqb_spec c 62); [repeat constructor; discriminate|].
  destruct (N.eqb_spec c 160); [repeat constructor; discriminate|].
  repeat constructor; assumption.
Qed.

(** C1, on the code. The live queries of [alice]'s dashboard deliver a post
    filed under a name that is markup and a category bearing that name: the
    posts container and the categories list then hold the name as it is, and
    nowhere its escaped form. Only the content of a post goes through
    [escapeHtml]. *)
Theorem category_names_are_inserted_unescaped :
  let page := run aliceDashboard
                [PostsSnapshot 0 [markupPost]; CategoriesSnapshot 1 [markupCategory]] in
  escapeHtml markupName = lit "&lt;img src=x onerror=alert(1)&gt;"
  /\ exists d,
       container page = Dashboard d
       /\ postsContainer d = renderPostsHtml sampleBrowser [markupPost]
       /\ categoriesList d = renderCategoriesHtml [markupCategory]
       /\ includes markupName (postsContainer d) = true
       /\ includes (escapeHtml markupName) (postsContainer d) = false
       /\ includes markupName (categoriesList d) = true
       /\ includes (escapeHtml markupName) (categoriesList d) = false.
Proof.
  cbv zeta. split; [reflexivity|].
  eexists. split; [vm_compute; reflexivity|].
  repeat split; vm_compute; reflexivity.
Qed.

(* ===================================================================== *)
(** * Further properties of the code *)
(* ===================================================================== *)

(** ** The matcher, in general *)

Lemma plusLoop_some (p : codeunit -> bool) (s : str) (k : str -> option str) :
  plusLoop p s k <> None <->
  exists x y, s = x ++ y /\ x <> [] /\ Forall (fun c => p c = true) x /\ k y <> None.
Proof.
  induction s as [|c s IH]; cbn [plusLoop].
  - split; [congruence|]. intros (x & y & H & Hx & _).
    destruct x; [contradiction|discriminate].
  - destruct (p c) eqn:Hc.
    + split.
      * intros H. destruct (plusLoop p s k) as [r|] eqn:E.
        -- assert (Hs : Some r <> None) by discriminate.
           apply IH in Hs. destruct Hs as (x & y & -> & Hx & Hall & Hk).
           exists (c :: x), y. repeat split; [discriminate|now constructor|exact Hk].
        -- exists [c], s. repeat split; [discriminate|now repeat constructor|exact H].
      * intros (x & y & H & Hx & Hall & Hk).
        destruct x as [|c' x]; [contradiction|]. injection H as <- ->.
        destruct x as [|c'' x].
        -- cbn [app]. destruct (plusLoop p y k); [discriminate|exact Hk].
        -- assert (Hs : plusLoop p ((c'' :: x) ++ y) k <> None).
           { apply IH. exists (c'' :: x), y.
             repeat split; [discriminate|now inversion Hall|exact Hk]. }
           destruct (plusLoop p ((c'' :: x) ++ y) k); [discriminate|contradiction].
    + split; [congruence|]. intros (x & y & H & Hx & Hall & _).
      destruct x as [|c' x]; [contradiction|]. injection H as <- ->.
      inversion Hall; congruence.
Qed.

(** X1. [isValidEmail] accepts exactly the texts of the shape
    part, at sign, part, dot, part, where no part is empty or holds white
    space or an at sign; the middle and last parts may hold further dots. *)
Theorem isValidEmail_accepts_the_email_shape (email : str) :
  isValidEmail email = true <-> EmailShape email.
Proof.
  unfold isValidEmail, execAt, emailRegex.
  assert (Hsome : forall o : option str,
             (match o with Some _ => true | None => false end) = true <-> o <> None).
  { intros [r|]; split; congruence. }
  rewrite Hsome. cbn [matchRe]. split.
  - intros H. apply plusLoop_some in H. destruct H as (a & y1 & -> & Ha & Halla & H).
    destruct y1 as [|x y1]; [contradiction|].
    destruct (N.eqb_spec x 64) as [->|]; [|contradiction].
    apply plusLoop_some in H. destruct H as (b & y2 & -> & Hb & Hallb & H).
    destruct y2 as [|x y2]; [contradiction|].
    destruct (N.eqb_spec x 46) as [->|]; [|contradiction].
    apply plusLoop_some in H. destruct H as (c & y3 & -> & Hc & Hallc & H).
    destruct y3; [|contradiction].
    exists a, b, c. rewrite app_nil_r. repeat split; assumption.
  - intros (a & b & c & -> & Ha & Hb & Hc & Halla & Hallb & Hallc).
    apply plusLoop_some. exists a, (64%N :: b ++ 46%N :: c).
    repeat split; [exact Ha|exact Halla|]. rewrite N.eqb_refl.
    apply plusLoop_some. exists b, (46%N :: c).
    repeat split; [exact Hb|exact Hallb|]. rewrite N.eqb_refl.
    apply plusLoop_some. exists c, [].
    repeat split; [now rewrite app_nil_r|exact Hc|exact Hallc|discriminate].
Qed.

(** ** The gateway: sign-up, sign-in, sign-out *)

Ltac in_list := repeat first [left; reflexivity | right].

Lemma handleFirebaseError_known (error : jsError) :
  code (handleFirebaseError error) = None
  /\ In (message (handleFirebaseError error)) authMessages.
Proof.
  unfold handleFirebaseError. destruct (code error) as [c|]; cbn [switch].
  2:{ split; [reflexivity|]. cbn. in_list. }
  repeat (destruct (eqb_str c _); [split; [reflexivity|cbn; in_list]|]).
  split; [reflexivity|]. cbn. in_list.
Qed.

Lemma rethrown_through {S A} (m : js S A) (f : jsError -> jsError) (s s' : S)
    (e : jsError) :
  catch m (fun error => raise (f error)) s = (Thrown e, s') ->
  exists e0, e = f e0.
Proof.
  rewrite run_catch. destruct (m s) as [[a|e0] s0]; [discriminate|].
  intros H. injection H as <- _. now exists e0.
Qed.

(** X2. Whatever the provider answers, an error thrown by [registerUser] or
    by [authenticateUser] carries no code and one of the ten messages of
    [handleFirebaseError]: no message of the provider reaches the caller. *)
Theorem auth_errors_come_from_the_table {Msg} (w w' : world Msg)
    (email password : str) (e : jsError) :
  registerUser email password w = (Thrown e, w')
  \/ authenticateUser email password w = (Thrown e, w') ->
  code e = None /\ In (message e) authMessages.
Proof.
  intros [H|H]; apply rethrown_through in H; destruct H as [e0 ->];
    apply handleFirebaseError_known.
Qed.

Lemma auth_errors_come_from_the_table_witness :
  fst (authenticateUser (lit "a@b.com") (lit "guess")
         (freshWorld unit refusingProvider None))
    = Thrown (newError "Incorrect password")
  /\ In (lit "Incorrect password") authMessages.
Proof.
  split; [reflexivity|].
  apply (auth_errors_come_from_the_table
           (freshWorld unit refusingProvider None)
           (snd (authenticateUser (lit "a@b.com") (lit "guess")
                   (freshWorld unit refusingProvider None)))
           (lit "a@b.com") (lit "guess") (newError "Incorrect password")
           (or_intror eq_refl)).
Defined.

Lemma updateUserProfile_never_throws {Msg} (w : world Msg) (uid : str)
    (updates : profileData) :
  fst (updateUserProfile uid updates w) = Normal tt.
Proof.
  unfold updateUserProfile. rewrite run_catch. unfold window_setDoc.
  destruct (setDoc _ _ _ _ _ _) as [[]|e]; reflexivity.
Qed.

(** X3. What [authenticateUser] returns is decided by the sign-in alone: the
    signed-in user whatever becomes of the profile write, or the mapped
    error; and after a refused sign-in the only call made is the sign-in, so
    the profile document is not touched. *)
Theorem authenticate_is_decided_by_the_sign_in {Msg} (w : world Msg)
    (email password : str) :
  match signInWithEmailAndPassword (backend w) (calls w) email password with
  | Normal u => fst (authenticateUser email password w) = Normal u
  | Thrown e =>
      authenticateUser email password w =
        (Thrown (handleFirebaseError e),
         recordCall (SignInWithEmailAndPassword email password) w)
  end.
Proof.
  unfold authenticateUser. rewrite run_catch, run_bind.
  unfold window_signInWithEmailAndPassword.
  destruct (signInWithEmailAndPassword _ _ _ _) as [u|e]; [|reflexivity].
  cbv zeta. rewrite run_bind.
  pose proof (updateUserProfile_never_throws
                (recordCall (SignInWithEmailAndPassword email password) w) (uid u)
                {| profileEmail := None; profileCreatedAt := None;
                   lastLogin := Some serverTimestamp |}) as H.
  destruct (updateUserProfile _ _ _) as [[[]|e] w1]; [reflexivity|discriminate].
Qed.

Lemma storeProfile_stores (docId : str) (d : profileData)
    (l : list (str * str * docData)) :
  In (lit "users", docId, ProfileDoc d) (storeProfile docId d false l).
Proof.
  induction l as [|[[c i] x] l IH]; cbn [storeProfile]; [now left|].
  destruct (eqb_str c (lit "users") && eqb_str i docId) eqn:E.
  - apply andb_true_iff in E. destruct E as [Ec Ei].
    apply eqb_str_eq in Ec. apply eqb_str_eq in Ei. subst.
    destruct x; now left.
  - now right.
Qed.

(** X4. When the provider creates the identity and accepts the profile
    write, [registerUser] returns the new user and the [users] collection
    holds, under the user's identifier, a profile with the email given and
    the server timestamp as creation and last-login times; the two calls made
    are the creation and the write. *)
Theorem register_stores_the_profile {Msg} (w : world Msg) (email password : str)
    (u : user) :
  createUserWithEmailAndPassword (backend w) (calls w) email password = Normal u ->
  setDoc (backend w) (calls w ++ [CreateUserWithEmailAndPassword email password])
    (lit "users") (uid u)
    {| profileEmail := Some email; profileCreatedAt := Some serverTimestamp;
       lastLogin := Some serverTimestamp |} false = Normal tt ->
  fst (registerUser email password w) = Normal u
  /\ In (lit "users", uid u,
         ProfileDoc {| profileEmail := Some email;
                       profileCreatedAt := Some serverTimestamp;
                       lastLogin := Some serverTimestamp |})
        (documents (snd (registerUser email password w)))
  /\ accounts (snd (registerUser email password w)) = accounts w ++ [u]
  /\ calls (snd (registerUser email password w)) =
       calls w ++
       [CreateUserWithEmailAndPassword email password;
        SetDoc (lit "users") (uid u)
          {| profileEmail := Some email; profileCreatedAt := Some serverTimestamp;
             lastLogin := Some serverTimestamp |} false].
Proof.
  intros Hnew Hset.
  unfold registerUser. rewrite run_catch, run_bind.
  unfold window_createUserWithEmailAndPassword. rewrite Hnew.
  cbv zeta. rewrite run_bind. unfold createUserProfile. rewrite run_catch.
  unfold window_setDoc. cbn [backend calls recordCall setAccounts]. rewrite Hset.
  cbv beta iota delta [ret Monad_js js_ret fst snd documents accounts calls
                       setDocuments setAccounts recordCall].
  repeat split.
  - apply storeProfile_stores.
  - now rewrite <- app_assoc.
Qed.

Lemma register_stores_the_profile_witness :
  fst (registerUser (lit "a@b.com") (lit "secret1")
         (freshWorld unit acceptingProvider None)) = Normal alice
  /\ documents (snd (registerUser (lit "a@b.com") (lit "secret1")
                       (freshWorld unit acceptingProvider None))) =
       [(lit "users", uid alice,
         ProfileDoc {| profileEmail := Some (lit "a@b.com");
                       profileCreatedAt := Some serverTimestamp;
                       lastLogin := Some serverTimestamp |})].
Proof.
  split; [|reflexivity].
  apply (register_stores_the_profile (freshWorld unit acceptingProvider None)
           (lit "a@b.com") (lit "secret1") alice eq_refl eq_refl).
Defined.

(** X5. When the provider refuses to create the identity, [registerUser]
    throws the mapped error after that single call: no profile is written
    and no identity is kept. *)
Theorem register_refused_writes_nothing {Msg} (w : world Msg) (email password : str)
    (e : jsError) :
  createUserWithEmailAndPassword (backend w) (calls w) email password = Thrown e ->
  registerUser email password w =
    (Thrown (handleFirebaseError e),
     recordCall (CreateUserWithEmailAndPassword email password) w).
Proof.
  intros Hnew. unfold registerUser. rewrite run_catch, run_bind.
  unfold window_createUserWithEmailAndPassword. now rewrite Hnew.
Qed.

Lemma register_refused_writes_nothing_witness :
  exists w',
    registerUser (lit "a@b.com") (lit "secret1") (freshWorld unit refusingProvider None)
      = (Thrown (newError "Incorrect password"), w')
    /\ documents w' = [] /\ accounts w' = [].
Proof.
  eexists. split.
  - apply (register_refused_writes_nothing (freshWorld unit refusingProvider None)
             (lit "a@b.com") (lit "secret1") wrongPassword eq_refl).
  - split; reflexivity.
Defined.

(** X6. The logout click on the dashboard. When the sign-out succeeds the
    page stays as it is, the sign-out call apart: the login page comes with
    the provider's notification. When the sign-out fails the login page is
    shown all the same, the failure is logged twice, and the gateway still
    holds the signed-in user. *)
Theorem logout_click_outcomes (p : page) (d : dashboard) :
  container p = Dashboard d ->
  let p' := step p ClickLogout in
  calls (authManager p') = calls (authManager p) ++ [SignOut]
  /\ currentUser (authManager p') = currentUser (authManager p)
  /\ match signOut (backend (authManager p)) (calls (authManager p)) with
     | Normal _ =>
         container p' = Dashboard d
         /\ console (authManager p') = console (authManager p)
     | Thrown e =>
         container p' = LoginPage
         /\ console (authManager p') =
              console (authManager p) ++
              [(lit "Error signing out:", e);
               (lit "Logout error:", newError "Failed to sign out")]
     end.
Proof.
  intros Hd. cbv zeta. unfold step, handler. rewrite run_bind. cbn [get MonadState_js].
  rewrite Hd. unfold onLogoutClick. rewrite run_catch.
  unfold viaAuthManager, logout. rewrite run_catch. unfold window_signOut.
  destruct (signOut _ _) as [[]|e]; cbn; rewrite ?Hd, <- ?app_assoc; repeat split.
Qed.

Lemma logout_click_outcomes_witness :
  let p := step (initialPage sampleBrowser refusingProvider) (AuthStateChanged (Some alice)) in
  container (step p ClickLogout) = LoginPage
  /\ currentUser (authManager (step p ClickLogout)) = Some alice.
Proof.
  cbv zeta.
  destruct (logout_click_outcomes
              (step (initialPage sampleBrowser refusingProvider)
                 (AuthStateChanged (Some alice))) _ eq_refl) as [_ [H2 H3]].
  split; [exact (proj1 H3)|exact H2].
Defined.

(** ** The gateway: categories and subscriptions *)

Section CategoryFacts.
Context {Msg : Type}.
Implicit Types (w : world Msg) (categoryName : str).

Lemma createCategory_blank w categoryName (u : user) :
  currentUser w = Some u ->
  trim categoryName = [] ->
  createCategory categoryName w = (Thrown (newError "Category name cannot be empty"), w).
Proof.
  intros Hu H. unfold createCategory. rewrite run_bind. unfold getCurrentUser.
  rewrite Hu, H. simpl. now rewrite orb_true_r.
Qed.

Lemma createCategory_checked w categoryName (u : user) :
  currentUser w = Some u ->
  trim categoryName <> [] ->
  let categoryData :=
    {| name := trim categoryName; createdBy := uid u;
       categoryCreatedAt := serverTimestamp |} in
  createCategory categoryName w =
  match addDoc (backend w) (calls w) (lit "categories") (CategoryDoc categoryData) with
  | Normal docId =>
      (Normal {| id := docId; data := categoryData |},
       setDocuments (documents w ++ [(lit "categories", docId, CategoryDoc categoryData)])
         (recordCall (AddDoc (lit "categories") (CategoryDoc categoryData)) w))
  | Thrown e =>
      (Thrown (newError "Failed to create category"),
       logError (lit "Error creating category:") e
         (recordCall (AddDoc (lit "categories") (CategoryDoc categoryData)) w))
  end.
Proof.
  intros Hu Ht. unfold createCategory. rewrite run_bind.
  unfold getCurrentUser. rewrite Hu.
  assert (Hc : isEmpty categoryName || isEmpty (trim categoryName) = false).
  { apply orb_false_iff. split; apply isEmpty_false; [|exact Ht].
    intros ->. now apply Ht. }
  rewrite Hc. cbv zeta. rewrite run_catch, run_bind.
  unfold window_addDoc.
  destruct (addDoc _ _ _ _); reflexivity.
Qed.

(** X7. A category that [createCategory] persists is attributed to nobody
    but the signed-in user and holds the trimmed name: not empty, with no
    white space at either end. On a name that is blank once trimmed nothing
    is persisted. *)
Theorem createCategory_persists_trimmed_name w categoryName :
  let w' := snd (createCategory categoryName w) in
  documents w' = documents w \/
  exists docId cd,
    documents w' = documents w ++ [(lit "categories", docId, CategoryDoc cd)]
    /\ name cd = trim categoryName
    /\ name cd <> []
    /\ trimmed (name cd)
    /\ option_map uid (currentUser w) = Some (createdBy cd).
Proof.
  cbv zeta. destruct (currentUser w) as [u|] eqn:Hu.
  - destruct (isEmpty (trim categoryName)) eqn:He.
    + apply isEmpty_true in He. left.
      now rewrite (createCategory_blank w categoryName u Hu He).
    + apply isEmpty_false in He.
      rewrite (createCategory_checked w categoryName u Hu He).
      destruct (addDoc _ _ _ _) as [docId|e]; [right|left; reflexivity].
      eexists; eexists. split; [reflexivity|]. cbn [name createdBy option_map].
      repeat split; [exact He|apply trim_trimmed|apply trim_trimmed].
  - left. now rewrite (createCategory_signed_out w categoryName Hu).
Qed.

(** X8. [createCategory] looks nothing up before it writes: asked twice for
    the same name, on a provider that accepts both writes, it persists two
    categories of that name. *)
Theorem createCategory_allows_duplicate_names w categoryName (u : user)
    (id1 id2 : str) :
  currentUser w = Some u ->
  trim categoryName <> [] ->
  let cd := {| name := trim categoryName; createdBy := uid u;
               categoryCreatedAt := serverTimestamp |} in
  addDoc (backend w) (calls w) (lit "categories") (CategoryDoc cd) = Normal id1 ->
  addDoc (backend w) (calls w ++ [AddDoc (lit "categories") (CategoryDoc cd)])
    (lit "categories") (CategoryDoc cd) = Normal id2 ->
  documents (snd (createCategory categoryName (snd (createCategory categoryName w)))) =
    documents w ++
    [(lit "categories", id1, CategoryDoc cd); (lit "categories", id2, CategoryDoc cd)].
Proof.
  intros Hu Ht cd H1 H2.
  rewrite (createCategory_checked w categoryName u Hu Ht). fold cd. rewrite H1.
  cbn [snd].
  rewrite (createCategory_checked _ categoryName u); [|exact Hu|exact Ht]. fold cd.
  cbn [backend calls setDocuments recordCall]. rewrite H2.
  cbn [snd documents setDocuments recordCall]. now rewrite <- app_assoc.
Qed.

(** X9. [subscribeToPosts] fails safe: whenever it throws, no listener has
    been registered. Either nobody is signed in, the error is the
    authentication one and the world is as it was; or the provider refused
    the live query, the error is the generic one and the refusal is logged. *)
Theorem subscribeToPosts_failures_register_nothing w w'
    (callback : list post -> Msg) (category : option str) (limitCount : option N)
    (e : jsError) :
  subscribeToPosts callback category limitCount w = (Thrown e, w') ->
  listeners w' = listeners w
  /\ ((currentUser w = None
       /\ e = newError "User must be authenticated to view posts" /\ w' = w)
      \/ (e = newError "Failed to subscribe to posts"
          /\ exists e0,
               console w' = console w ++ [(lit "Error subscribing to posts:", e0)])).
Proof.
  unfold subscribeToPosts. rewrite run_bind. unfold getCurrentUser.
  destruct (currentUser w) as [u|].
  - rewrite run_catch. cbv zeta. unfold window_onSnapshot.
    destruct (onSnapshot _ _ _) as [[]|e0]; [discriminate|].
    intros H. injection H as <- <-. split; [reflexivity|].
    right. split; [reflexivity|]. now exists e0.
  - intros H. injection H as <- <-. split; [reflexivity|]. left. now repeat split.
Qed.

End CategoryFacts.

Lemma createCategory_allows_duplicate_names_witness :
  let cd := {| name := lit "News"; createdBy := uid alice;
               categoryCreatedAt := serverTimestamp |} in
  documents (snd (createCategory (lit " News ")
                    (snd (createCategory (lit " News ")
                            (freshWorld unit acceptingProvider (Some alice)))))) =
  [(lit "categories", lit "doc1", CategoryDoc cd);
   (lit "categories", lit "doc1", CategoryDoc cd)].
Proof.
  exact (createCategory_allows_duplicate_names
           (freshWorld unit acceptingProvider (Some alice)) (lit " News ") alice
           (lit "doc1") (lit "doc1") eq_refl
           ltac:(vm_compute; discriminate) eq_refl eq_refl).
Defined.

Lemma subscribeToPosts_failures_register_nothing_witness :
  listeners (snd (subscribeToPosts (fun posts : list post => posts) None None
                    (freshWorld (list post) refusingProvider (Some alice)))) = [].
Proof.
  exact (proj1 (subscribeToPosts_failures_register_nothing
                  (freshWorld (list post) refusingProvider (Some alice)) _
                  (fun posts => posts) None None
                  (newError "Failed to subscribe to posts") eq_refl)).
Defined.

(** ** The page: switching the category *)

Lemma subscribeToPosts_signed_in {Msg} (w : world Msg) (callback : list post -> Msg)
    (c : str) (u : user) :
  currentUser w = Some u ->
  subscribeToPosts callback (Some c) None w =
  match onSnapshot (backend w) (calls w) (postsQueryFor c) with
  | Normal _ =>
      (Normal (nextHandle w),
       setListeners
         (listeners w ++ [(nextHandle w, PostsListener (postsListener callback))])
         (S (nextHandle w)) (recordCall (OnSnapshot (postsQueryFor c)) w))
  | Thrown e =>
      (Thrown (newError "Failed to subscribe to posts"),
       logError (lit "Error subscribing to posts:") e
         (recordCall (OnSnapshot (postsQueryFor c)) w))
  end.
Proof.
  intros Hu. unfold subscribeToPosts. rewrite run_bind. unfold getCurrentUser.
  rewrite Hu. rewrite run_catch. cbv zeta. unfold window_onSnapshot, postsQueryFor.
  destruct (negb (isEmpty c) && negb (eqb_str c (lit "All")));
    destruct (onSnapshot _ _ _) as [[]|e]; reflexivity.
Qed.

Lemma livePosts_released {Msg} (h : handle) (l : list (handle * anyListener Msg)) :
  List.map fst
    (filter (fun hl => match snd hl with PostsListener _ => true | _ => false end)
       (filter (fun hl => negb (Nat.eqb (fst hl) h)) l)) =
  filter (fun x => negb (Nat.eqb x h))
    (List.map fst
       (filter (fun hl => match snd hl with PostsListener _ => true | _ => false end) l)).
Proof.
  induction l as [|[h' x] l IH]; [reflexivity|].
  cbn [filter fst snd]. destruct (Nat.eqb h' h) eqn:E; destruct x; cbn [negb filter fst snd List.map];
    rewrite ?E; cbn [negb]; rewrite ?IH; reflexivity.
Qed.

Lemma run_seq {S A B} (m : js S A) (k : A -> js S B) (s s' : S) (a : A) :
  m s = (Normal a, s') -> bind m k s = k a s'.
Proof. intros H. rewrite run_bind. now rewrite H. Qed.

Lemma run_modify {S} (f : S -> S) (s : S) : (modify f : js S S) s = (Normal s, f s).
Proof. reflexivity. Qed.

Lemma updatePostLabel_run (p : page) (d : dashboard) :
  container p = Dashboard d ->
  updatePostLabel p =
    (Normal tt,
     setContainer
       (Dashboard
          (setPostLabel
             (if eqb_str (selectedCategory p) (lit "All")
              then lit "What's on your mind?"
              else lit "Share in " ++ selectedCategory p) d)) p).
Proof. intros Hd. unfold updatePostLabel, updateDashboard. now rewrite Hd. Qed.

Lemma refreshFeed_run (p : page) (u : user) (h : handle) :
  currentUser (authManager p) = Some u ->
  postsUnsubscribe p = Some h ->
  let w1 :=
    setListeners
      (filter (fun hl => negb (Nat.eqb (fst hl) h)) (listeners (authManager p)))
      (nextHandle (authManager p)) (recordCall (Unsubscribe h) (authManager p)) in
  refreshFeed p =
  match onSnapshot (backend (authManager p)) (calls (authManager p) ++ [Unsubscribe h])
          (postsQueryFor (selectedCategory p)) with
  | Normal _ =>
      (Normal tt,
       setPostsUnsubscribe (Some (nextHandle (authManager p)))
         (setAuthManager
            (setListeners
               (listeners w1 ++
                [(nextHandle (authManager p), PostsListener (postsListener PostsCallback))])
               (S (nextHandle (authManager p)))
               (recordCall (OnSnapshot (postsQueryFor (selectedCategory p))) w1)) p))
  | Thrown e =>
      (Normal tt,
       setAuthManager
         (logError (lit "Error refreshing feed:") (newError "Failed to subscribe to posts")
            (logError (lit "Error subscribing to posts:") e
               (recordCall (OnSnapshot (postsQueryFor (selectedCategory p))) w1))) p)
  end.
Proof.
  intros Hu Hh. cbv zeta. unfold refreshFeed.
  rewrite run_bind. cbn [get MonadState_js]. rewrite Hh.
  rewrite run_bind. unfold viaAuthManager at 1. cbn [unsubscribe].
  rewrite run_catch, run_bind. cbn [get MonadState_js]. rewrite run_bind.
  unfold viaAuthManager at 1. cbn [authManager setAuthManager selectedCategory].
  rewrite subscribeToPosts_signed_in with (u := u) by exact Hu.
  cbn [backend calls setListeners recordCall nextHandle listeners].
  destruct (onSnapshot _ _ _) as [[]|e]; reflexivity.
Qed.

Lemma selectCategory_run (p : page) (d : dashboard) (X : str) :
  container p = Dashboard d ->
  let p1 :=
    setContainer
      (Dashboard
         (setPostLabel (if eqb_str X (lit "All") then lit "What's on your mind?"
                        else lit "Share in " ++ X) d))
      (setSelectedCategory X p) in
  selectCategory X p =
  if eqb_str X (lit "All") || validSelector (env p) (html "[data-category=`" ++ X ++ html "`]")
  then refreshFeed p1
  else (Thrown {| message := lit "SyntaxError"; code := None |}, p1).
Proof.
  intros Hd. cbv zeta. unfold selectCategory.
  rewrite run_bind, run_modify, run_bind.
  rewrite (updatePostLabel_run (setSelectedCategory X p) d Hd).
  cbn [selectedCategory setSelectedCategory]. rewrite run_bind.
  unfold updateCategorySelection.
  cbn [selectedCategory setSelectedCategory setContainer env].
  destruct (eqb_str X (lit "All")); [reflexivity|].
  destruct (validSelector _ _); reflexivity.
Qed.

(** X10. A click on a category button of the dashboard, with somebody signed
    in, a selector the browser accepts and a provider that accepts the new
    live query: the query of the page is released, one query for the clicked
    category is opened and becomes the query of the page, and these are the
    only two calls. A page with one live query on posts has one afterwards. *)
Theorem category_switch_swaps_the_posts_subscription (p : page) (d : dashboard)
    (u : user) (h : handle) (X : str) :
  container p = Dashboard d ->
  currentUser (authManager p) = Some u ->
  postsUnsubscribe p = Some h ->
  eqb_str X (lit "All") || validSelector (env p) (html "[data-category=`" ++ X ++ html "`]")
    = true ->
  onSnapshot (backend (authManager p)) (calls (authManager p) ++ [Unsubscribe h])
    (postsQueryFor X) = Normal tt ->
  let p' := step p (ClickCategory X) in
  let n := nextHandle (authManager p) in
  selectedCategory p' = X
  /\ postsUnsubscribe p' = Some n
  /\ listeners (authManager p') =
       filter (fun hl => negb (Nat.eqb (fst hl) h)) (listeners (authManager p))
       ++ [(n, PostsListener (postsListener PostsCallback))]
  /\ calls (authManager p') =
       calls (authManager p) ++ [Unsubscribe h; OnSnapshot (postsQueryFor X)]
  /\ livePosts (authManager p') =
       filter (fun x => negb (Nat.eqb x h)) (livePosts (authManager p)) ++ [n].
Proof.
  intros Hd Hu Hh Hsel Hok. cbv zeta.
  unfold step, handler. rewrite run_bind. cbn [get MonadState_js]. rewrite Hd.
  rewrite (selectCategory_run p d X Hd), Hsel.
  match goal with
  | |- context [refreshFeed ?q] => rewrite (refreshFeed_run q u h Hu Hh)
  end.
  cbn [authManager setContainer setSelectedCategory selectedCategory]. rewrite Hok.
  cbn [snd selectedCategory postsUnsubscribe authManager listeners calls
       setPostsUnsubscribe setAuthManager setListeners recordCall setContainer
       setSelectedCategory].
  repeat split.
  - now rewrite <- app_assoc.
  - unfold livePosts. cbn [listeners setListeners recordCall].
    rewrite filter_app, map_app, livePosts_released. reflexivity.
Qed.

Lemma category_switch_swaps_the_posts_subscription_witness :
  livePosts (authManager aliceDashboard) = [0]
  /\ livePosts (authManager (step aliceDashboard (ClickCategory (lit "News")))) = [2]
  /\ postsUnsubscribe (step aliceDashboard (ClickCategory (lit "News"))) = Some 2.
Proof.
  destruct (category_switch_swaps_the_posts_subscription
              aliceDashboard _ alice 0 (lit "News") eq_refl eq_refl eq_refl eq_refl eq_refl)
    as (_ & H2 & _ & _ & H5).
  split; [reflexivity|]. split; [exact H5|exact H2].
Defined.

(** X11. The same click when the provider refuses the new live query: the
    query of the page has been released all the same and none replaces it,
    the page keeps the released handle, and the refusal is only logged. *)
Theorem category_switch_refused_leaves_no_subscription (p : page) (d : dashboard)
    (u : user) (h : handle) (X : str) (e : jsError) :
  container p = Dashboard d ->
  currentUser (authManager p) = Some u ->
  postsUnsubscribe p = Some h ->
  eqb_str X (lit "All") || validSelector (env p) (html "[data-category=`" ++ X ++ html "`]")
    = true ->
  onSnapshot (backend (authManager p)) (calls (authManager p) ++ [Unsubscribe h])
    (postsQueryFor X) = Thrown e ->
  let p' := step p (ClickCategory X) in
  selectedCategory p' = X
  /\ postsUnsubscribe p' = Some h
  /\ listeners (authManager p') =
       filter (fun hl => negb (Nat.eqb (fst hl) h)) (listeners (authManager p))
  /\ findListener h (listeners (authManager p')) = None
  /\ console (authManager p') =
       console (authManager p) ++
       [(lit "Error subscribing to posts:", e);
        (lit "Error refreshing feed:", newError "Failed to subscribe to posts")].
Proof.
  intros Hd Hu Hh Hsel Hko. cbv zeta.
  unfold step, handler. rewrite run_bind. cbn [get MonadState_js]. rewrite Hd.
  rewrite (selectCategory_run p d X Hd), Hsel.
  match goal with
  | |- context [refreshFeed ?q] => rewrite (refreshFeed_run q u h Hu Hh)
  end.
  cbn [authManager setContainer setSelectedCategory selectedCategory]. rewrite Hko.
  cbn [snd selectedCategory postsUnsubscribe authManager listeners console
       setAuthManager setListeners recordCall logError setContainer
       setSelectedCategory].
  repeat split.
  - exact Hh.
  - apply findListener_released.
  - now rewrite <- app_assoc.
Qed.

(** X12. The same click when the browser rejects the selector built from the
    name (a name with a double quote in it): the selection and the label of
    the form change, but the feed is not refreshed: no call is made and the
    live query of the page stays the one of the former category. *)
Theorem category_switch_with_rejected_selector_keeps_the_feed (p : page)
    (d : dashboard) (X : str) :
  container p = Dashboard d ->
  eqb_str X (lit "All") || validSelector (env p) (html "[data-category=`" ++ X ++ html "`]")
    = false ->
  let p' := step p (ClickCategory X) in
  selectedCategory p' = X
  /\ container p' = Dashboard (setPostLabel (lit "Share in " ++ X) d)
  /\ authManager p' = authManager p
  /\ postsUnsubscribe p' = postsUnsubscribe p.
Proof.
  intros Hd Hsel. cbv zeta.
  unfold step, handler. rewrite run_bind. cbn [get MonadState_js]. rewrite Hd.
  rewrite (selectCategory_run p d X Hd), Hsel.
  apply orb_false_iff in Hsel. destruct Hsel as [Hall _]. rewrite Hall.
  repeat split.
Qed.

Lemma category_switch_refused_leaves_no_subscription_witness :
  let p := step (initialPage sampleBrowser flakyProvider) (AuthStateChanged (Some alice)) in
  livePosts (authManager p) = [0]
  /\ livePosts (authManager (step p (ClickCategory (lit "News")))) = []
  /\ postsUnsubscribe (step p (ClickCategory (lit "News"))) = Some 0.
Proof.
  cbv zeta.
  destruct (category_switch_refused_leaves_no_subscription
              (step (initialPage sampleBrowser flakyProvider) (AuthStateChanged (Some alice)))
              _ alice 0 (lit "News") permissionDenied
              eq_refl eq_refl eq_refl eq_refl eq_refl)
    as (_ & H2 & H3 & _).
  split; [reflexivity|]. split; [|exact H2].
  unfold livePosts. rewrite H3. reflexivity.
Defined.

Lemma category_switch_with_rejected_selector_keeps_the_feed_witness :
  let p := step (initialPage strictBrowser acceptingProvider) (AuthStateChanged (Some alice)) in
  let X := html "Old `News`" in
  selectedCategory (step p (ClickCategory X)) = X
  /\ authManager (step p (ClickCategory X)) = authManager p.
Proof.
  cbv zeta.
  destruct (category_switch_with_rejected_selector_keeps_the_feed
              (step (initialPage strictBrowser acceptingProvider)
                 (AuthStateChanged (Some alice)))
              _ (html "Old `News`") eq_refl eq_refl)
    as (H1 & _ & H3 & _).
  split; [exact H1|exact H3].
Defined.

(** ** The page: the notifications of the provider *)

Lemma subscribeToCategories_signed_in {Msg} (w : world Msg)
    (callback : list categoryItem -> Msg) (u : user) :
  currentUser w = Some u ->
  subscribeToCategories callback w =
  match onSnapshot (backend w) (calls w) categoriesQuery with
  | Normal _ =>
      (Normal (nextHandle w),
       setListeners
         (listeners w ++ [(nextHandle w, CategoriesListener (categoriesListener callback))])
         (S (nextHandle w)) (recordCall (OnSnapshot categoriesQuery) w))
  | Thrown e =>
      (Thrown (newError "Failed to subscribe to categories"),
       logError (lit "Error subscribing to categories:") e
         (recordCall (OnSnapshot categoriesQuery) w))
  end.
Proof.
  intros Hu. unfold subscribeToCategories. rewrite run_bind. unfold getCurrentUser.
  rewrite Hu. rewrite run_catch. cbv zeta. unfold window_onSnapshot.
  fold categoriesQuery.
  destruct (onSnapshot _ _ _) as [[]|e]; reflexivity.
Qed.

(** X13. The sign-out notification brings the login page from any page and
    clears the gateway's user; it keeps the selected category and releases no
    live query. *)
Theorem sign_out_notification_shows_the_login_page (p : page) :
  let p' := step p (AuthStateChanged None) in
  container p' = LoginPage
  /\ currentUser (authManager p') = None
  /\ selectedCategory p' = selectedCategory p
  /\ listeners (authManager p') = listeners (authManager p)
  /\ calls (authManager p') = calls (authManager p).
Proof. cbv zeta. repeat (split; [reflexivity|]). reflexivity. Qed.

(** X14. The sign-in notification brings the dashboard from any page, with an
    empty post form, sets the gateway's user and keeps the selected category.
    It asks for the posts of that category and, when that is accepted, for
    the categories. When both are accepted the two new live queries become
    those of the page; nothing is released. When the posts query is refused
    the categories are not asked for and the feed shows the error panel; when
    only the categories query is refused the feed shows the error panel
    although the posts query is live. *)
Theorem sign_in_notification_opens_the_dashboard (p : page) (u : user) :
  let p' := step p (AuthStateChanged (Some u)) in
  let w := authManager p in
  let n := nextHandle w in
  let q := postsQueryFor (selectedCategory p) in
  currentUser (authManager p') = Some u
  /\ selectedCategory p' = selectedCategory p
  /\ exists d',
       container p' = Dashboard d'
       /\ postContent d' = []
       /\ match onSnapshot (backend w) (calls w) q with
          | Thrown e =>
              calls (authManager p') = calls w ++ [OnSnapshot q]
              /\ listeners (authManager p') = listeners w
              /\ postsUnsubscribe p' = postsUnsubscribe p
              /\ categoriesUnsubscribe p' = categoriesUnsubscribe p
              /\ postsContainer d' = feedErrorTemplate
          | Normal _ =>
              calls (authManager p') = calls w ++ [OnSnapshot q; OnSnapshot categoriesQuery]
              /\ postsUnsubscribe p' = Some n
              /\ match onSnapshot (backend w) (calls w ++ [OnSnapshot q]) categoriesQuery with
                 | Normal _ =>
                     listeners (authManager p') =
                       listeners w ++
                       [(n, PostsListener (postsListener PostsCallback));
                        (S n, CategoriesListener (categoriesListener CategoriesCallback))]
                     /\ categoriesUnsubscribe p' = Some (S n)
                     /\ postsContainer d' = postsContainer freshDashboard
                 | Thrown e =>
                     listeners (authManager p') =
                       listeners w ++ [(n, PostsListener (postsListener PostsCallback))]
                     /\ categoriesUnsubscribe p' = categoriesUnsubscribe p
                     /\ postsContainer d' = feedErrorTemplate
                 end
          end.
Proof.
  cbv zeta. remember (step p (AuthStateChanged (Some u))) as p' eqn:E.
  unfold step, handler in E. rewrite run_bind in E. cbn [get MonadState_js] in E.
  unfold authStateListener in E. rewrite run_bind in E.
  unfold viaAuthManager at 1 in E. rewrite run_modify in E.
  unfold handleAuthStateChange, renderDashboard in E. rewrite run_bind in E.
  unfold viaAuthManager at 1, getCurrentUser in E.
  cbn [authManager setAuthManager currentUser setCurrentUser] in E.
  rewrite run_bind, run_modify, run_bind in E.
  unfold initializeFeed in E. rewrite run_catch, run_bind in E.
  cbn [get MonadState_js] in E.
  rewrite run_bind in E. unfold viaAuthManager at 1 in E.
  cbn [authManager setAuthManager setContainer selectedCategory] in E.
  rewrite subscribeToPosts_signed_in with (u := u) in E by reflexivity.
  cbn [backend calls setCurrentUser] in E.
  destruct (onSnapshot (backend (authManager p)) (calls (authManager p)) _) as [[]|e].
  - rewrite run_bind, run_modify, run_bind in E. unfold viaAuthManager at 1 in E.
    cbn [authManager setAuthManager setPostsUnsubscribe] in E.
    rewrite subscribeToCategories_signed_in with (u := u) in E by reflexivity.
    cbn [backend calls setListeners recordCall setCurrentUser] in E.
    destruct (onSnapshot _ _ categoriesQuery) as [[]|e].
    + rewrite run_bind, run_modify in E. subst p'.
      split; [reflexivity|]. split; [reflexivity|].
      eexists. split; [reflexivity|]. cbn. rewrite <- !app_assoc. repeat split.
    + subst p'. split; [reflexivity|]. split; [reflexivity|].
      eexists. split; [reflexivity|]. cbn. rewrite <- !app_assoc. repeat split.
  - subst p'. split; [reflexivity|]. split; [reflexivity|].
    eexists. split; [reflexivity|]. cbn. repeat split.
Qed.

(** ** The page: the post form and the add-category button *)

Lemma createPost_run {Msg} (w : world Msg) (text : str) (category : option str) :
  trim text <> [] ->
  createPost text category w =
  match currentUser w with
  | None => (Thrown (newError "User must be authenticated to create posts"), w)
  | Some u =>
      let postData :=
        {| content := trim text;
           category := Some (match category with Some c => c | None => lit "General" end);
           userId := uid u; userEmail := email u;
           createdAt := serverTimestamp; updatedAt := serverTimestamp |} in
      match addDoc (backend w) (calls w) (lit "posts") (PostDoc postData) with
      | Normal docId =>
          (Normal {| id := docId; data := postData |},
           setDocuments (documents w ++ [(lit "posts", docId, PostDoc postData)])
             (recordCall (AddDoc (lit "posts") (PostDoc postData)) w))
      | Thrown e =>
          (Thrown (newError "Failed to create post"),
           logError (lit "Error creating post:") e
             (recordCall (AddDoc (lit "posts") (PostDoc postData)) w))
      end
  end.
Proof.
  intros Ht. destruct (currentUser w) as [u|] eqn:Hu.
  - exact (createPost_checked w text category u Hu Ht).
  - exact (createPost_signed_out w text category Hu).
Qed.

(** X15. Submitting the post form of the dashboard. A content that is blank
    once trimmed is refused on the page: the inline error is shown and the
    gateway is not called. Otherwise the gateway is asked for a post with the
    trimmed content: when the post is persisted the form is cleared, its
    counter reset and the success line shown; when it is not (nobody signed
    in, or the provider refuses) the text typed is kept and the error line
    shows the message of the error. The feed and the selection are
    untouched. *)
Theorem post_submit_outcomes (p : page) (d : dashboard) :
  container p = Dashboard d ->
  let p' := step p SubmitPost in
  let w := authManager p in
  selectedCategory p' = selectedCategory p
  /\ exists d',
       container p' = Dashboard d'
       /\ postsContainer d' = postsContainer d
       /\ if isEmpty (trim (postContent d))
          then authManager p' = w
               /\ postContent d' = postContent d
               /\ postError d' = Some (lit "Please enter some content to post")
               /\ postSuccess d' = None
          else match fst (createPost (trim (postContent d))
                            (Some (if eqb_str (selectedCategory p) (lit "All")
                                   then lit "General" else selectedCategory p)) w) with
               | Normal _ =>
                   postContent d' = [] /\ charCount d' = lit "0/500"
                   /\ postError d' = None
                   /\ postSuccess d' = Some (lit "Post created successfully!")
                   /\ length (documents (authManager p')) = S (length (documents w))
               | Thrown e =>
                   postContent d' = postContent d /\ charCount d' = charCount d
                   /\ postError d' = Some (message e)
                   /\ postSuccess d' = None
                   /\ documents (authManager p') = documents w
               end.
Proof.
  intros Hd. cbv zeta. remember (step p SubmitPost) as p' eqn:E.
  unfold step, handler in E. rewrite run_bind in E. cbn [get MonadState_js] in E.
  rewrite Hd in E. unfold onPostSubmit in E. rewrite run_bind in E.
  cbn [get MonadState_js] in E. rewrite Hd in E. cbv zeta in E.
  rewrite run_bind in E. unfold updateDashboard at 1 in E. rewrite Hd in E.
  destruct (isEmpty (trim (postContent d))) eqn:Hb.
  - unfold updateDashboard in E. cbn [container setContainer] in E. subst p'.
    split; [reflexivity|]. eexists. split; [reflexivity|]. repeat split.
  - rewrite run_catch, run_bind in E. cbn [get MonadState_js] in E.
    rewrite run_bind in E. unfold viaAuthManager at 1 in E.
    cbn [authManager setContainer selectedCategory] in E.
    assert (Ht : trim (trim (postContent d)) <> []).
    { rewrite trim_idempotent. now apply isEmpty_false. }
    rewrite (createPost_run _ _ _ Ht) in E. rewrite (createPost_run _ _ _ Ht).
    destruct (currentUser (authManager p)) as [u|].
    + cbv zeta in E. cbv zeta.
      destruct (addDoc _ _ _ _) as [docId|e]; subst p';
        (split; [reflexivity|]); eexists; (split; [reflexivity|]); cbn;
        rewrite ?length_app; cbn; repeat split; lia.
    + subst p'. split; [reflexivity|]. eexists. split; [reflexivity|]. repeat split.
Qed.

Lemma post_submit_outcomes_witness :
  let p := step (step (initialPage sampleBrowser flakyProvider)
                   (AuthStateChanged (Some alice))) (InputPost (lit "hello")) in
  exists d',
    container (step p SubmitPost) = Dashboard d'
    /\ postContent d' = lit "hello"
    /\ postError d' = Some (lit "Failed to create post").
Proof.
  cbv zeta.
  destruct (post_submit_outcomes
              (step (step (initialPage sampleBrowser flakyProvider)
                       (AuthStateChanged (Some alice))) (InputPost (lit "hello")))
              _ eq_refl) as (_ & d' & H1 & _ & H3).
  exists d'. split; [exact H1|].
  change (postContent d' = lit "hello" /\ charCount d' = lit "5/500"
          /\ postError d' = Some (lit "Failed to create post")
          /\ postSuccess d' = None
          /\ documents (authManager
               (step (step (step (initialPage sampleBrowser flakyProvider)
                       (AuthStateChanged (Some alice))) (InputPost (lit "hello")))
                  SubmitPost)) = []) in H3.
  split; [exact (proj1 H3)|exact (proj1 (proj2 (proj2 H3)))].
Defined.

Lemma createCategory_run {Msg} (w : world Msg) (categoryName : str) :
  trim categoryName <> [] ->
  createCategory categoryName w =
  match currentUser w with
  | None => (Thrown (newError "User must be authenticated to create categories"), w)
  | Some u =>
      let categoryData :=
        {| name := trim categoryName; createdBy := uid u;
           categoryCreatedAt := serverTimestamp |} in
      match addDoc (backend w) (calls w) (lit "categories") (CategoryDoc categoryData) with
      | Normal docId =>
          (Normal {| id := docId; data := categoryData |},
           setDocuments (documents w ++ [(lit "categories", docId, CategoryDoc categoryData)])
             (recordCall (AddDoc (lit "categories") (CategoryDoc categoryData)) w))
      | Thrown e =>
          (Thrown (newError "Failed to create category"),
           logError (lit "Error creating category:") e
             (recordCall (AddDoc (lit "categories") (CategoryDoc categoryData)) w))
      end
  end.
Proof.
  intros Ht. destruct (currentUser w) as [u|] eqn:Hu.
  - exact (createCategory_checked w categoryName u Hu Ht).
  - exact (createCategory_signed_out w categoryName Hu).
Qed.

(** X16. The add-category button of the dashboard, on what the prompt
    returned. A cancelled prompt and a blank answer change nothing: no call,
    no alert. Any other answer asks the gateway for a category of the trimmed
    name; a failure is reported by an alert that starts with
    [Failed to create category: ] and ends with the message of the error, and
    a success shows nothing (the list is redrawn by the live query). The
    dashboard itself is untouched. *)
Theorem add_category_click_outcomes (p : page) (d : dashboard) (answer : option str) :
  container p = Dashboard d ->
  let p' := step p (ClickAddCategory answer) in
  container p' = Dashboard d
  /\ match answer with
     | None => p' = p
     | Some categoryName =>
         if isEmpty (trim categoryName) then p' = p
         else
           match fst (createCategory categoryName (authManager p)) with
           | Normal _ =>
               alerts p' = alerts p
               /\ documents (authManager p') =
                    documents (snd (createCategory categoryName (authManager p)))
           | Thrown e =>
               alerts p' = alerts p ++ [lit "Failed to create category: " ++ message e]
               /\ documents (authManager p') = documents (authManager p)
           end
     end.
Proof.
  intros Hd. cbv zeta. remember (step p (ClickAddCategory answer)) as p' eqn:E.
  unfold step, handler in E. rewrite run_bind in E. cbn [get MonadState_js] in E.
  rewrite Hd in E. unfold onAddCategoryClick in E.
  assert (Hsame : setAuthManager (authManager p) p = p) by now destruct p.
  destruct answer as [categoryName|]; [|subst p'; now split].
  destruct (isEmpty (trim categoryName)) eqn:Hb.
  - rewrite andb_false_r in E. subst p'. now split.
  - assert (Hne : isEmpty categoryName = false).
    { destruct categoryName; [discriminate Hb|reflexivity]. }
    rewrite Hne in E. cbn [negb andb] in E.
    unfold pageCreateCategory in E. rewrite run_catch, run_bind in E.
    unfold viaAuthManager at 1 in E.
    assert (Ht : trim categoryName <> []) by now apply isEmpty_false.
    assert (Ht' : trim (trim categoryName) <> []) by now rewrite trim_idempotent.
    rewrite (createCategory_run _ _ Ht') in E. rewrite (createCategory_run _ _ Ht).
    rewrite trim_idempotent in E.
    destruct (currentUser (authManager p)) as [u|].
    + cbv zeta in E. cbv zeta.
      destruct (addDoc _ _ _ _) as [docId|e]; subst p'; cbn; rewrite ?Hd; repeat split.
    + subst p'. cbn. rewrite ?Hd. repeat split.
Qed.

Lemma add_category_click_outcomes_witness :
  let p := step (initialPage sampleBrowser flakyProvider) (AuthStateChanged (Some alice)) in
  alerts (step p (ClickAddCategory (Some (lit " News ")))) =
    [lit "Failed to create category: Failed to create category"]
  /\ step p (ClickAddCategory (Some (lit "   "))) = p
  /\ step p (ClickAddCategory None) = p.
Proof.
  cbv zeta. split; [|split].
  - exact (proj1 (proj2 (add_category_click_outcomes
             (step (initialPage sampleBrowser flakyProvider) (AuthStateChanged (Some alice)))
             _ (Some (lit " News ")) eq_refl))).
  - exact (proj2 (add_category_click_outcomes
             (step (initialPage sampleBrowser flakyProvider) (AuthStateChanged (Some alice)))
             _ (Some (lit "   ")) eq_refl)).
  - exact (proj2 (add_category_click_outcomes
             (step (initialPage sampleBrowser flakyProvider) (AuthStateChanged (Some alice)))
             _ None eq_refl)).
Defined.

Lemma cleanup_releases_both_witness :
  List.map fst (listeners (authManager aliceDashboard)) = [0; 1]
  /\ findListener 0 (listeners (authManager (snd (cleanup aliceDashboard)))) = None
  /\ findListener 1 (listeners (authManager (snd (cleanup aliceDashboard)))) = None.
Proof.
  split; [reflexivity|].
  exact (cleanup_releases_both aliceDashboard 0 1 eq_refl eq_refl).
Defined.

Lemma query_error_shows_empty_feed_witness :
  exists d',
    container (step aliceDashboard (QueryError 0 permissionDenied)) = Dashboard d'
    /\ postsContainer d' = emptyPostsTemplate.
Proof.
  eexists. unfold step.
  rewrite (query_error_shows_empty_feed aliceDashboard _ 0 permissionDenied
             eq_refl eq_refl).
  split; reflexivity.
Defined.

(** ** The content formatter, further *)

Lemma urlChar_excludes (c : codeunit) :
  urlChar c = true ->
  isWhiteSpace c = false /\ c <> 60%N /\ c <> 62%N /\ c <> 34%N /\ c <> 39%N.
Proof.
  unfold urlChar. cbn [oneOf html lit List.map list_ascii_of_string existsb].
  rewrite negb_true_iff, !orb_false_iff.
  intros (Hw & H1 & H2 & H3 & H4 & _).
  repeat split; [exact Hw| | | |]; intros ->; discriminate.
Qed.

Lemma IsUrl_chars (u : str) : IsUrl u -> Forall (fun c => urlChar c = true) u.
Proof.
  intros (scheme & body & last & Hs & -> & _ & Hbody & Hlast).
  apply Forall_app. split.
  - destruct Hs as [-> | ->]; repeat constructor.
  - apply Forall_app. split; [exact Hbody|].
    constructor; [now apply urlEnd_urlChar|constructor].
Qed.

Lemma Linkified_urls (text : str) (urls : list str) (out : str) :
  Linkified text urls out ->
  Forall (fun u => IsUrl u /\ exists pre post, text = pre ++ u ++ post) urls.
Proof.
  induction 1 as [|c text urls out _ _ IH|u rest urls out Hurl _ _ IH].
  - constructor.
  - eapply Forall_impl; [|exact IH].
    intros u [Hu (pre & post & ->)]. split; [exact Hu|]. now exists (c :: pre), post.
  - constructor.
    + split; [exact Hurl|]. now exists [], rest.
    + eapply Forall_impl; [|exact IH].
      intros u' [Hu (pre & post & ->)]. split; [exact Hu|].
      exists (u ++ pre), post. now rewrite <- app_assoc.
Qed.

(** X19. Every URL [extractUrls] returns occurs in the text, starts with
    [http://] or [https://], and holds no white space, angle bracket or
    quote: put between the quotes of an [href] it cannot close them. *)
Theorem extractUrls_returns_safe_substrings (text : str) :
  Forall
    (fun u =>
       (exists pre post, text = pre ++ u ++ post)
       /\ (startsWith (lit "http://") u = true \/ startsWith (lit "https://") u = true)
       /\ Forall (fun c => isWhiteSpace c = false /\ c <> 60%N /\ c <> 62%N
                           /\ c <> 34%N /\ c <> 39%N) u)
    (extractUrls text).
Proof.
  pose proof (scan_linkified (length text) text (le_n _)) as H.
  apply Linkified_urls in H. unfold extractUrls, matchAll.
  eapply Forall_impl; [|exact H].
  intros u [Hu Hsub]. split; [exact Hsub|]. split.
  - destruct Hu as (scheme & body & last & [-> | ->] & -> & _); [left|right]; reflexivity.
  - eapply Forall_impl; [|exact (IsUrl_chars u Hu)]. intros c. apply urlChar_excludes.
Qed.

Lemma execAt_urlRegex_needs_http (t : str) :
  startsWith (lit "http") t = false -> execAt urlRegex t = None.
Proof.
  intros H. rewrite execAt_urlRegex.
  destruct (startsWith (lit "https://") t) eqn:E1.
  { apply startsWith_spec in E1. destruct E1 as [r ->]. discriminate H. }
  destruct (startsWith (lit "http://") t) eqn:E2; [|reflexivity].
  apply startsWith_spec in E2. destruct E2 as [r ->]. discriminate H.
Qed.

(** X20. A text in which [http] does not occur is returned as it is by
    [linkifyText], and [extractUrls] finds nothing in it. *)
Theorem text_without_http_is_left_alone (text : str) :
  includes (lit "http") text = false ->
  linkifyText text = text /\ extractUrls text = [].
Proof.
  unfold linkifyText, extractUrls, replaceAll, matchAll.
  induction text as [|c text IH]; intros H; [split; reflexivity|].
  cbn [includes] in H. apply orb_false_iff in H. destruct H as [Hs Hi].
  apply execAt_urlRegex_needs_http in Hs.
  rewrite (replaceFrom_nomatch urlRegex anchorTemplate c text Hs).
  rewrite (matchFrom_nomatch urlRegex c text Hs).
  destruct (IH Hi) as [-> ->]. now split.
Qed.

Lemma text_without_http_is_left_alone_witness :
  linkifyText (lit "see you at 10, ok?") = lit "see you at 10, ok?".
Proof.
  exact (proj1 (text_without_http_is_left_alone (lit "see you at 10, ok?") eq_refl)).
Defined.

Lemma escapeHtml_plain (text : str) :
  Forall (fun c => c <> 38%N /\ c <> 60%N /\ c <> 62%N /\ c <> 160%N) text ->
  escapeHtml text = text.
Proof.
  unfold escapeHtml. induction 1 as [|c text (H1 & H2 & H3 & H4) _ IH]; [reflexivity|].
  cbn [flat_map]. rewrite IH.
  apply N.eqb_neq in H1, H2, H3, H4. now rewrite H1, H2, H3, H4.
Qed.

(** X21. For a post content with no ampersand, angle bracket or no-break
    space, the anchors of the rendered body are those of the content itself:
    [renderPosts] links in the escaped content exactly the URLs for which it
    draws preview cards from the raw content. *)
Theorem links_and_previews_agree_on_plain_content (text : str) :
  Forall (fun c => c <> 38%N /\ c <> 60%N /\ c <> 62%N /\ c <> 160%N) text ->
  Linkified text (extractUrls text) (linkifyText (escapeHtml text)).
Proof.
  intros H. rewrite (escapeHtml_plain text H).
  unfold extractUrls, linkifyText, matchAll, replaceAll.
  apply (scan_linkified (length text)). apply le_n.
Qed.

Lemma links_and_previews_agree_on_plain_content_witness :
  Linkified (lit "go http://a.b/c now") (extractUrls (lit "go http://a.b/c now"))
    (linkifyText (escapeHtml (lit "go http://a.b/c now"))).
Proof.
  apply links_and_previews_agree_on_plain_content.
  repeat constructor; discriminate.
Defined.

(** X22. [getTimeAgo] by the milliseconds [d] elapsed since the date: less
    than a minute, also for a date in the future, reads [just now]; then whole
    minutes, hours and days, rounded down, up to a week; from a week on the
    date in the locale's format. *)
Theorem getTimeAgo_buckets (b : browser) (date : Z) :
  ((now b - date < 60000)%Z /\ getTimeAgo b date = lit "just now")
  \/ (exists m, (1 <= m < 60)%Z
        /\ (60000 * m <= now b - date < 60000 * (m + 1))%Z
        /\ getTimeAgo b date = numberToString (Z.to_N m) ++ lit "m ago")
  \/ (exists h, (1 <= h < 24)%Z
        /\ (3600000 * h <= now b - date < 3600000 * (h + 1))%Z
        /\ getTimeAgo b date = numberToString (Z.to_N h) ++ lit "h ago")
  \/ (exists d, (1 <= d < 7)%Z
        /\ (86400000 * d <= now b - date < 86400000 * (d + 1))%Z
        /\ getTimeAgo b date = numberToString (Z.to_N d) ++ lit "d ago")
  \/ ((604800000 <= now b - date)%Z
        /\ getTimeAgo b date = toLocaleDateString b date).
Proof.
  unfold getTimeAgo. cbv zeta.
  generalize (now b - date)%Z. intros d.
  destruct (Z.ltb_spec (d / 1000) 60) as [H1|H1].
  { left. split; [|reflexivity]. Z.to_euclidean_division_equations. lia. }
  right. destruct (Z.ltb_spec (d / 1000) 3600) as [H2|H2].
  { left. exists (d / 1000 / 60)%Z. repeat split;
      try reflexivity; Z.to_euclidean_division_equations; lia. }
  right. destruct (Z.ltb_spec (d / 1000) 86400) as [H3|H3].
  { left. exists (d / 1000 / 3600)%Z. repeat split;
      try reflexivity; Z.to_euclidean_division_equations; lia. }
  right. destruct (Z.ltb_spec (d / 1000) 604800) as [H4|H4].
  { left. exists (d / 1000 / 86400)%Z. repeat split;
      try reflexivity; Z.to_euclidean_division_equations; lia. }
  right. split; [|reflexivity]. Z.to_euclidean_division_equations. lia.
Qed.

(** ** The login and signup forms *)

(** X23. A signup form that fails a client-side check makes no call: the
    gateway is left as it was, the loading line and the button are not
    touched, and the error shown is that of the first check failed, in the
    order email, password length, confirmation. *)
Theorem signup_validation_precedes_any_call (emailValue passwordValue confirmValue : str)
    (p : formPage) :
  isValidEmail (trim emailValue) = false
  \/ (length passwordValue < 6)%nat
  \/ passwordValue <> confirmValue ->
  formManager (snd (onSignupSubmit emailValue passwordValue confirmValue p))
    = formManager p
  /\ formLoading (form (snd (onSignupSubmit emailValue passwordValue confirmValue p)))
    = formLoading (form p)
  /\ submitDisabled (form (snd (onSignupSubmit emailValue passwordValue confirmValue p)))
    = submitDisabled (form p)
  /\ formError (form (snd (onSignupSubmit emailValue passwordValue confirmValue p)))
    = Some (if negb (isValidEmail (trim emailValue))
            then lit "Please enter a valid email address"
            else if (length passwordValue <? 6)%nat
            then lit "Password must be at least 6 characters long"
            else lit "Passwords do not match").
Proof.
  intros H. unfold onSignupSubmit. cbv zeta. rewrite run_bind.
  cbn [get MonadState_js]. rewrite run_bind. unfold setForm at 1.
  destruct (isValidEmail (trim emailValue)) eqn:Ev; cbn [negb].
  2:{ repeat split. }
  destruct (Nat.ltb_spec (length passwordValue) 6) as [Hl|Hl].
  { repeat split. }
  destruct (eqb_str passwordValue confirmValue) eqn:Ec; cbn [negb].
  2:{ repeat split. }
  apply eqb_str_eq in Ec. destruct H as [H|[H|H]]; [discriminate|lia|contradiction].
Qed.

Lemma signup_validation_precedes_any_call_witness :
  calls (formManager (snd (onSignupSubmit (lit "a@b.com") (lit "secret1") (lit "secret2")
                            (freshFormPage acceptingProvider)))) = []
  /\ formError (form (snd (onSignupSubmit (lit "a@b.com") (lit "secret1") (lit "secret2")
                            (freshFormPage acceptingProvider))))
     = Some (lit "Passwords do not match").
Proof.
  destruct (signup_validation_precedes_any_call (lit "a@b.com") (lit "secret1")
              (lit "secret2") (freshFormPage acceptingProvider)) as (Hm & _ & _ & He).
  - right. right. discriminate.
  - split; [now rewrite Hm|exact He].
Defined.

Lemma onSignupSubmit_valid (emailValue passwordValue : str) (p : formPage) :
  isValidEmail (trim emailValue) = true ->
  (6 <= length passwordValue)%nat ->
  onSignupSubmit emailValue passwordValue passwordValue p =
  match registerUser (trim emailValue) passwordValue (formManager p) with
  | (Normal _, w') =>
      (Normal tt,
       {| formManager := w';
          form := {| formError := None; formLoading := true; submitDisabled := true |} |})
  | (Thrown e, w') =>
      (Normal tt,
       {| formManager := w';
          form := {| formError := Some (message e); formLoading := false;
                     submitDisabled := false |} |})
  end.
Proof.
  intros Hv Hl. unfold onSignupSubmit. cbv zeta. rewrite run_bind.
  cbn [get MonadState_js]. rewrite run_bind. unfold setForm at 1.
  rewrite Hv. cbn [negb].
  apply Nat.ltb_ge in Hl. rewrite Hl.
  rewrite (proj2 (eqb_str_eq passwordValue passwordValue) eq_refl). cbn [negb].
  rewrite run_bind. unfold setForm at 1. rewrite run_catch, run_bind.
  unfold viaFormManager. cbn [formManager form].
  destruct (registerUser (trim emailValue) passwordValue (formManager p))
    as [[u|e] w']; reflexivity.
Qed.

(** X24. A signup form that passes the three checks calls [registerUser] with
    the trimmed email and the password as typed. If that returns, the form
    stays as it is while loading, button disabled, until the provider
    announces the sign-in; if it throws, the form shows one of the ten
    messages of [handleFirebaseError] and can be submitted again. *)
Theorem signup_submit_outcomes (emailValue passwordValue : str) (p : formPage) :
  isValidEmail (trim emailValue) = true ->
  (6 <= length passwordValue)%nat ->
  formManager (snd (onSignupSubmit emailValue passwordValue passwordValue p))
    = snd (registerUser (trim emailValue) passwordValue (formManager p))
  /\ ((exists u,
         fst (registerUser (trim emailValue) passwordValue (formManager p)) = Normal u
         /\ form (snd (onSignupSubmit emailValue passwordValue passwordValue p))
            = {| formError := None; formLoading := true; submitDisabled := true |})
      \/ (exists e,
         fst (registerUser (trim emailValue) passwordValue (formManager p)) = Thrown e
         /\ In (message e) authMessages
         /\ form (snd (onSignupSubmit emailValue passwordValue passwordValue p))
            = {| formError := Some (message e); formLoading := false;
                 submitDisabled := false |})).
Proof.
  intros Hv Hl. rewrite (onSignupSubmit_valid emailValue passwordValue p Hv Hl).
  destruct (registerUser (trim emailValue) passwordValue (formManager p))
    as [[u|e] w'] eqn:E.
  - split; [reflexivity|]. left. exists u. split; reflexivity.
  - split; [reflexivity|]. right. exists e. split; [reflexivity|]. split; [|reflexivity].
    apply rethrown_through in E. destruct E as [e0 ->].
    apply handleFirebaseError_known.
Qed.

Lemma signup_submit_outcomes_witness :
  form (snd (onSignupSubmit (lit "  a@b.com ") (lit "secret1") (lit "secret1")
               (freshFormPage refusingProvider)))
    = {| formError := Some (lit "Incorrect password"); formLoading := false;
         submitDisabled := false |}
  /\ calls (formManager (snd (onSignupSubmit (lit "  a@b.com ") (lit "secret1")
                               (lit "secret1") (freshFormPage refusingProvider))))
     = [CreateUserWithEmailAndPassword (lit "a@b.com") (lit "secret1")].
Proof.
  destruct (signup_submit_outcomes (lit "  a@b.com ") (lit "secret1")
              (freshFormPage refusingProvider) eq_refl) as [Hm _].
  - cbn. lia.
  - split; [reflexivity|]. now rewrite Hm.
Defined.



(** ** Notifications of the live queries *)

Lemma posts_snapshot_released (p : page) (h : handle) (docs : list post) :
  findListener h (listeners (authManager p)) = None ->
  step p (PostsSnapshot h docs) = p.
Proof.
  intros H. unfold step, handler. rewrite run_bind. cbn [get MonadState_js].
  now rewrite H.
Qed.

Lemma posts_snapshot_run (p : page) (h : handle) (docs : list post) :
  findListener h (listeners (authManager p))
    = Some (PostsListener (postsListener PostsCallback)) ->
  handler (PostsSnapshot h docs) p = renderPosts docs p.
Proof.
  intros H. unfold handler. rewrite run_bind. cbn [get MonadState_js].
  rewrite H. cbn [onNext postsListener runEffects runEffect]. rewrite run_bind.
  destruct (renderPosts docs p) as [[[]|e] p']; reflexivity.
Qed.

Lemma categories_snapshot_run (p : page) (h : handle) (docs : list categoryItem) :
  findListener h (listeners (authManager p))
    = Some (CategoriesListener (categoriesListener CategoriesCallback)) ->
  handler (CategoriesSnapshot h docs) p
    = renderCategories (setCategories docs p).
Proof.
  intros H. unfold handler. rewrite run_bind. cbn [get MonadState_js].
  rewrite H. cbn [onNext categoriesListener runEffects runEffect].
  rewrite run_bind, run_bind, run_modify.
  destruct (renderCategories (setCategories docs p)) as [[[]|e] p']; reflexivity.
Qed.

(** X26. While the dashboard is not on show, a notification of a live query
    that was not released still runs its callback: a posts notification
    throws inside it the TypeError of the engine for setting [innerHTML] on
    [null], for want of a posts container, and leaves the page as it was; a
    categories notification replaces the categories of the page and draws
    nothing. *)
Theorem notifications_off_the_dashboard (p : page) (hp hc : handle)
    (posts : list post) (cats : list categoryItem) :
  (forall d, container p <> Dashboard d) ->
  findListener hp (listeners (authManager p))
    = Some (PostsListener (postsListener PostsCallback)) ->
  findListener hc (listeners (authManager p))
    = Some (CategoriesListener (categoriesListener CategoriesCallback)) ->
  handler (PostsSnapshot hp posts) p
    = (Thrown (nullPropertyError (env p) (lit "innerHTML")), p)
  /\ handler (CategoriesSnapshot hc cats) p = (Normal tt, setCategories cats p).
Proof.
  intros Hd Hp Hc. split.
  - rewrite (posts_snapshot_run p hp posts Hp). unfold renderPosts.
    destruct (container p) as [| | |d] eqn:E; try reflexivity.
    now destruct (Hd d).
  - rewrite (categories_snapshot_run p hc cats Hc). unfold renderCategories.
    rewrite run_bind. cbn [get MonadState_js container setCategories].
    destruct (container p) as [| | |d] eqn:E; try reflexivity.
    now destruct (Hd d).
Qed.

Lemma notifications_off_the_dashboard_witness :
  container (run aliceDashboard [ClickLogout; AuthStateChanged None]) = LoginPage
  /\ fst (handler (PostsSnapshot 0 [markupPost])
            (run aliceDashboard [ClickLogout; AuthStateChanged None]))
     = Thrown (newError "Cannot set properties of null (setting 'innerHTML')")
  /\ categories (step (run aliceDashboard [ClickLogout; AuthStateChanged None])
                   (CategoriesSnapshot 1 [markupCategory]))
     = [markupCategory].
Proof.
  destruct (notifications_off_the_dashboard
              (run aliceDashboard [ClickLogout; AuthStateChanged None]) 0 1
              [markupPost] [markupCategory]) as [Hp Hc].
  - intros d. discriminate.
  - reflexivity.
  - reflexivity.
  - split; [reflexivity|]. split; [now rewrite Hp|].
    unfold step. now rewrite Hc.
Defined.

Lemma findListener_app {Msg} (h : handle) (l1 l2 : list (handle * anyListener Msg)) :
  findListener h (l1 ++ l2) =
  match findListener h l1 with
  | Some x => Some x
  | None => findListener h l2
  end.
Proof.
  induction l1 as [|[h' x] l1 IH]; cbn [app findListener]; [reflexivity|].
  destruct (Nat.eqb h' h); [reflexivity|exact IH].
Qed.

Lemma category_switch_run (p : page) (d : dashboard) (u : user) (h : handle) (X : str) :
  container p = Dashboard d ->
  currentUser (authManager p) = Some u ->
  postsUnsubscribe p = Some h ->
  eqb_str X (lit "All") || validSelector (env p) (html "[data-category=`" ++ X ++ html "`]")
    = true ->
  onSnapshot (backend (authManager p)) (calls (authManager p) ++ [Unsubscribe h])
    (postsQueryFor X) = Normal tt ->
  env (step p (ClickCategory X)) = env p
  /\ container (step p (ClickCategory X)) =
       Dashboard (setPostLabel (if eqb_str X (lit "All") then lit "What's on your mind?"
                                else lit "Share in " ++ X) d)
  /\ listeners (authManager (step p (ClickCategory X))) =
       filter (fun hl => negb (Nat.eqb (fst hl) h)) (listeners (authManager p))
       ++ [(nextHandle (authManager p), PostsListener (postsListener PostsCallback))].
Proof.
  intros Hd Hu Hh Hsel Hok.
  remember (step p (ClickCategory X)) as p' eqn:E.
  unfold step, handler in E. rewrite run_bind in E. cbn [get MonadState_js] in E.
  rewrite Hd in E. rewrite (selectCategory_run p d X Hd), Hsel in E.
  match type of E with
  | context [refreshFeed ?q] => rewrite (refreshFeed_run q u h Hu Hh) in E
  end.
  cbn [authManager setContainer setSelectedCategory selectedCategory] in E.
  rewrite Hok in E. subst p'. repeat split.
Qed.

(** X27. After a category switch the feed listens to the new query only: a
    posts notification of the released query changes nothing, and one of the
    new query fills the posts container with the posts it brings. *)
Theorem category_switch_redirects_the_feed (p : page) (d : dashboard)
    (u : user) (h : handle) (X : str) (docs : list post) :
  container p = Dashboard d ->
  currentUser (authManager p) = Some u ->
  postsUnsubscribe p = Some h ->
  eqb_str X (lit "All") || validSelector (env p) (html "[data-category=`" ++ X ++ html "`]")
    = true ->
  onSnapshot (backend (authManager p)) (calls (authManager p) ++ [Unsubscribe h])
    (postsQueryFor X) = Normal tt ->
  pageFresh p ->
  h < nextHandle (authManager p) ->
  step (step p (ClickCategory X)) (PostsSnapshot h docs) = step p (ClickCategory X)
  /\ exists d',
       container (step (step p (ClickCategory X))
                    (PostsSnapshot (nextHandle (authManager p)) docs)) = Dashboard d'
       /\ postsContainer d' = renderPostsHtml (env p) docs.
Proof.
  intros Hd Hu Hh Hsel Hok Hfresh Hlt.
  destruct (category_switch_run p d u h X Hd Hu Hh Hsel Hok) as (Henv & Hc & Hl).
  split.
  - apply posts_snapshot_released. rewrite Hl, findListener_app, findListener_released.
    cbn [findListener]. destruct (Nat.eqb_spec (nextHandle (authManager p)) h); [lia|reflexivity].
  - unfold step at 1. rewrite posts_snapshot_run.
    + unfold renderPosts. rewrite Hc, Henv. eexists. split; reflexivity.
    + rewrite Hl. apply findListener_fresh.
      apply Forall_forall. intros hl Hin. apply filter_In in Hin.
      destruct Hin as [Hin _]. unfold pageFresh, freshHandles in Hfresh.
      rewrite Forall_forall in Hfresh. now apply Hfresh.
Qed.

Lemma category_switch_redirects_the_feed_witness :
  step (step aliceDashboard (ClickCategory (lit "News"))) (PostsSnapshot 0 [markupPost])
    = step aliceDashboard (ClickCategory (lit "News"))
  /\ exists d',
       container (step (step aliceDashboard (ClickCategory (lit "News")))
                    (PostsSnapshot 2 [markupPost])) = Dashboard d'
       /\ postsContainer d' = renderPostsHtml sampleBrowser [markupPost].
Proof.
  apply (category_switch_redirects_the_feed aliceDashboard _ alice 0 (lit "News")
           [markupPost] eq_refl eq_refl eq_refl eq_refl eq_refl).
  - repeat constructor.
  - cbn. lia.
Defined.

(** ** The one-time reads *)

(** X29. [getUserProfile] never throws and asks for no signed-in user: it
    always reads the document of the [users] collection, and returns its data
    when it exists; a missing document and a failed read both give [null],
    the failure being logged. *)
Theorem getUserProfile_never_throws (uid : str) (r : readingWorld) :
  reads (snd (getUserProfile uid r)) = reads r ++ [GetDoc (lit "users") uid]
  /\ match getDoc (source r) (reads r) (lit "users") uid with
     | Normal found =>
         fst (getUserProfile uid r) = Normal found
         /\ gateway (snd (getUserProfile uid r)) = gateway r
     | Thrown e =>
         fst (getUserProfile uid r) = Normal None
         /\ console (gateway (snd (getUserProfile uid r)))
            = console (gateway r) ++ [(lit "Error getting user profile:", e)]
     end.
Proof.
  unfold getUserProfile. rewrite run_catch, run_bind. unfold window_getDoc.
  destruct (getDoc _ _ _ _) as [[d|]|e]; repeat split.
Qed.

(** X30. [getPosts] and [getCategories] read nothing for a signed-out
    gateway and throw the authentication error. Signed in, each makes one
    read, of the posts by creation time, newest first, up to the limit (50 by
    default), or of all categories, oldest first; it returns the documents in
    the order of the snapshot, or logs the failure and throws its own
    message. *)
Theorem one_time_reads_outcomes (limitCount : option N) (r : readingWorld) :
  let postsQuery :=
    {| collection := lit "posts"; whereEq := None;
       orderBy := (lit "createdAt", desc);
       limit := Some (match limitCount with Some n => n | None => 50%N end) |} in
  let categoriesQuery :=
    {| collection := lit "categories"; whereEq := None;
       orderBy := (lit "createdAt", asc); limit := None |} in
  match currentUser (gateway r) with
  | None =>
      getPosts limitCount r
        = (Thrown (newError "User must be authenticated to view posts"), r)
      /\ getCategories r
        = (Thrown (newError "User must be authenticated to view categories"), r)
  | Some _ =>
      reads (snd (getPosts limitCount r)) = reads r ++ [GetDocs postsQuery]
      /\ reads (snd (getCategories r)) = reads r ++ [GetDocs categoriesQuery]
      /\ match getDocs (source r) (reads r) postsQuery with
         | Normal docs => fst (getPosts limitCount r) = Normal docs
         | Thrown e =>
             fst (getPosts limitCount r) = Thrown (newError "Failed to get posts")
             /\ console (gateway (snd (getPosts limitCount r)))
                = console (gateway r) ++ [(lit "Error getting posts:", e)]
         end
      /\ match getDocs (source r) (reads r) categoriesQuery with
         | Normal docs => fst (getCategories r) = Normal docs
         | Thrown e =>
             fst (getCategories r) = Thrown (newError "Failed to get categories")
             /\ console (gateway (snd (getCategories r)))
                = console (gateway r) ++ [(lit "Error getting categories:", e)]
         end
  end.
Proof.
  cbv zeta. unfold getPosts, getCategories. cbv zeta.
  rewrite !run_bind. unfold viaGateway, getCurrentUser.
  destruct r as [w src rs]. cbn [gateway source reads].
  destruct (currentUser w) as [u|]; [|split; reflexivity].
  rewrite !run_catch, !run_bind. unfold window_getDocs. cbn [gateway source reads].
  split; [destruct (getDocs src rs _) as [docs|e]; reflexivity|].
  split; [destruct (getDocs src rs _) as [docs|e]; reflexivity|].
  split; destruct (getDocs src rs _) as [docs|e]; repeat split.
Qed.
